(** * Scenario batch orchestrator of the WOFOST simulation worker

    Shallow embedding of [SimulationWorker.run]
    (src/app/simulation/worker.py) together with the two catalogues it
    reads (src/app/config/crops.py, src/app/config/fertilizers.py), and
    the properties of the batch orchestrator proved about it.

    Conventions of the embedding.
    - Python [float] and [int] quantities (temperatures, masses, nitrogen
      amounts) are exact rationals [Q]; counters and percentages are [Z].
    - Python dictionaries read by key are [gmap string _]; the scenario
      catalogue, which the worker iterates in insertion order, is an
      association list.
    - [int(70 * completed / total_scenarios)] is the truncating
      quotient of integers, [ZeroDivisionError] at 0.
    - A [pandas] frame is the list of the engine's rows plus the two
      derived columns, absent until assigned; [pd.date_range] is taken
      on the calendar.
    - Exceptions are the [Raise] results of the monad [M], which also
      records everything the worker emits (Qt signals and [print]s) in
      the order of emission.  A signal that has been emitted stays
      emitted when a later statement raises.
    - The PCSE collaborators (weather provider, crop-data provider,
      engine) are variables of the section [Worker]. *)

From Stdlib Require Import ZArith Zquot QArith Qminmax List String Lia Bool Sorted.
From stdpp Require Import base gmap strings list pretty.
Import ListNotations.

Local Open Scope string_scope.
Local Open Scope list_scope.
Local Open Scope Z_scope.

(** ** Exceptions and the worker's effects *)

Inductive exn : Type :=
| KeyError (key : string)
| OverflowError (msg : string)
| ZeroDivisionError
| PCSEError (msg : string).

Inductive res (A : Type) : Type :=
| Ok (a : A)
| Raise (e : exn).
Arguments Ok {A} a.
Arguments Raise {A} e.

Definition is_ok {A} (r : res A) : bool :=
  match r with Ok _ => true | Raise _ => false end.

(** ** Calendar dates

    [datetime.date] as CPython implements it: a (year, month, day) triple,
    with addition of a [timedelta] going through the proleptic Gregorian
    ordinal and raising [OverflowError] outside years 1..9999. *)

Record date : Type := mkdate { year : Z; month : Z; day : Z }.

Module Datetime.

Definition MAXORDINAL : Z := 3652059.
Definition DI400Y : Z := 146097.
Definition DI100Y : Z := 36524.
Definition DI4Y : Z := 1461.

Definition is_leap (y : Z) : bool :=
  (y mod 4 =? 0) && (negb (y mod 100 =? 0) || (y mod 400 =? 0)).

Definition DAYS_IN_MONTH : list Z :=
  [-1; 31; 28; 31; 30; 31; 30; 31; 31; 30; 31; 30; 31].

Definition DAYS_BEFORE_MONTH : list Z :=
  [-1; 0; 31; 59; 90; 120; 151; 181; 212; 243; 273; 304; 334].

Definition table (t : list Z) (m : Z) : Z := nth (Z.to_nat m) t (-1).

Definition days_before_year (y : Z) : Z :=
  let y := y - 1 in y * 365 + y / 4 - y / 100 + y / 400.

Definition days_before_month (y m : Z) : Z :=
  table DAYS_BEFORE_MONTH m + (if (2 <? m) && is_leap y then 1 else 0).

Definition ymd2ord (y m d : Z) : Z :=
  days_before_year y + days_before_month y m + d.

Definition ord2ymd (n : Z) : date :=
  let n := n - 1 in
  let n400 := n / DI400Y in
  let n := n mod DI400Y in
  let y := n400 * 400 + 1 in
  let n100 := n / DI100Y in
  let n := n mod DI100Y in
  let n4 := n / DI4Y in
  let n := n mod DI4Y in
  let n1 := n / 365 in
  let n := n mod 365 in
  let y := y + n100 * 100 + n4 * 4 + n1 in
  if (n1 =? 4) || (n100 =? 4) then mkdate (y - 1) 12 31
  else
    let leapyear := (n1 =? 3) && (negb (n4 =? 24) || (n100 =? 3)) in
    let m := Z.shiftr (n + 50) 5 in
    let preceding :=
      table DAYS_BEFORE_MONTH m + (if (2 <? m) && leapyear then 1 else 0) in
    if n <? preceding then
      let m := m - 1 in
      let preceding :=
        preceding
        - (table DAYS_IN_MONTH m + (if (m =? 2) && leapyear then 1 else 0)) in
      mkdate y m (n - preceding + 1)
    else mkdate y m (n - preceding + 1).

Definition toordinal (d : date) : Z := ymd2ord (year d) (month d) (day d).

(** [date.__add__(timedelta(days=n))] *)
Definition add_days (d : date) (n : Z) : res date :=
  let o := toordinal d + n in
  if (0 <? o) && (o <=? MAXORDINAL) then Ok (ord2ymd o)
  else Raise (OverflowError "date value out of range").

(** [pd.date_range(date(y, 1, 1), date(y, 12, 31))] *)
Definition year_days (y : Z) : list date :=
  let first := ymd2ord y 1 1 in
  let last := ymd2ord y 12 31 in
  map (fun k => ord2ymd (first + Z.of_nat k))
      (seq 0 (Z.to_nat (last - first + 1))).

End Datetime.

(** ** Data model *)

(** One element of a scenario's ["applications"] list: the tuple
    [(days, amount, recovery)]. *)
Record Application : Type := mkApplication {
  app_days : Z;
  app_amount : Q;
  app_recovery : Q
}.

(** A fertilizer scenario (a value of [fert_scenarios]).  ["enabled"] is
    the only key the worker reads with [.get], hence the only optional
    one. *)
Record Scenario : Type := mkScenario {
  name : string;
  total_n : Q;
  applications : list Application;
  enabled : option bool
}.

(** An entry of [CROP_OPTIONS]. *)
Record CropConfig : Type := mkCropConfig {
  variety : string;
  season_days : Z;
  needs_vern_override : option bool
}.

Record Location : Type := mkLocation {
  location_name : string;
  lat : Q;
  lon : Q
}.

Record Config : Type := mkConfig {
  crop : string;
  location : Location;
  soil_params : gmap string Q;
  fert_scenarios : list (string * Scenario);
  start_date : date
}.

(** The agromanagement structure handed to the engine. *)
Record NEvent : Type := mkNEvent { N_amount : Q; N_recovery : Q }.

Record TimedEvent : Type := mkTimedEvent {
  event_signal : string;
  event_name : string;          (* f"N application {i + 1}" *)
  comment_amount : Q;           (* the amount shown in f"{amount} kg N/ha" *)
  events_table : list (date * NEvent)
}.

Record CropCalendar : Type := mkCropCalendar {
  crop_name : string;
  variety_name : string;
  crop_start_date : date;
  crop_start_type : string;
  crop_end_date : date;
  crop_end_type : string;
  max_duration : Z
}.

Record Campaign : Type := mkCampaign {
  campaign_date : date;
  calendar : CropCalendar;
  TimedEvents : option (list TimedEvent);
  StateEvents : option (list TimedEvent)
}.

Record Agro : Type := mkAgro {
  Version : Q;
  AgroManagement : list Campaign
}.

(** What the weather provider returns for a date. *)
Record WeatherSample : Type := mkWeatherSample {
  TMAX : Q; TMIN : Q; RAIN : Q; IRRAD : Q
}.

Definition WeatherProvider : Type := date -> res WeatherSample.

Record WeatherRow : Type := mkWeatherRow {
  w_date : date; tmax : Q; tmin : Q; rain : Q; radiation : Q
}.

(** A row of the engine's daily output, and the [pandas] frame built from
    the rows, with the two derived columns once they are attached. *)
Record OutputRow : Type := mkOutputRow {
  row_day : date;
  row_vars : gmap string Q
}.

Record DataFrame : Type := mkDataFrame {
  rows : list OutputRow;
  GDD : option (list Q);
  daily_GDD : option (list Q)
}.

Record ScenarioResult : Type := mkScenarioResult {
  df : DataFrame;
  summary : gmap string Q;
  yield_kg : Q;
  yield_t : Q;
  scenario : string;
  scenario_key : string;
  n_rate : Q;
  tagp : Q;
  laimax : Q
}.

(** Everything the worker lets the outside see, in order. *)
Inductive effect : Type :=
| Progress (pct : Z) (msg : string)
| Finished (results : list ScenarioResult) (dataframes : gmap string DataFrame)
           (weather_df : list WeatherRow) (weather_year : Z)
           (loc_name : string)
| Error (e : exn)
| Print (e : exn)
| PrintScenarioError (key : string) (e : exn).

(** ** The worker monad: emitted effects and exceptions *)

Definition M (A : Type) : Type := list effect * res A.

Definition ret {A} (a : A) : M A := ([], Ok a).

Definition bind {A B} (m : M A) (f : A -> M B) : M B :=
  match m with
  | (w, Ok a) => let (w', r) := f a in (w ++ w', r)
  | (w, Raise e) => (w, Raise e)
  end.

Definition lift {A} (r : res A) : M A := ([], r).

Definition tell (e : effect) : M unit := ([e], Ok tt).

(** [try: m  except Exception as e: h e] *)
Definition try_except {A} (m : M A) (h : exn -> M A) : M A :=
  match m with
  | (w, Ok a) => (w, Ok a)
  | (w, Raise e) => let (w', r) := h e in (w ++ w', r)
  end.

Declare Scope worker_scope.
Delimit Scope worker_scope with worker.
Notation "x <- m ;; k" := (bind m (fun x => k))
  (at level 100, m at next level, right associativity) : worker_scope.
Notation "m ;; k" := (bind m (fun _ => k))
  (at level 100, right associativity) : worker_scope.
Local Open Scope worker_scope.

Definition effects {A} (m : M A) : list effect := fst m.
Definition outcome {A} (m : M A) : res A := snd m.

(** ** Dictionary reads *)

(** [d[k]]: raises [KeyError] on a missing key. *)
Definition getitem (d : gmap string Q) (k : string) : res Q :=
  match d !! k with
  | Some v => Ok v
  | None => Raise (KeyError k)
  end.

(** [d.get(k, dflt)] *)
Definition get (d : gmap string Q) (k : string) (dflt : Q) : Q :=
  default dflt (d !! k).

(** ** Catalogues (src/app/config) *)

Definition CROP_OPTIONS : gmap string CropConfig :=
  list_to_map
    [ ("barley", mkCropConfig "Spring_barley_301" 120 None);
      ("wheat", mkCropConfig "Winter_wheat_101" 150 (Some true));
      ("potato", mkCropConfig "Potato_701" 120 None);
      ("cassava", mkCropConfig "Cassava_VanHeemst_1988" 300 None);
      ("sweetpotato", mkCropConfig "Sweetpotato_VanHeemst_1988" 150 None) ].

Definition DEFAULT_FERT_SCENARIOS : list (string * Scenario) :=
  [ ("none", mkScenario "No Fertilizer" 0 [] (Some true));
    ("low", mkScenario "Low (25 kg N/ha)" 25
       [mkApplication 0 15 0.7; mkApplication 30 10 0.6] (Some true));
    ("medium", mkScenario "Medium (50 kg N/ha)" 50
       [mkApplication 0 20 0.7; mkApplication 30 15 0.65;
        mkApplication 50 15 0.6] (Some true));
    ("recommended", mkScenario "Recommended (75 kg N/ha)" 75
       [mkApplication 0 25 0.7; mkApplication 30 25 0.65;
        mkApplication 50 25 0.6] (Some true));
    ("high", mkScenario "High (100 kg N/ha)" 100
       [mkApplication 0 30 0.7; mkApplication 25 35 0.65;
        mkApplication 50 35 0.6] (Some true)) ].

(** ** Agromanagement (worker.py, lines 80-128) *)

(** The body of [for i, (days, amount, recovery) in enumerate(...)]:
    [i] is the index [enumerate] has reached, [timed_events] the list
    appended to so far. *)
Fixpoint timed_events_loop (planting_date : date) (apps : list Application)
    (i : nat) (timed_events : list TimedEvent) : res (list TimedEvent) :=
  match apps with
  | [] => Ok timed_events
  | a :: apps' =>
      match Datetime.add_days planting_date (app_days a) with
      | Raise e => Raise e
      | Ok app_date =>
          timed_events_loop planting_date apps' (S i)
            (timed_events ++
             [ {| event_signal := "apply_n";
                  event_name := "N application " +:+ pretty (Z.of_nat i + 1);
                  comment_amount := app_amount a;
                  events_table :=
                    [ (app_date, {| N_amount := app_amount a;
                                    N_recovery := app_recovery a |}) ] |} ])
      end
  end.

(** [timed_events = None; if scenario["applications"]: timed_events = [] ...] *)
Definition build_timed_events (planting_date : date) (apps : list Application)
  : res (option (list TimedEvent)) :=
  match apps with
  | [] => Ok None
  | _ :: _ =>
      match timed_events_loop planting_date apps 0 [] with
      | Ok timed_events => Ok (Some timed_events)
      | Raise e => Raise e
      end
  end.

Definition planting_date_of (start_date : date) : date :=
  mkdate (year start_date) (month start_date) (day start_date).

Definition build_agro (crop_name : string) (crop_config : CropConfig)
    (start_date : date) (sc : Scenario) : res Agro :=
  let planting_date := planting_date_of start_date in
  let end_date := mkdate (year start_date) 12 31 in
  let max_duration := season_days crop_config in
  match build_timed_events planting_date (applications sc) with
  | Raise e => Raise e
  | Ok timed_events =>
      Ok {| Version := 1;
            AgroManagement :=
              [ {| campaign_date := planting_date;
                   calendar :=
                     {| crop_name := crop_name;
                        variety_name := variety crop_config;
                        crop_start_date := planting_date;
                        crop_start_type := "emergence";
                        crop_end_date := end_date;
                        crop_end_type := "earliest";
                        max_duration := max_duration |};
                   TimedEvents := timed_events;
                   StateEvents := None |} ] |}
  end.

(** ** Soil and site data (worker.py, lines 134-158) *)

Definition build_soildata (soil_params : gmap string Q) : M (gmap string Q) :=
  SM0 <- lift (getitem soil_params "SM0") ;;
  SMFCF <- lift (getitem soil_params "SMFCF") ;;
  SMW <- lift (getitem soil_params "SMW") ;;
  CRAIRC <- lift (getitem soil_params "CRAIRC") ;;
  RDMSOL <- lift (getitem soil_params "RDMSOL") ;;
  K0 <- lift (getitem soil_params "K0") ;;
  SOPE <- lift (getitem soil_params "SOPE") ;;
  KSUB <- lift (getitem soil_params "KSUB") ;;
  SMLIM <- lift (getitem soil_params "SMFCF") ;;
  NSOILBASE <- lift (getitem soil_params "NSOILBASE") ;;
  ret (list_to_map
         [ ("SM0", SM0); ("SMFCF", SMFCF); ("SMW", SMW); ("CRAIRC", CRAIRC);
           ("RDMSOL", RDMSOL); ("K0", K0); ("SOPE", SOPE); ("KSUB", KSUB);
           ("IFUNRN", 0%Q); ("SSMAX", 0%Q); ("SSI", 0%Q); ("WAV", 50%Q);
           ("NOTINF", 0%Q); ("SMLIM", SMLIM); ("NSOILBASE", NSOILBASE);
           ("NSOILBASE_FR", get soil_params "NSOILBASE_FR" 0.025%Q) ]).

Definition sitedata : gmap string Q :=
  list_to_map [ ("CO2", 415%Q); ("NAVAILI", 20%Q); ("BG_N_SUPPLY", 0.5%Q) ].

(** [if crop_config.get("needs_vern_override"): params.set_override(...)] *)
Definition vern_overrides (crop_config : CropConfig) : gmap string Q :=
  if default false (needs_vern_override crop_config)
  then <["VERNDVS" := 0%Q]> (<["VERNBASE" := 0%Q]> (<["VERNSAT" := 0%Q]> ∅))
  else ∅.

(** ** Yield rule (worker.py, lines 181-194) *)

Definition root_crops : list string := ["potato"; "cassava"; "sweetpotato"].

Definition is_root_crop (crop_name : string) : bool :=
  bool_decide (crop_name ∈ root_crops).

(** [x > 0] on numbers. *)
Definition gt0 (x : Q) : bool := negb (Qle_bool x 0).

Definition main_yield_of (crop_name : string) (s : gmap string Q) : Q :=
  let grain_yield := get s "TWSO" 0 in
  if is_root_crop crop_name then
    if gt0 grain_yield then grain_yield else (get s "TAGP" 0 * 0.5)%Q
  else
    if gt0 grain_yield then grain_yield else (get s "TAGP" 0 * 0.4)%Q.

(** ** Growing degree days (worker.py, lines 196-224) *)

(** Python's [max(a, b)]: [b] when [b > a], else [a]. *)
Definition py_max (a b : Q) : Q := if Qle_bool b a then a else b.

Definition tbase : Q := 0.

Definition daily_gdd_of (w : WeatherSample) : Q :=
  py_max 0 ((TMAX w + TMIN w) / 2 - tbase)%Q.

(** One iteration's [try: ... except Exception as e: print(e); daily_gdd = 0.0] *)
Definition daily_gdd_at (weather : WeatherProvider) (d : date) : M Q :=
  try_except
    (wdata <- lift (weather d) ;; ret (daily_gdd_of wdata))
    (fun e => tell (Print e) ;; ret 0%Q).

(** [for d in df['day']: ...] with its three loop-carried variables. *)
Fixpoint gdd_loop (weather : WeatherProvider) (days : list date)
    (cumulative_gdd : Q) (gdd_list daily_gdd_list : list Q)
  : M (list Q * list Q) :=
  match days with
  | [] => ret (gdd_list, daily_gdd_list)
  | d :: days' =>
      daily_gdd <- daily_gdd_at weather d ;;
      let cumulative_gdd := (cumulative_gdd + daily_gdd)%Q in
      gdd_loop weather days' cumulative_gdd
        (gdd_list ++ [cumulative_gdd]) (daily_gdd_list ++ [daily_gdd])
  end.

(** [df['day']]: a frame built from an empty output has no columns. *)
Definition df_day (df : DataFrame) : res (list date) :=
  match rows df with
  | [] => Raise (KeyError "day")
  | _ :: _ => Ok (map row_day (rows df))
  end.

(** ** The worker *)

Section Worker.

(** External collaborators (PCSE).  Each may raise. *)
Variable CropData : Type.
(** [NASAPowerWeatherDataProvider(latitude=..., longitude=...)] *)
Variable NASAPowerWeatherDataProvider : Q -> Q -> res WeatherProvider.
(** [YAMLCropDataProvider(...)] followed by [set_active_crop(crop, variety)] *)
Variable YAMLCropDataProvider : string -> string -> res CropData.

Record Params : Type := mkParams {
  cropdata : CropData;
  soildata : gmap string Q;
  site : gmap string Q;
  overrides : gmap string Q
}.

(** [Wofost81_NWLP_CWB_CNB(params, weather, agro)], [run_till_terminate()],
    [get_output()] and [get_summary_output()]: the daily output and the
    list of summaries, or the exception one of the four calls raised. *)
Variable Wofost81_NWLP_CWB_CNB :
  Params -> WeatherProvider -> Agro ->
  res (list OutputRow * list (gmap string Q)).

(** The variables a loop iteration carries to the next one. *)
Record Locals : Type := mkLocals {
  results : list ScenarioResult;
  dataframes : gmap string DataFrame;
  completed : Z
}.

Definition is_enabled (sc : Scenario) : bool := default true (enabled sc).

(** [len([s for s in fert_scenarios.values() if s.get("enabled", True)])] *)
Definition total_scenarios_of (fert_scenarios : list (string * Scenario)) : Z :=
  Z.of_nat (List.length (List.filter (fun ks => is_enabled (snd ks)) fert_scenarios)).

(** [20 + int(70 * completed / total_scenarios)] *)
Definition progress_pct (completed total_scenarios : Z) : res Z :=
  if total_scenarios =? 0 then Raise ZeroDivisionError
  else Ok (20 + Z.quot (70 * completed) total_scenarios).

(** Lines 80-169: everything a scenario needs before the engine runs.
    None of it is inside the scenario's [try]. *)
Definition construct (cfg : Config) (crop_config : CropConfig)
    (sc : Scenario) : M (Agro * Params) :=
  agro <- lift (build_agro (crop cfg) crop_config (start_date cfg) sc) ;;
  cropd <- lift (YAMLCropDataProvider (crop cfg) (variety crop_config)) ;;
  soil <- build_soildata (soil_params cfg) ;;
  ret (agro,
       {| cropdata := cropd; soildata := soil; site := sitedata;
          overrides := vern_overrides crop_config |}).

(** Lines 172-238: the body of the scenario's [try].  It returns the
    batch's result list and table map as the body leaves them; every
    statement that can raise comes before the first of the two
    updates. *)
Definition guarded (cfg : Config) (weather : WeatherProvider)
    (key : string) (sc : Scenario) (agro : Agro) (params : Params)
    (results : list ScenarioResult) (dataframes : gmap string DataFrame)
  : M (list ScenarioResult * gmap string DataFrame) :=
  out <- lift (Wofost81_NWLP_CWB_CNB params weather agro) ;;
  let '(output, summaries) := out in
  let df := {| rows := output; GDD := None; daily_GDD := None |} in
  match summaries with
  | [] => ret (results, dataframes)
  | s :: _ =>
      (* both branches of [if crop_name in [...]] assign [main_yield];
         lines 196-236 continue the [else] branch *)
      let main_yield := main_yield_of (crop cfg) s in
      if is_root_crop (crop cfg) then
        ret (results, <[name sc := df]> dataframes)
      else
        days <- lift (df_day df) ;;
        cols <- gdd_loop weather days 0 [] [] ;;
        let '(gdd_list, daily_gdd_list) := cols in
        let df := {| rows := output; GDD := Some gdd_list;
                     daily_GDD := Some daily_gdd_list |} in
        ret (results ++
             [ {| df := df;
                  summary := s;
                  yield_kg := main_yield;
                  yield_t := (main_yield / 1000)%Q;
                  scenario := name sc;
                  scenario_key := key;
                  n_rate := total_n sc;
                  tagp := get s "TAGP" 0;
                  laimax := get s "LAIMAX" 0 |} ],
             <[name sc := df]> dataframes)
  end.

(** One iteration of [for key, scenario in fert_scenarios.items()]. *)
Definition scenario_body (cfg : Config) (crop_config : CropConfig)
    (weather : WeatherProvider) (total_scenarios : Z)
    (st : Locals) (key : string) (sc : Scenario) : M Locals :=
  if negb (is_enabled sc) then ret st
  else
    pct <- lift (progress_pct (completed st) total_scenarios) ;;
    tell (Progress pct ("Running: " +:+ name sc +:+ "...")) ;;
    built <- construct cfg crop_config sc ;;
    let '(agro, params) := built in
    updated <- try_except
                 (guarded cfg weather key sc agro params
                          (results st) (dataframes st))
                 (fun e => tell (PrintScenarioError key e) ;;
                           ret (results st, dataframes st)) ;;
    ret {| results := fst updated;
           dataframes := snd updated;
           completed := completed st + 1 |}.

Fixpoint scenario_loop (cfg : Config) (crop_config : CropConfig)
    (weather : WeatherProvider) (total_scenarios : Z)
    (st : Locals) (scs : list (string * Scenario)) : M Locals :=
  match scs with
  | [] => ret st
  | (key, sc) :: scs' =>
      st' <- scenario_body cfg crop_config weather total_scenarios st key sc ;;
      scenario_loop cfg crop_config weather total_scenarios st' scs'
  end.

(** Lines 46-62: the year's weather table.  A day whose lookup raises is
    printed and left out; [set_index('date')] raises on a table without
    rows. *)
Definition weather_row (weather : WeatherProvider) (d : date) : M (list WeatherRow) :=
  try_except
    (w <- lift (weather d) ;;
     ret [ {| w_date := d; tmax := TMAX w; tmin := TMIN w; rain := RAIN w;
              radiation := (IRRAD w / 1000000)%Q |} ])
    (fun e => tell (Print e) ;; ret []).

Fixpoint weather_loop (weather : WeatherProvider) (days : list date)
    (weather_data : list WeatherRow) : M (list WeatherRow) :=
  match days with
  | [] => ret weather_data
  | d :: days' =>
      row <- weather_row weather d ;;
      weather_loop weather days' (weather_data ++ row)
  end.

Definition set_index_date (weather_data : list WeatherRow) : res (list WeatherRow) :=
  match weather_data with
  | [] => Raise (KeyError "date")
  | _ :: _ => Ok weather_data
  end.

(** Lines 26-64. *)
Definition setup (cfg : Config) : M (CropConfig * WeatherProvider * list WeatherRow) :=
  tell (Progress 5 "Importing PCSE modules...") ;;
  crop_config <- lift (match CROP_OPTIONS !! crop cfg with
                       | Some c => Ok c
                       | None => Raise (KeyError (crop cfg))
                       end) ;;
  tell (Progress 15 ("Loading weather for " +:+ location_name (location cfg) +:+ "...")) ;;
  weather <- lift (NASAPowerWeatherDataProvider (lat (location cfg)) (lon (location cfg))) ;;
  weather_data <- weather_loop weather (Datetime.year_days (year (start_date cfg))) [] ;;
  weather_df <- lift (set_index_date weather_data) ;;
  ret (crop_config, weather, weather_df).

(** The body of the outer [try]. *)
Definition batch (cfg : Config) : M unit :=
  env <- setup cfg ;;
  let '(crop_config, weather, weather_df) := env in
  let total_scenarios := total_scenarios_of (fert_scenarios cfg) in
  st <- scenario_loop cfg crop_config weather total_scenarios
          {| results := []; dataframes := ∅; completed := 0 |}
          (fert_scenarios cfg) ;;
  tell (Progress 95 "Finalizing results...") ;;
  tell (Progress 100 "Done!") ;;
  tell (Finished (results st) (dataframes st) weather_df
                 (year (start_date cfg)) (location_name (location cfg))).

(** [SimulationWorker.run]: the outer handler turns any exception into
    the error signal. *)
Definition run (cfg : Config) : M unit :=
  try_except (batch cfg) (fun e => tell (Error e)).

(** The percentages of the progress signals among some effects. *)
Definition progress_of (es : list effect) : list Z :=
  omap (fun e => match e with Progress pct _ => Some pct | _ => None end) es.

End Worker.

Arguments guarded {CropData} Wofost81_NWLP_CWB_CNB.
Arguments construct {CropData} YAMLCropDataProvider.
Arguments scenario_body {CropData} YAMLCropDataProvider Wofost81_NWLP_CWB_CNB.
Arguments scenario_loop {CropData} YAMLCropDataProvider Wofost81_NWLP_CWB_CNB.
Arguments batch {CropData} NASAPowerWeatherDataProvider YAMLCropDataProvider
  Wofost81_NWLP_CWB_CNB.
Arguments run {CropData} NASAPowerWeatherDataProvider YAMLCropDataProvider
  Wofost81_NWLP_CWB_CNB.
Arguments mkParams {CropData}.
Arguments cropdata {CropData}.
Arguments soildata {CropData}.
Arguments site {CropData}.
Arguments overrides {CropData}.

(** ** Observing a run *)

(** The payload of the first [finished] signal among some effects. *)
Fixpoint finished_of (es : list effect)
  : option (list ScenarioResult * gmap string DataFrame) :=
  match es with
  | [] => None
  | Finished results dataframes _ _ _ :: _ => Some (results, dataframes)
  | _ :: es' => finished_of es'
  end.

Definition batch_results (es : list effect) : list ScenarioResult :=
  match finished_of es with Some (results, _) => results | None => [] end.

Definition batch_tables (es : list effect) : gmap string DataFrame :=
  match finished_of es with Some (_, dataframes) => dataframes | None => ∅ end.

(** The payload of the first [error] signal among some effects. *)
Fixpoint error_of (es : list effect) : option exn :=
  match es with
  | [] => None
  | Error e :: _ => Some e
  | _ :: es' => error_of es'
  end.

(** The scenario result the [else] branch appends. *)
Definition result_of (crop_name key : string) (sc : Scenario)
    (output : list OutputRow) (s : gmap string Q)
    (gdd_list daily_gdd_list : list Q) : ScenarioResult :=
  {| df := {| rows := output; GDD := Some gdd_list;
              daily_GDD := Some daily_gdd_list |};
     summary := s;
     yield_kg := main_yield_of crop_name s;
     yield_t := (main_yield_of crop_name s / 1000)%Q;
     scenario := name sc;
     scenario_key := key;
     n_rate := total_n sc;
     tagp := get s "TAGP" 0;
     laimax := get s "LAIMAX" 0 |}.

(** Effects that are neither the [finished] nor the [error] signal:
    [print]s and progress signals. *)
Definition is_log (e : effect) : bool :=
  match e with Print _ | PrintScenarioError _ _ => true | _ => false end.

Definition benign (e : effect) : Prop :=
  is_log e = true \/ exists p m, e = Progress p m.

(** What one day contributes to the GDD series, read off the provider. *)
Definition daily_gdd_spec (weather : WeatherProvider) (d : date) : Q :=
  match weather d with
  | Ok w => py_max 0 ((TMAX w + TMIN w) / 2 - 0)%Q
  | Raise _ => 0%Q
  end.

(** The running sums of a list, starting from [c]. *)
Fixpoint running_sum (c : Q) (l : list Q) : list Q :=
  match l with
  | [] => []
  | x :: l' => (c + x)%Q :: running_sum (c + x)%Q l'
  end.

(** The contributions of the days whose lookup succeeds. *)
Fixpoint resolved_gdd (weather : WeatherProvider) (days : list date) : list Q :=
  match days with
  | [] => []
  | d :: days' =>
      match weather d with
      | Ok w => py_max 0 ((TMAX w + TMIN w) / 2 - 0)%Q :: resolved_gdd weather days'
      | Raise _ => resolved_gdd weather days'
      end
  end.

Definition Qsum (l : list Q) : Q := fold_left Qplus l 0%Q.

(** ** A concrete environment

    Stand-ins for the PCSE collaborators, used to run the worker on
    concrete batches. *)

Module Demo.

(** No sample for the 31st of a month; 30/20 degrees otherwise. *)
Definition weather : WeatherProvider := fun d =>
  if day d =? 31 then Raise (PCSEError "no weather for this day")
  else Ok {| TMAX := 30; TMIN := 20; RAIN := 0; IRRAD := 18000000 |}.

Definition nasa (lat lon : Q) : res WeatherProvider := Ok weather.

Definition cropd (crop variety : string) : res unit := Ok tt.

(** A crop-data provider that cannot serve the requested variety. *)
Definition cropd_unavailable (crop variety : string) : res unit :=
  Raise (PCSEError "variety not available").

Definition three_days (d : date) : list OutputRow :=
  let o := Datetime.toordinal d in
  [ {| row_day := Datetime.ord2ymd (o + 15); row_vars := ∅ |};
    {| row_day := Datetime.ord2ymd (o + 16); row_vars := ∅ |};
    {| row_day := Datetime.ord2ymd (o + 17); row_vars := ∅ |} ].

Definition a_summary : gmap string Q :=
  list_to_map [ ("TWSO", 3000%Q); ("TAGP", 8000%Q); ("LAIMAX", 4%Q) ].

Definition summary_no_grain : gmap string Q :=
  list_to_map [ ("TWSO", 0%Q); ("TAGP", 8000%Q) ].

(** An engine that fails on any schedule whose first event applies
    20 kg N/ha and otherwise reports three days and one summary. *)
Definition engine (p : Params unit) (w : WeatherProvider) (a : Agro)
  : res (list OutputRow * list (gmap string Q)) :=
  match AgroManagement a with
  | c :: _ =>
      match TimedEvents c with
      | Some (e :: _) =>
          if Qeq_bool (comment_amount e) 20
          then Raise (PCSEError "engine failure")
          else Ok (three_days (campaign_date c), [a_summary])
      | _ => Ok (three_days (campaign_date c), [a_summary])
      end
  | [] => Raise (PCSEError "no campaign")
  end.

(** An engine that reports a summary but no daily output. *)
Definition engine_no_output (p : Params unit) (w : WeatherProvider) (a : Agro)
  : res (list OutputRow * list (gmap string Q)) :=
  Ok ([], [a_summary]).

(** An engine that terminates without any summary. *)
Definition engine_no_summary (p : Params unit) (w : WeatherProvider) (a : Agro)
  : res (list OutputRow * list (gmap string Q)) :=
  match AgroManagement a with
  | c :: _ => Ok (three_days (campaign_date c), [])
  | [] => Raise (PCSEError "no campaign")
  end.

Definition soil : gmap string Q :=
  list_to_map
    [ ("SM0", 0.45%Q); ("SMFCF", 0.35%Q); ("SMW", 0.15%Q); ("CRAIRC", 0.06%Q);
      ("RDMSOL", 120%Q); ("K0", 10%Q); ("SOPE", 1%Q); ("KSUB", 1%Q);
      ("NSOILBASE", 60%Q) ].

Definition nairobi : Location :=
  {| location_name := "Nairobi"; lat := -1.29; lon := 36.82 |}.

Definition config (crop : string) (scs : list (string * Scenario)) : Config :=
  {| crop := crop; location := nairobi; soil_params := soil;
     fert_scenarios := scs; start_date := mkdate 2023 3 15 |}.

Definition barley_config : CropConfig := mkCropConfig "Spring_barley_301" 120 None.

Definition none : Scenario := mkScenario "No Fertilizer" 0 [] (Some true).

Definition medium : Scenario :=
  mkScenario "Medium (50 kg N/ha)" 50
    [mkApplication 0 20 0.7; mkApplication 30 15 0.65; mkApplication 50 15 0.6]
    (Some true).

(** A scenario whose application date lies beyond year 9999. *)
Definition far_future : Scenario :=
  mkScenario "Far future" 5 [mkApplication 4000000 5 0.5] None.

Definition far_future_batch : list (string * Scenario) :=
  [("far", far_future); ("none", none)].

Definition disabled_batch : list (string * Scenario) :=
  [("none", mkScenario "No Fertilizer" 0 [] (Some false))].

(** The calendar of the unfertilized scenario. *)
Definition agro_none : Agro :=
  {| Version := 1;
     AgroManagement :=
       [ {| campaign_date := mkdate 2023 3 15;
            calendar :=
              {| crop_name := "barley";
                 variety_name := "Spring_barley_301";
                 crop_start_date := mkdate 2023 3 15;
                 crop_start_type := "emergence";
                 crop_end_date := mkdate 2023 12 31;
                 crop_end_type := "earliest";
                 max_duration := 120 |};
            TimedEvents := None;
            StateEvents := None |} ] |}.

Definition params0 : Params unit :=
  {| cropdata := tt; soildata := soil; site := sitedata; overrides := ∅ |}.

Definition st0 : Locals := {| results := []; dataframes := ∅; completed := 0 |}.

(** What construction hands to the engine for the ["medium"] scenario. *)
Definition built_medium : Agro * Params unit :=
  match outcome (construct cropd (config "barley" [("medium", medium); ("none", none)])
                           barley_config medium) with
  | Ok built => built
  | Raise _ => (agro_none, params0)
  end.

(** 2023-03-30, 2023-03-31 (no weather sample), 2023-04-01. *)
Definition days3 : list date := map row_day (three_days (mkdate 2023 3 15)).

Definition run := run nasa cropd engine.

End Demo.

(** ** Keys the soil data needs

    The keys of [soil_params] that lines 136-150 read with [d[k]], in the
    order of evaluation. *)
Definition required_soil_keys : list string :=
  ["SM0"; "SMFCF"; "SMW"; "CRAIRC"; "RDMSOL"; "K0"; "SOPE"; "KSUB"; "NSOILBASE"].

(** A (year, month, day) triple that [datetime.date] accepts. *)
Definition valid_date (d : date) : Prop :=
  1 <= year d <= 9999 /\ 1 <= month d <= 12 /\
  1 <= day d <= Datetime.table Datetime.DAYS_IN_MONTH (month d)
              + (if (month d =? 2) && Datetime.is_leap (year d) then 1 else 0).

(** The result a scenario contributes for a crop outside the root/tuber
    list: the one built from what the engine returns on what [construct]
    builds, when that is at least one day of output and one summary. *)
Definition scenario_result {CropData : Type}
    (cropd : string -> string -> res CropData)
    (engine : Params CropData -> WeatherProvider -> Agro ->
              res (list OutputRow * list (gmap string Q)))
    (cfg : Config) (crop_config : CropConfig) (weather : WeatherProvider)
    (key : string) (sc : Scenario) : option ScenarioResult :=
  match outcome (construct cropd cfg crop_config sc) with
  | Ok (agro, params) =>
      match engine params weather agro with
      | Ok (row :: output, s :: _) =>
          let daily := map (daily_gdd_spec weather) (map row_day (row :: output)) in
          Some (result_of (crop cfg) key sc (row :: output) s
                          (running_sum 0 daily) daily)
      | _ => None
      end
  | Raise _ => None
  end.

(** ** The fertilizer dialog (src/app/dialogs/fertilizer_settings.py) *)

Module FertilizerSettingsDialog.

(** [Qt.Unchecked], [Qt.PartiallyChecked], [Qt.Checked] *)
Definition Unchecked : Z := 0.
Definition PartiallyChecked : Z := 1.
Definition Checked : Z := 2.

(** [scenario["enabled"] = b] *)
Definition set_enabled (sc : Scenario) (b : bool) : Scenario :=
  {| name := name sc; total_n := total_n sc;
     applications := applications sc; enabled := Some b |}.

(** [self.fert_scenarios[key]["enabled"] = state == Qt.Checked]: the
    entry is updated in place; a key that is not there raises. *)
Fixpoint toggle_enabled (fert_scenarios : list (string * Scenario))
    (key : string) (state : Z) : res (list (string * Scenario)) :=
  match fert_scenarios with
  | [] => Raise (KeyError key)
  | (k, sc) :: rest =>
      if String.eqb k key then Ok ((k, set_enabled sc (state =? Checked)) :: rest)
      else match toggle_enabled rest key state with
           | Ok rest' => Ok ((k, sc) :: rest')
           | Raise e => Raise e
           end
  end.

End FertilizerSettingsDialog.

(** ** The main window (src/app/windows/main_window.py) *)

Definition LOCATION_OPTIONS : gmap string Location :=
  list_to_map
    [ ("trans_nzoia", mkLocation "Trans Nzoia (Kitale)" 1.0167 35.0000);
      ("narok", mkLocation "Narok" (-1.0833) 35.8667);
      ("mwea", mkLocation "Mwea (Kirinyaga)" (-0.7333) 37.3500);
      ("busia", mkLocation "Busia (Western)" 0.4608 34.1108);
      ("machakos", mkLocation "Machakos (Eastern)" (-1.5177) 37.2634);
      ("nyandarua", mkLocation "Nyandarua (Central)" (-0.4000) 36.5000);
      ("kilifi", mkLocation "Kilifi (Coast)" (-3.6305) 39.8499) ].

(** What [ResultsPanel.update_results] hands to the plot functions. *)
Record PlotContext : Type := mkPlotContext {
  ctx_results : list ScenarioResult;
  ctx_dataframes : gmap string DataFrame;
  ctx_yield_gap_factor : Q;
  ctx_crop_name : string;
  ctx_location_name : string;
  ctx_weather_df : option (list WeatherRow);
  ctx_weather_year : option Z
}.

Inductive MessageBox : Type :=
| WarningBox (title text : string)
| CriticalBox (title : string) (error : exn).

Module MainWindow.

(** The widgets and attributes the simulation handlers read or write.
    [panel] is what the results panel has last been given. *)
Record t : Type := mk {
  crop_combo : string;
  location_combo : string;
  date_edit : date;
  yield_gap_spin : Q;
  soil_params : gmap string Q;
  fert_scenarios : list (string * Scenario);
  run_btn_enabled : bool;
  progress_bar_visible : bool;
  progress_bar_value : Z;
  statusbar : string;
  message_boxes : list MessageBox;
  panel : option PlotContext
}.

(** [sum(1 for s in self.fert_scenarios.values() if s.get("enabled", True))] *)
Definition enabled_count (fert_scenarios : list (string * Scenario)) : Z :=
  fold_right (fun ks n => if default true (enabled (snd ks)) then 1 + n else n)
             0 fert_scenarios.

(** [QProgressBar.setValue] with the default range 0..100: a value
    outside the range is ignored. *)
Definition set_progress_value (w : t) (value : Z) : Z :=
  if (0 <=? value) && (value <=? 100) then value else progress_bar_value w.

(** [_run_simulation], up to [self.worker.start()]: the configuration the
    worker gets, and the window with its run button disabled. *)
Definition run_simulation (w : t) : res (t * Config) :=
  match LOCATION_OPTIONS !! location_combo w with
  | None => Raise (KeyError (location_combo w))
  | Some location =>
      Ok (mk (crop_combo w) (location_combo w) (date_edit w) (yield_gap_spin w)
             (soil_params w) (fert_scenarios w)
             false true
             (set_progress_value
                (mk (crop_combo w) (location_combo w) (date_edit w) (yield_gap_spin w)
                    (soil_params w) (fert_scenarios w) false true
                    (progress_bar_value w) (statusbar w) (message_boxes w) (panel w))
                0)
             (statusbar w) (message_boxes w) (panel w),
          mkConfig (crop_combo w) location (soil_params w) (fert_scenarios w)
                   (date_edit w))
  end.

Definition on_simulation_progress (w : t) (value : Z) (message : string) : t :=
  mk (crop_combo w) (location_combo w) (date_edit w) (yield_gap_spin w)
     (soil_params w) (fert_scenarios w)
     (run_btn_enabled w) (progress_bar_visible w)
     (set_progress_value w value) message (message_boxes w) (panel w).

Definition on_simulation_error (w : t) (error : exn) : t :=
  mk (crop_combo w) (location_combo w) (date_edit w) (yield_gap_spin w)
     (soil_params w) (fert_scenarios w)
     true false (progress_bar_value w)
     "Simulation failed"
     (message_boxes w ++ [CriticalBox "Simulation Error" error]) (panel w).

Section Handlers.

(** The drawing of the seven figures and of the summary table for a
    non-empty result list; it may raise. *)
Variable render : PlotContext -> res unit.

(** [_on_simulation_finished]: the window it leaves, and the exception
    that escapes the slot, if any. *)
Definition on_simulation_finished (w : t)
    (results : list ScenarioResult) (dataframes : gmap string DataFrame)
    (weather_df : list WeatherRow) (weather_year : Z) : t * res unit :=
  let w := mk (crop_combo w) (location_combo w) (date_edit w) (yield_gap_spin w)
              (soil_params w) (fert_scenarios w)
              true false (progress_bar_value w) (statusbar w)
              (message_boxes w) (panel w) in
  match results with
  | [] =>
      (mk (crop_combo w) (location_combo w) (date_edit w) (yield_gap_spin w)
          (soil_params w) (fert_scenarios w)
          true false (progress_bar_value w)
          "Simulation completed with no results"
          (message_boxes w
           ++ [WarningBox "Warning" "No results returned from simulation."])
          (panel w),
       Ok tt)
  | _ :: _ =>
      match LOCATION_OPTIONS !! location_combo w with
      | None => (w, Raise (KeyError (location_combo w)))
      | Some location =>
          let ctx := {| ctx_results := results;
                        ctx_dataframes := dataframes;
                        ctx_yield_gap_factor := yield_gap_spin w;
                        ctx_crop_name := crop_combo w;
                        ctx_location_name := location_name location;
                        ctx_weather_df := Some weather_df;
                        ctx_weather_year := Some weather_year |} in
          let w := mk (crop_combo w) (location_combo w) (date_edit w)
                      (yield_gap_spin w) (soil_params w) (fert_scenarios w)
                      true false (progress_bar_value w) (statusbar w)
                      (message_boxes w) (Some ctx) in
          match render ctx with
          | Raise e => (w, Raise e)
          | Ok _ =>
              (mk (crop_combo w) (location_combo w) (date_edit w)
                  (yield_gap_spin w) (soil_params w) (fert_scenarios w)
                  true false (progress_bar_value w)
                  ("Simulation complete: "
                   +:+ pretty (Z.of_nat (List.length results)) +:+ " scenarios")
                  (message_boxes w) (Some ctx),
               Ok tt)
          end
      end
  end.

(** The slot a signal of the worker is connected to; prints reach no
    slot. *)
Definition slot (w : t) (e : effect) : t * res unit :=
  match e with
  | Progress pct msg => (on_simulation_progress w pct msg, Ok tt)
  | Finished results dataframes weather_df weather_year _ =>
      on_simulation_finished w results dataframes weather_df weather_year
  | Error e => (on_simulation_error w e, Ok tt)
  | Print _ | PrintScenarioError _ _ => (w, Ok tt)
  end.

(** The signals of a run, delivered in order until a slot raises. *)
Fixpoint deliver (w : t) (es : list effect) : t * res unit :=
  match es with
  | [] => (w, Ok tt)
  | e :: es' =>
      match slot w e with
      | (w', Ok _) => deliver w' es'
      | (w', Raise x) => (w', Raise x)
      end
  end.

End Handlers.

End MainWindow.

(** ** A concrete window and further collaborators *)

Module DemoWindow.

(** The weather service cannot be reached. *)
Definition nasa_down (lat lon : Q) : res WeatherProvider :=
  Raise (PCSEError "NASA POWER unreachable").

(** A provider that has no sample for any day. *)
Definition no_weather : WeatherProvider :=
  fun d => Raise (PCSEError "no weather for this day").

Definition nasa_no_weather (lat lon : Q) : res WeatherProvider := Ok no_weather.


(** The weather table of 2023 that [Demo.weather] gives. *)
Definition weather_2023 : list WeatherRow :=
  match outcome (setup Demo.nasa (Demo.config "barley" [])) with
  | Ok (_, _, weather_df) => weather_df
  | Raise _ => []
  end.

(** Drawing that never fails. *)
Definition render_ok (ctx : PlotContext) : res unit := Ok tt.

(** The window as it starts, with [crop] selected, at Narok. *)
Definition window (crop : string) : MainWindow.t :=
  MainWindow.mk crop "narok" (mkdate 2023 3 15) 0.35 Demo.soil DEFAULT_FERT_SCENARIOS
    true false 0 "Ready" [] None.

Definition narok : Location := mkLocation "Narok" (-1.0833) 35.8667.

(** What the click on the run button hands to the worker. *)
Definition config (crop : string) : Config :=
  mkConfig crop narok Demo.soil DEFAULT_FERT_SCENARIOS (mkdate 2023 3 15).

(** The window while the worker runs. *)
Definition running (crop : string) : MainWindow.t :=
  MainWindow.mk crop "narok" (mkdate 2023 3 15) 0.35 Demo.soil DEFAULT_FERT_SCENARIOS
    false true 0 "Ready" [] None.

End DemoWindow.

(** * Properties *)

(** ** The monad *)

Lemma bind_ok {A B} (m : M A) (f : A -> M B) w a :
  m = (w, Ok a) -> bind m f = (w ++ effects (f a), outcome (f a)).
Proof. intros ->. unfold bind, effects, outcome. by destruct (f a). Qed.

Lemma bind_raise {A B} (m : M A) (f : A -> M B) w e :
  m = (w, Raise e) -> bind m f = (w, Raise e).
Proof. by intros ->. Qed.

Lemma bind_lift_ok {A B} (a : A) (f : A -> M B) : bind (lift (Ok a)) f = f a.
Proof. unfold bind, lift. by destruct (f a). Qed.

Lemma bind_lift_raise {A B} e (f : A -> M B) :
  bind (lift (Raise e)) f = ([], Raise e).
Proof. reflexivity. Qed.

Lemma bind_tell {B} x (f : unit -> M B) :
  bind (tell x) f = (x :: effects (f tt), outcome (f tt)).
Proof. unfold bind, tell, effects, outcome. by destruct (f tt). Qed.

Lemma try_except_eta {A} (m : M A) (h : exn -> M A) :
  try_except m h =
  match outcome m with
  | Ok a => (effects m, Ok a)
  | Raise e => (effects m ++ effects (h e), outcome (h e))
  end.
Proof. destruct m as [w [a|e]]; cbn; [done | by destruct (h e)]. Qed.

Lemma M_eta {A} (m : M A) : m = (effects m, outcome m).
Proof. by destruct m. Qed.

Lemma effects_bind {A B} (m : M A) (f : A -> M B) :
  effects (bind m f) =
  effects m ++ match outcome m with Ok a => effects (f a) | Raise _ => [] end.
Proof.
  destruct m as [w [a|e]]; cbn.
  - by destruct (f a).
  - by rewrite app_nil_r.
Qed.

Lemma outcome_bind {A B} (m : M A) (f : A -> M B) :
  outcome (bind m f) =
  match outcome m with Ok a => outcome (f a) | Raise e => Raise e end.
Proof. destruct m as [w [a|e]]; cbn; [by destruct (f a) | done]. Qed.

(** ** Agromanagement *)

Example add_30_days :
  Datetime.add_days (mkdate 2023 3 15) 30 = Ok (mkdate 2023 4 14).
Proof. reflexivity. Qed.

Lemma timed_events_loop_spec planting_date apps :
  Forall (fun a => is_ok (Datetime.add_days planting_date (app_days a)) = true) apps ->
  forall i acc,
  exists evs,
    timed_events_loop planting_date apps i acc = Ok (acc ++ evs) /\
    List.length evs = List.length apps /\
    forall (k : nat) a, apps !! k = Some a ->
      exists app_date,
        Datetime.add_days planting_date (app_days a) = Ok app_date /\
        evs !! k =
          Some {| event_signal := "apply_n";
                  event_name := "N application " +:+ pretty (Z.of_nat (i + k) + 1);
                  comment_amount := app_amount a;
                  events_table :=
                    [ (app_date, {| N_amount := app_amount a;
                                    N_recovery := app_recovery a |}) ] |}.
Proof.
  induction 1 as [|a apps Ha _ IH]; intros i acc.
  - exists []. rewrite app_nil_r. split; [done|]. split; [done|].
    intros k a Hk. done.
  - cbn [timed_events_loop].
    destruct (Datetime.add_days planting_date (app_days a)) as [app_date|] eqn:Hd;
      [|discriminate].
    edestruct (IH (S i)) as (evs & -> & Hlen & Hnth).
    eexists (_ :: evs). rewrite <- app_assoc. split; [reflexivity|].
    split; [cbn; by rewrite Hlen|].
    intros [|k] b Hk; cbn in Hk.
    + injection Hk as <-. exists app_date. split; [done|].
      cbn. by rewrite Nat.add_0_r.
    + destruct (Hnth k b Hk) as (dt & Hdt & Hev). exists dt. split; [done|].
      replace (i + S k)%nat with (S i + k)%nat by lia. exact Hev.
Qed.

(** C6.  A scenario whose application list is empty gets a calendar whose
    single campaign has [TimedEvents = None]: the entry is absent, not an
    empty list.  Moreover no scenario at all ever gets an empty event
    list. *)
Theorem C6_empty_applications_no_timed_events :
  forall crop_name crop_config start_date sc,
    (applications sc = [] ->
     exists c, build_agro crop_name crop_config start_date sc
               = Ok {| Version := 1; AgroManagement := [c] |} /\
               TimedEvents c = None) /\
    (forall agro c, build_agro crop_name crop_config start_date sc = Ok agro ->
                    In c (AgroManagement agro) -> TimedEvents c <> Some []).
Proof.
  intros crop_name crop_config start_date sc. split.
  - intros Happs. unfold build_agro, build_timed_events. rewrite Happs.
    eexists. split; reflexivity.
  - intros agro c. unfold build_agro, build_timed_events.
    destruct (applications sc) as [|a apps] eqn:Happs.
    + intros [= <-] [<-|[]]. done.
    + cbn [timed_events_loop].
      destruct (Datetime.add_days _ _) as [d|]; [|done].
      destruct (timed_events_loop _ _ _ _) as [evs|] eqn:Hloop; [|done].
      intros [= <-] [<-|[]]. cbn. intros [= ->].
      assert (Hlen : forall apps i acc evs,
                 timed_events_loop (planting_date_of start_date) apps i acc = Ok evs ->
                 (List.length acc <= List.length evs)%nat).
      { clear. induction apps as [|a apps IH]; intros i acc evs; cbn.
        - by intros [= ->].
        - destruct (Datetime.add_days _ _); [|done].
          intros H%IH. rewrite length_app in H. lia. }
      apply Hlen in Hloop. cbn in Hloop. lia.
Qed.

Lemma C6_witness :
  exists c, build_agro "barley" (mkCropConfig "Spring_barley_301" 120 None)
                       (mkdate 2023 3 15)
                       (mkScenario "No Fertilizer" 0 [] (Some true))
            = Ok {| Version := 1; AgroManagement := [c] |} /\
            TimedEvents c = None.
Proof.
  apply (C6_empty_applications_no_timed_events
           "barley" (mkCropConfig "Spring_barley_301" 120 None) (mkdate 2023 3 15)
           (mkScenario "No Fertilizer" 0 [] (Some true))).
  reflexivity.
Defined.

(** *** The calendar arithmetic of [timedelta] addition *)

Lemma month_part (leap : bool) (r : Z) :
  0 <= r < 365 ->
  let m := Z.shiftr (r + 50) 5 in
  let preceding :=
    Datetime.table Datetime.DAYS_BEFORE_MONTH m + (if (2 <? m) && leap then 1 else 0) in
  let md :=
    if r <? preceding then
      (m - 1,
       r - (preceding
            - (Datetime.table Datetime.DAYS_IN_MONTH (m - 1)
               + (if (m - 1 =? 2) && leap then 1 else 0))) + 1)
    else (m, r - preceding + 1) in
  (1 <= fst md <= 12) /\
  (1 <= snd md <= Datetime.table Datetime.DAYS_IN_MONTH (fst md)
                  + (if (fst md =? 2) && leap then 1 else 0)) /\
  Datetime.table Datetime.DAYS_BEFORE_MONTH (fst md)
  + (if (2 <? fst md) && leap then 1 else 0) + snd md = r + 1.
Proof.
  intros Hr.
  assert (Hall :
    forallb (fun r =>
      forallb (fun leap =>
        let m := Z.shiftr (r + 50) 5 in
        let preceding :=
          Datetime.table Datetime.DAYS_BEFORE_MONTH m
          + (if (2 <? m) && leap then 1 else 0) in
        let md :=
          if r <? preceding then
            (m - 1,
             r - (preceding
                  - (Datetime.table Datetime.DAYS_IN_MONTH (m - 1)
                     + (if (m - 1 =? 2) && leap then 1 else 0))) + 1)
          else (m, r - preceding + 1) in
        (1 <=? fst md) && (fst md <=? 12) && (1 <=? snd md)
        && (snd md <=? Datetime.table Datetime.DAYS_IN_MONTH (fst md)
                       + (if (fst md =? 2) && leap then 1 else 0))
        && (Datetime.table Datetime.DAYS_BEFORE_MONTH (fst md)
            + (if (2 <? fst md) && leap then 1 else 0) + snd md =? r + 1))
        [true; false]) (seqZ 0 365) = true) by (vm_compute; reflexivity).
  rewrite forallb_forall in Hall.
  assert (Hin : In r (seqZ 0 365)) by (apply list_elem_of_In, elem_of_seqZ; lia).
  specialize (Hall r Hin). rewrite forallb_forall in Hall.
  assert (Hleap : In leap [true; false]) by (destruct leap; cbn; auto).
  specialize (Hall leap Hleap). cbv zeta in Hall |- *.
  repeat (apply andb_prop in Hall as [Hall ?]).
  repeat split; lia.
Qed.

Lemma days_before_year_decomp a b c d :
  0 <= b <= 3 -> 0 <= c <= 24 -> 0 <= d <= 3 ->
  Datetime.days_before_year (400 * a + 100 * b + 4 * c + d + 1)
  = 146097 * a + 36524 * b + 1461 * c + 365 * d.
Proof.
  intros Hb Hc Hd. unfold Datetime.days_before_year. cbv zeta.
  replace (400 * a + 100 * b + 4 * c + d + 1 - 1)
    with (400 * a + 100 * b + 4 * c + d) by lia.
  assert (H4 : (400 * a + 100 * b + 4 * c + d) / 4 = 100 * a + 25 * b + c)
    by (symmetry; apply Z.div_unique with (r := d); lia).
  assert (H100 : (400 * a + 100 * b + 4 * c + d) / 100 = 4 * a + b)
    by (symmetry; apply Z.div_unique with (r := 4 * c + d); lia).
  assert (H400 : (400 * a + 100 * b + 4 * c + d) / 400 = a)
    by (symmetry; apply Z.div_unique with (r := 100 * b + 4 * c + d); lia).
  rewrite H4, H100, H400. lia.
Qed.

Lemma is_leap_decomp a b c d :
  0 <= b <= 3 -> 0 <= c <= 24 -> 0 <= d <= 3 ->
  Datetime.is_leap (400 * a + 100 * b + 4 * c + d + 1)
  = (d =? 3) && (negb (c =? 24) || (b =? 3)).
Proof.
  intros Hb Hc Hd. unfold Datetime.is_leap.
  assert (H4 : (400 * a + 100 * b + 4 * c + d + 1) mod 4 = (d + 1) mod 4).
  { replace (400 * a + 100 * b + 4 * c + d + 1)
      with (d + 1 + (100 * a + 25 * b + c) * 4) by lia.
    apply Z.mod_add. lia. }
  assert (H100 : (400 * a + 100 * b + 4 * c + d + 1) mod 100 = (4 * c + d + 1) mod 100).
  { replace (400 * a + 100 * b + 4 * c + d + 1)
      with (4 * c + d + 1 + (4 * a + b) * 100) by lia.
    apply Z.mod_add. lia. }
  assert (H400 : (400 * a + 100 * b + 4 * c + d + 1) mod 400
                 = (100 * b + 4 * c + d + 1) mod 400).
  { replace (400 * a + 100 * b + 4 * c + d + 1)
      with (100 * b + 4 * c + d + 1 + a * 400) by lia.
    apply Z.mod_add. lia. }
  rewrite H4, H100, H400.
  destruct (Z.eqb_spec d 3) as [->|Hd3].
  - change ((3 + 1) mod 4 =? 0) with true. cbn [andb].
    destruct (Z.eqb_spec c 24) as [->|Hc24].
    + change ((4 * 24 + 3 + 1) mod 100 =? 0) with true. cbn [negb orb].
      destruct (Z.eqb_spec b 3) as [->|Hb3]; [reflexivity|].
      apply Z.eqb_neq. rewrite Z.mod_small by lia. lia.
    + cbn [negb orb].
      replace ((4 * c + 3 + 1) mod 100 =? 0) with false; [reflexivity|].
      symmetry. apply Z.eqb_neq. rewrite Z.mod_small by lia. lia.
  - replace ((d + 1) mod 4 =? 0) with false; [reflexivity|].
    symmetry. apply Z.eqb_neq. rewrite Z.mod_small by lia. lia.
Qed.

Lemma date_with_ordinal y m d n :
  1 <= y <= 9999 -> 1 <= m <= 12 ->
  1 <= d <= Datetime.table Datetime.DAYS_IN_MONTH m
            + (if (m =? 2) && Datetime.is_leap y then 1 else 0) ->
  Datetime.days_before_year y
  + (Datetime.table Datetime.DAYS_BEFORE_MONTH m
     + (if (2 <? m) && Datetime.is_leap y then 1 else 0)) + d = n ->
  valid_date (mkdate y m d) /\ Datetime.toordinal (mkdate y m d) = n.
Proof.
  intros Hy Hm Hd Hn. split; [|exact Hn].
  split; [exact Hy|]. split; [exact Hm | exact Hd].
Qed.

(** The ordinal algorithm and its inverse agree: the date of the [n]-th
    day is a date of the calendar, and its ordinal is [n]. *)
Lemma ord2ymd_toordinal n :
  1 <= n <= Datetime.MAXORDINAL ->
  valid_date (Datetime.ord2ymd n) /\ Datetime.toordinal (Datetime.ord2ymd n) = n.
Proof.
  intros Hn. unfold Datetime.MAXORDINAL in Hn.
  unfold Datetime.ord2ymd, Datetime.DI400Y, Datetime.DI100Y, Datetime.DI4Y. cbv zeta.
  pose proof (Z.div_mod (n - 1) 146097 ltac:(lia)) as E400.
  pose proof (Z.mod_pos_bound (n - 1) 146097 ltac:(lia)) as B400.
  set (q400 := (n - 1) / 146097) in *. set (r400 := (n - 1) mod 146097) in *.
  pose proof (Z.div_mod r400 36524 ltac:(lia)) as E100.
  pose proof (Z.mod_pos_bound r400 36524 ltac:(lia)) as B100.
  set (q100 := r400 / 36524) in *. set (r100 := r400 mod 36524) in *.
  pose proof (Z.div_mod r100 1461 ltac:(lia)) as E4.
  pose proof (Z.mod_pos_bound r100 1461 ltac:(lia)) as B4.
  set (q4 := r100 / 1461) in *. set (r4 := r100 mod 1461) in *.
  pose proof (Z.div_mod r4 365 ltac:(lia)) as E1.
  pose proof (Z.mod_pos_bound r4 365 ltac:(lia)) as B1.
  set (q1 := r4 / 365) in *. set (r := r4 mod 365) in *.
  clearbody q400 r400 q100 r100 q4 r4 q1 r.
  assert (Hq400 : 0 <= q400 <= 24) by lia.
  assert (Hq100 : 0 <= q100 <= 4) by lia.
  assert (Hq4 : 0 <= q4 <= 24) by lia.
  assert (Hq1 : 0 <= q1 <= 4) by lia.
  destruct (Z.eqb_spec q1 4) as [Hq14|Hq14]; cbn [orb].
  { (* the last day of a leap year that ends a four-year cycle *)
    replace (q400 * 400 + 1 + q100 * 100 + q4 * 4 + q1 - 1)
      with (400 * q400 + 100 * q100 + 4 * q4 + 3 + 1) by lia.
    apply date_with_ordinal; rewrite ?is_leap_decomp, ?days_before_year_decomp by lia;
      replace (q4 =? 24) with false by (symmetry; apply Z.eqb_neq; lia);
      change (Datetime.table Datetime.DAYS_IN_MONTH 12) with 31;
      change (Datetime.table Datetime.DAYS_BEFORE_MONTH 12) with 334;
      cbn; lia. }
  destruct (Z.eqb_spec q100 4) as [Hq1004|Hq1004].
  { (* the last day of a 400-year cycle *)
    replace (q400 * 400 + 1 + q100 * 100 + q4 * 4 + q1 - 1)
      with (400 * q400 + 100 * 3 + 4 * 24 + 3 + 1) by lia.
    apply date_with_ordinal; rewrite ?is_leap_decomp, ?days_before_year_decomp by lia;
      change (Datetime.table Datetime.DAYS_IN_MONTH 12) with 31;
      change (Datetime.table Datetime.DAYS_BEFORE_MONTH 12) with 334;
      cbn; lia. }
  replace (q400 * 400 + 1 + q100 * 100 + q4 * 4 + q1)
    with (400 * q400 + 100 * q100 + 4 * q4 + q1 + 1) by lia.
  set (leap := (q1 =? 3) && (negb (q4 =? 24) || (q100 =? 3))).
  pose proof (month_part leap r B1) as Hmonth. cbv zeta in Hmonth.
  destruct (r <? _); cbn [fst snd] in Hmonth;
    destruct Hmonth as (Hm & Hd & Hsum);
    (apply date_with_ordinal;
     rewrite ?is_leap_decomp, ?days_before_year_decomp by lia; fold leap;
     [lia | exact Hm | exact Hd | lia]).
Qed.

Lemma days_before_next_year y :
  Datetime.days_before_year (y + 1)
  = Datetime.days_before_year y + 365 + (if Datetime.is_leap y then 1 else 0).
Proof.
  unfold Datetime.days_before_year, Datetime.is_leap. cbv zeta.
  replace (y + 1 - 1) with y by lia.
  destruct (Z.eqb_spec (y mod 4) 0) as [H4|H4];
    destruct (Z.eqb_spec (y mod 100) 0) as [H100|H100];
    destruct (Z.eqb_spec (y mod 400) 0) as [H400|H400];
    cbn [andb orb negb]; Z.div_mod_to_equations; lia.
Qed.

Lemma days_before_year_mono y1 y2 :
  y1 <= y2 -> Datetime.days_before_year y1 <= Datetime.days_before_year y2.
Proof.
  intros Hle.
  assert (Hnat : forall k : nat,
             Datetime.days_before_year y1
             <= Datetime.days_before_year (y1 + Z.of_nat k)).
  { induction k as [|k IH]; [by rewrite Z.add_0_r|].
    replace (y1 + Z.of_nat (S k)) with (y1 + Z.of_nat k + 1) by lia.
    rewrite days_before_next_year. destruct (Datetime.is_leap _); lia. }
  specialize (Hnat (Z.to_nat (y2 - y1))).
  by replace (y1 + Z.of_nat (Z.to_nat (y2 - y1))) with y2 in Hnat by lia.
Qed.

Lemma day_of_year_inj (leap : bool) m1 d1 m2 d2 :
  1 <= m1 <= 12 ->
  1 <= d1 <= Datetime.table Datetime.DAYS_IN_MONTH m1
             + (if (m1 =? 2) && leap then 1 else 0) ->
  1 <= m2 <= 12 ->
  1 <= d2 <= Datetime.table Datetime.DAYS_IN_MONTH m2
             + (if (m2 =? 2) && leap then 1 else 0) ->
  Datetime.table Datetime.DAYS_BEFORE_MONTH m1
  + (if (2 <? m1) && leap then 1 else 0) + d1
  = Datetime.table Datetime.DAYS_BEFORE_MONTH m2
    + (if (2 <? m2) && leap then 1 else 0) + d2 ->
  m1 = m2 /\ d1 = d2.
Proof.
  intros Hm1 Hd1 Hm2 Hd2 Heq.
  assert (Hc1 : m1 = 1 \/ m1 = 2 \/ m1 = 3 \/ m1 = 4 \/ m1 = 5 \/ m1 = 6 \/
                m1 = 7 \/ m1 = 8 \/ m1 = 9 \/ m1 = 10 \/ m1 = 11 \/ m1 = 12) by lia.
  assert (Hc2 : m2 = 1 \/ m2 = 2 \/ m2 = 3 \/ m2 = 4 \/ m2 = 5 \/ m2 = 6 \/
                m2 = 7 \/ m2 = 8 \/ m2 = 9 \/ m2 = 10 \/ m2 = 11 \/ m2 = 12) by lia.
  clear Hm1 Hm2.
  repeat destruct Hc1 as [->|Hc1]; try subst m1;
    vm_compute (Datetime.table _ _) in Hd1, Heq; cbn in Hd1, Heq;
    (repeat destruct Hc2 as [->|Hc2]; try subst m2;
     vm_compute (Datetime.table _ _) in Hd2, Heq; cbn in Hd2, Heq;
     destruct leap; cbn in Hd1, Hd2, Heq; lia).
Qed.

Lemma day_of_year_range (leap : bool) m d :
  1 <= m <= 12 ->
  1 <= d <= Datetime.table Datetime.DAYS_IN_MONTH m
            + (if (m =? 2) && leap then 1 else 0) ->
  1 <= Datetime.table Datetime.DAYS_BEFORE_MONTH m
       + (if (2 <? m) && leap then 1 else 0) + d
    <= 365 + (if leap then 1 else 0).
Proof.
  intros Hm.
  assert (Hcases : m = 1 \/ m = 2 \/ m = 3 \/ m = 4 \/ m = 5 \/ m = 6 \/
                   m = 7 \/ m = 8 \/ m = 9 \/ m = 10 \/ m = 11 \/ m = 12) by lia.
  repeat destruct Hcases as [->|Hcases]; try subst m;
    vm_compute (Datetime.table _ _); destruct leap; cbn; lia.
Qed.

(** Two dates of the calendar with the same ordinal are the same date. *)
Lemma toordinal_inj d1 d2 :
  valid_date d1 -> valid_date d2 ->
  Datetime.toordinal d1 = Datetime.toordinal d2 -> d1 = d2.
Proof.
  destruct d1 as [y1 m1 d1], d2 as [y2 m2 d2].
  unfold valid_date, Datetime.toordinal, Datetime.ymd2ord, Datetime.days_before_month.
  cbn [year month day]. intros (_ & Hm1 & Hd1) (_ & Hm2 & Hd2) Heq.
  pose proof (day_of_year_range _ _ _ Hm1 Hd1) as Hr1.
  pose proof (day_of_year_range _ _ _ Hm2 Hd2) as Hr2.
  assert (Hy : y1 = y2).
  { destruct (Z.lt_trichotomy y1 y2) as [Hlt|[Heqy|Hgt]]; [|exact Heqy|].
    - pose proof (days_before_year_mono (y1 + 1) y2 ltac:(lia)) as Hmono.
      rewrite days_before_next_year in Hmono. lia.
    - pose proof (days_before_year_mono (y2 + 1) y1 ltac:(lia)) as Hmono.
      rewrite days_before_next_year in Hmono. lia. }
  subst y2.
  destruct (day_of_year_inj (Datetime.is_leap y1) m1 d1 m2 d2 Hm1 Hd1 Hm2 Hd2)
    as [-> ->]; [lia | reflexivity].
Qed.

(** A date of the calendar is the date of its ordinal. *)
Lemma ord2ymd_of_toordinal d :
  valid_date d -> Datetime.ord2ymd (Datetime.toordinal d) = d.
Proof.
  intros Hd.
  assert (Hrange : 1 <= Datetime.toordinal d <= Datetime.MAXORDINAL).
  { destruct d as [y m dd].
    destruct Hd as (Hy & Hm & Hdd). cbn [year month day] in Hy, Hm, Hdd.
    unfold Datetime.toordinal, Datetime.ymd2ord, Datetime.days_before_month.
    cbn [year month day].
    pose proof (day_of_year_range _ _ _ Hm Hdd) as Hr.
    pose proof (days_before_year_mono 1 y ltac:(lia)) as Hlow.
    pose proof (days_before_year_mono (y + 1) 10000 ltac:(lia)) as Hhigh.
    rewrite days_before_next_year in Hhigh.
    change (Datetime.days_before_year 1) with 0 in Hlow.
    change (Datetime.days_before_year 10000) with 3652059 in Hhigh.
    unfold Datetime.MAXORDINAL. lia. }
  destruct (ord2ymd_toordinal _ Hrange) as [Hvalid Hord].
  by apply toordinal_inj.
Qed.

(** [planting_date + timedelta(days=d)]: inside the range of ordinals the
    sum is the date of the calendar that lies [d] days after the planting
    date; outside it the addition raises. *)
Lemma add_days_cases planting_date d :
  match Datetime.add_days planting_date d with
  | Ok app_date =>
      1 <= Datetime.toordinal planting_date + d <= Datetime.MAXORDINAL /\
      valid_date app_date /\
      Datetime.toordinal app_date = Datetime.toordinal planting_date + d
  | Raise e =>
      e = OverflowError "date value out of range" /\
      ~ (1 <= Datetime.toordinal planting_date + d <= Datetime.MAXORDINAL)
  end.
Proof.
  unfold Datetime.add_days. cbv zeta.
  destruct (Z.ltb_spec 0 (Datetime.toordinal planting_date + d)) as [Hlow|Hlow];
    [destruct (Z.leb_spec (Datetime.toordinal planting_date + d) Datetime.MAXORDINAL)
       as [Hhigh|Hhigh]|]; cbn [andb].
  - split; [lia|]. apply ord2ymd_toordinal. lia.
  - split; [reflexivity|lia].
  - split; [reflexivity|lia].
Qed.

Lemma timed_events_loop_overflow planting_date apps :
  Exists (fun a => ~ (1 <= Datetime.toordinal planting_date + app_days a
                      <= Datetime.MAXORDINAL)) apps ->
  forall i acc,
    timed_events_loop planting_date apps i acc
    = Raise (OverflowError "date value out of range").
Proof.
  induction apps as [|a apps IH]; intros Hex i acc.
  - by apply Exists_nil in Hex.
  - cbn [timed_events_loop].
    pose proof (add_days_cases planting_date (app_days a)) as Hadd.
    destruct (Datetime.add_days planting_date (app_days a)) as [app_date|e].
    + apply Exists_cons in Hex as [Hhead|Htail]; [by destruct Hadd|].
      by apply IH.
    + by destruct Hadd as [-> _].
Qed.

(** C7 (amended).  For a non-empty application list in which every date
    [planting_date + d] is representable (its ordinal lies in
    1..3652059, the years 1 to 9999), the event list has one event per
    application, in the order of the applications: the event at (0-based)
    position [i] is dated [d] days after the planting date, that is on
    the one date of the calendar whose ordinal is the planting date's
    plus [d] (the planting date itself when [d = 0]); it carries the
    application's amount and recovery fraction and is named after the
    1-based position [i + 1].  When the date of some application is not
    representable, the addition raises [OverflowError] and no event list
    is built: there is no event for any application of the list. *)
Theorem C7_timed_events_follow_applications :
  forall planting_date (apps : list Application),
    apps <> [] ->
    (Forall (fun a => 1 <= Datetime.toordinal planting_date + app_days a
                      <= Datetime.MAXORDINAL) apps ->
     exists evs,
       build_timed_events planting_date apps = Ok (Some evs) /\
       List.length evs = List.length apps /\
       forall (i : nat) a, apps !! i = Some a ->
         exists app_date,
           valid_date app_date /\
           Datetime.toordinal app_date
           = Datetime.toordinal planting_date + app_days a /\
           (forall other,
               valid_date other ->
               Datetime.toordinal other
               = Datetime.toordinal planting_date + app_days a ->
               other = app_date) /\
           (valid_date planting_date -> app_days a = 0 ->
            app_date = planting_date) /\
           evs !! i =
             Some {| event_signal := "apply_n";
                     event_name := "N application " +:+ pretty (Z.of_nat i + 1);
                     comment_amount := app_amount a;
                     events_table :=
                       [ (app_date, {| N_amount := app_amount a;
                                       N_recovery := app_recovery a |}) ] |}) /\
    (Exists (fun a => ~ (1 <= Datetime.toordinal planting_date + app_days a
                         <= Datetime.MAXORDINAL)) apps ->
     build_timed_events planting_date apps
     = Raise (OverflowError "date value out of range")).
Proof.
  intros planting_date apps Hne. split.
  - intros Hdates.
    assert (Hok : Forall (fun a => is_ok (Datetime.add_days planting_date (app_days a))
                                   = true) apps).
    { eapply Forall_impl; [exact Hdates|]. intros a Ha. cbn in Ha.
      pose proof (add_days_cases planting_date (app_days a)) as Hadd.
      destruct (Datetime.add_days planting_date (app_days a)); [reflexivity|].
      by destruct Hadd as [_ Hout]. }
    destruct (timed_events_loop_spec planting_date apps Hok 0%nat [])
      as (evs & Hloop & Hlen & Hnth).
    exists evs. unfold build_timed_events.
    destruct apps as [|a0 apps0]; [done|]. rewrite Hloop.
    split; [reflexivity|]. split; [exact Hlen|].
    intros i a Hi. destruct (Hnth i a Hi) as (app_date & Hadd & Hev).
    pose proof (add_days_cases planting_date (app_days a)) as Hcases.
    rewrite Hadd in Hcases. destruct Hcases as (_ & Hvalid & Hord).
    exists app_date. split; [exact Hvalid|]. split; [exact Hord|].
    split; [|split; [|exact Hev]].
    + intros other Hother Hsame. apply toordinal_inj; [assumption..|congruence].
    + intros Hplanting Hzero. symmetry. apply toordinal_inj; [assumption..|lia].
  - intros Hex. unfold build_timed_events.
    destruct apps as [|a0 apps0]; [done|].
    by rewrite (timed_events_loop_overflow planting_date (a0 :: apps0) Hex).
Qed.

Lemma C7_witness :
  [mkApplication 0 15 0.7; mkApplication 30 10 0.6] <> [] /\
  build_timed_events (mkdate 2023 3 15)
    [mkApplication 0 15 0.7; mkApplication 30 10 0.6]
  = Ok (Some
      [ {| event_signal := "apply_n"; event_name := "N application 1";
           comment_amount := 15;
           events_table := [ (mkdate 2023 3 15, mkNEvent 15 0.7) ] |};
        {| event_signal := "apply_n"; event_name := "N application 2";
           comment_amount := 10;
           events_table := [ (mkdate 2023 4 14, mkNEvent 10 0.6) ] |} ]).
Proof.
  split; [discriminate|].
  destruct (C7_timed_events_follow_applications (mkdate 2023 3 15)
              [mkApplication 0 15 0.7; mkApplication 30 10 0.6])
    as [Hbuilt _]; [discriminate|].
  destruct Hbuilt as (evs & -> & Hlen & Hnth).
  { repeat constructor; vm_compute; discriminate. }
  destruct (Hnth 0%nat (mkApplication 0 15 0.7) eq_refl)
    as (date1 & _ & _ & Hdate1 & _ & Hev1).
  destruct (Hnth 1%nat (mkApplication 30 10 0.6) eq_refl)
    as (date2 & _ & _ & Hdate2 & _ & Hev2).
  rewrite <- (Hdate1 (mkdate 2023 3 15)) in Hev1;
    [|repeat split; vm_compute; discriminate|vm_compute; reflexivity].
  rewrite <- (Hdate2 (mkdate 2023 4 14)) in Hev2;
    [|repeat split; vm_compute; discriminate|vm_compute; reflexivity].
  destruct evs as [|ev1 [|ev2 [|ev3 evs]]]; try discriminate Hlen.
  cbn in Hev1, Hev2. injection Hev1 as ->. injection Hev2 as ->. reflexivity.
Defined.

(** C7, as stated, fails.  Planting on 2023-03-15 with applications at
    offsets 0 and 4000000: the first date is the planting date itself,
    the second lies beyond year 9999, the addition raises and no event is
    built, not even for the first application.  The same happens with
    the applications of the catalogue's "low" scenario (offsets 0 and 30)
    for a planting date on 9999-12-15, which the date widget accepts. *)
Lemma C7_counterexample :
  (Datetime.add_days (mkdate 2023 3 15) 0 = Ok (mkdate 2023 3 15) /\
   build_timed_events (mkdate 2023 3 15)
     [mkApplication 0 15 0.7; mkApplication 4000000 5 0.5]
   = Raise (OverflowError "date value out of range")) /\
  (Datetime.add_days (mkdate 9999 12 15) 0 = Ok (mkdate 9999 12 15) /\
   build_timed_events (mkdate 9999 12 15)
     [mkApplication 0 15 0.7; mkApplication 30 10 0.6]
   = Raise (OverflowError "date value out of range") /\
   forall evs,
     build_timed_events (mkdate 9999 12 15)
       [mkApplication 0 15 0.7; mkApplication 30 10 0.6]
     <> Ok (Some evs)).
Proof.
  split; [split; vm_compute; reflexivity|].
  split; [vm_compute; reflexivity|].
  assert (Hraise : build_timed_events (mkdate 9999 12 15)
                     [mkApplication 0 15 0.7; mkApplication 30 10 0.6]
                   = Raise (OverflowError "date value out of range"))
    by (vm_compute; reflexivity).
  split; [exact Hraise|]. intros evs. rewrite Hraise. discriminate.
Qed.

(** The end-to-end example of the specification: planting on 2023-03-15
    with applications at offsets 0 and 30 schedules events on 2023-03-15
    and 2023-04-14. *)
Example timed_events_2023_03_15 :
  build_timed_events (mkdate 2023 3 15)
    [mkApplication 0 15 0.7; mkApplication 30 10 0.6]
  = Ok (Some
      [ {| event_signal := "apply_n"; event_name := "N application 1";
           comment_amount := 15;
           events_table := [ (mkdate 2023 3 15, mkNEvent 15 0.7) ] |};
        {| event_signal := "apply_n"; event_name := "N application 2";
           comment_amount := 10;
           events_table := [ (mkdate 2023 4 14, mkNEvent 10 0.6) ] |} ]).
Proof. reflexivity. Qed.

(** ** Yield rule *)

Lemma gt0_true x : gt0 x = true <-> (0 < x)%Q.
Proof.
  unfold gt0. rewrite negb_true_iff. split.
  - intros H. apply Qnot_le_lt. intros Hle%Qle_bool_iff. congruence.
  - intros H. destruct (Qle_bool x 0) eqn:E; [|done].
    apply Qle_bool_iff in E. exfalso. eapply Qlt_not_le; eauto.
Qed.

Lemma gt0_false x : gt0 x = false <-> (x <= 0)%Q.
Proof.
  unfold gt0. rewrite negb_false_iff. apply Qle_bool_iff.
Qed.

Lemma is_root_crop_spec c :
  is_root_crop c = true <-> c = "potato" \/ c = "cassava" \/ c = "sweetpotato".
Proof.
  unfold is_root_crop, root_crops. rewrite bool_decide_eq_true.
  rewrite !elem_of_cons, elem_of_nil. tauto.
Qed.

(** C5.  The main yield falls back on a fraction of the total aboveground
    biomass exactly when the storage-organ mass TWSO is not positive: it
    is TWSO when [0 < TWSO]; otherwise it is 0.5 x TAGP for potato,
    cassava and sweetpotato and 0.4 x TAGP for every other crop. *)
Theorem C5_main_yield_fallback :
  forall (crop_name : string) (s : gmap string Q),
    let twso := get s "TWSO" 0 in
    let tagp := get s "TAGP" 0 in
    ((0 < twso)%Q -> main_yield_of crop_name s = twso) /\
    ((twso <= 0)%Q ->
     (crop_name = "potato" \/ crop_name = "cassava" \/ crop_name = "sweetpotato") ->
     main_yield_of crop_name s = (tagp * 0.5)%Q) /\
    ((twso <= 0)%Q ->
     ~ (crop_name = "potato" \/ crop_name = "cassava" \/ crop_name = "sweetpotato") ->
     main_yield_of crop_name s = (tagp * 0.4)%Q).
Proof.
  intros crop_name s twso tagp. unfold main_yield_of. fold twso tagp.
  repeat split.
  - intros H%gt0_true. rewrite H. by destruct (is_root_crop crop_name).
  - intros H%gt0_false Hroot%is_root_crop_spec. by rewrite H, Hroot.
  - intros H%gt0_false Hroot. rewrite H.
    destruct (is_root_crop crop_name) eqn:E; [|done].
    by apply is_root_crop_spec in E.
Qed.

Lemma C5_witness :
  main_yield_of "barley" Demo.a_summary = 3000%Q /\
  main_yield_of "potato" Demo.summary_no_grain = (8000 * 0.5)%Q /\
  main_yield_of "barley" Demo.summary_no_grain = (8000 * 0.4)%Q.
Proof.
  split; [|split].
  - apply (C5_main_yield_fallback "barley" Demo.a_summary). reflexivity.
  - apply (C5_main_yield_fallback "potato" Demo.summary_no_grain).
    + vm_compute. discriminate.
    + auto.
  - apply (C5_main_yield_fallback "barley" Demo.summary_no_grain).
    + vm_compute. discriminate.
    + intros [H|[H|H]]; discriminate H.
Defined.

(** ** Growing degree days *)

Lemma daily_gdd_at_outcome weather d :
  outcome (daily_gdd_at weather d) = Ok (daily_gdd_spec weather d).
Proof.
  unfold daily_gdd_at, daily_gdd_spec, daily_gdd_of, tbase.
  by destruct (weather d).
Qed.

Lemma daily_gdd_at_effects weather d :
  Forall (fun e => is_log e = true) (effects (daily_gdd_at weather d)).
Proof.
  unfold daily_gdd_at. destruct (weather d); cbn; repeat constructor.
Qed.

Lemma gdd_loop_outcome weather days :
  forall c g dl,
    outcome (gdd_loop weather days c g dl)
    = Ok (g ++ running_sum c (map (daily_gdd_spec weather) days),
          dl ++ map (daily_gdd_spec weather) days).
Proof.
  induction days as [|d days IH]; intros c g dl; cbn [gdd_loop map running_sum].
  - by rewrite !app_nil_r.
  - rewrite outcome_bind, daily_gdd_at_outcome, IH.
    by rewrite <- !app_assoc.
Qed.

Lemma gdd_loop_effects weather days :
  forall c g dl,
    Forall (fun e => is_log e = true) (effects (gdd_loop weather days c g dl)).
Proof.
  induction days as [|d days IH]; intros c g dl; cbn [gdd_loop].
  - constructor.
  - rewrite effects_bind, daily_gdd_at_outcome. apply Forall_app. split.
    + apply daily_gdd_at_effects.
    + apply IH.
Qed.

Lemma py_max_nonneg x : (0 <= py_max 0 x)%Q.
Proof.
  unfold py_max. destruct (Qle_bool x 0) eqn:E.
  - apply Qle_refl.
  - apply Qlt_le_weak, Qnot_le_lt. intros H%Qle_bool_iff. congruence.
Qed.

Lemma daily_gdd_spec_nonneg weather d : (0 <= daily_gdd_spec weather d)%Q.
Proof.
  unfold daily_gdd_spec. destruct (weather d).
  - apply py_max_nonneg.
  - apply Qle_refl.
Qed.

Lemma running_sum_length l : forall c, List.length (running_sum c l) = List.length l.
Proof. induction l as [|x l IH]; intros c; cbn; [done | by rewrite IH]. Qed.

Lemma running_sum_lookup l :
  forall c (i : nat), (i < List.length l)%nat ->
    running_sum c l !! i = Some (fold_left Qplus (take (S i) l) c).
Proof.
  induction l as [|x l IH]; intros c i Hi; cbn in Hi; [lia|].
  destruct i as [|i]; [done|].
  cbn [running_sum]. rewrite lookup_cons. apply IH. lia.
Qed.

Lemma running_sum_lower l :
  forall c, Forall (fun x => (0 <= x)%Q) l ->
            Forall (fun y => (c <= y)%Q) (running_sum c l).
Proof.
  induction l as [|x l IH]; intros c Hl; cbn; [constructor|].
  inversion Hl as [|? ? Hx Hl']; subst.
  assert (Hc : (c <= c + x)%Q).
  { rewrite <- (Qplus_0_r c) at 1. apply Qplus_le_r. exact Hx. }
  constructor; [exact Hc|].
  eapply Forall_impl; [apply IH; exact Hl'|].
  intros y Hy. eapply Qle_trans; eauto.
Qed.

Lemma running_sum_monotone l :
  forall c, Forall (fun x => (0 <= x)%Q) l ->
    forall (i j : nat) x y, (i <= j)%nat ->
      running_sum c l !! i = Some x -> running_sum c l !! j = Some y ->
      (x <= y)%Q.
Proof.
  induction l as [|a l IH]; intros c Hl i j x y Hij Hi Hj; [done|].
  inversion Hl as [|? ? Ha Hl']; subst. cbn [running_sum] in Hi, Hj.
  destruct i as [|i], j as [|j]; try lia.
  - cbn in Hi, Hj. injection Hi as <-. injection Hj as <-. apply Qle_refl.
  - cbn in Hi. injection Hi as <-. rewrite lookup_cons in Hj.
    pose proof (running_sum_lower l (c + a)%Q Hl') as Hlow.
    rewrite Forall_forall in Hlow. apply Hlow.
    eapply list_elem_of_lookup_2; eauto.
  - rewrite lookup_cons in Hi, Hj.
    apply (IH (c + a)%Q Hl' i j x y); [lia | exact Hi | exact Hj].
Qed.

Lemma Qsum_from c l : (fold_left Qplus l c == c + Qsum l)%Q.
Proof.
  unfold Qsum. revert c. induction l as [|x l IH]; intros c; cbn.
  - by rewrite Qplus_0_r.
  - rewrite IH, (IH (0 + x)%Q). ring.
Qed.

Lemma Qsum_resolved weather days :
  (Qsum (map (daily_gdd_spec weather) days) == Qsum (resolved_gdd weather days))%Q.
Proof.
  induction days as [|d days IH]; [reflexivity|].
  cbn [map resolved_gdd]. unfold daily_gdd_spec at 1.
  destruct (weather d) as [w|e].
  - unfold Qsum at 1 2. cbn [fold_left]. rewrite !Qsum_from. by rewrite IH.
  - unfold Qsum at 1. cbn [fold_left]. rewrite Qsum_from, IH. ring.
Qed.

Lemma py_max_Qmax a b : (py_max a b == Qmax a b)%Q.
Proof.
  unfold py_max. destruct (Qle_bool b a) eqn:E.
  - apply Qle_bool_iff in E. symmetry. by apply Q.max_l.
  - symmetry. apply Q.max_r, Qlt_le_weak, Qnot_le_lt.
    intros H%Qle_bool_iff. congruence.
Qed.

Lemma lookup_map {A B} (f : A -> B) (l : list A) (i : nat) :
  map f l !! i = f <$> (l !! i).
Proof.
  revert i. induction l as [|x l IH]; intros [|i]; cbn; try done.
Qed.

Lemma daily_gdd_spec_all_nonneg weather days :
  Forall (fun x => (0 <= x)%Q) (map (daily_gdd_spec weather) days).
Proof.
  induction days; cbn; constructor; auto using daily_gdd_spec_nonneg.
Qed.

(** ** Reading signals off an effect list *)

Lemma progress_of_app l1 l2 : progress_of (l1 ++ l2) = progress_of l1 ++ progress_of l2.
Proof. unfold progress_of. apply omap_app. Qed.

Lemma progress_of_log l :
  Forall (fun e => is_log e = true) l -> progress_of l = [].
Proof.
  induction 1 as [|e l He _ IH]; [done|].
  unfold progress_of in *. cbn. rewrite IH. by destruct e.
Qed.

Lemma finished_of_app_progress_log l1 l2 :
  Forall (fun e => is_log e = true \/ exists p m, e = Progress p m) l1 ->
  finished_of (l1 ++ l2) = finished_of l2.
Proof.
  induction 1 as [|e l He _ IH]; [done|].
  cbn. destruct He as [He|(p & m & ->)]; [by destruct e | done].
Qed.

Lemma error_of_app_progress_log l1 l2 :
  Forall (fun e => is_log e = true \/ exists p m, e = Progress p m) l1 ->
  error_of (l1 ++ l2) = error_of l2.
Proof.
  induction 1 as [|e l He _ IH]; [done|].
  cbn. destruct He as [He|(p & m & ->)]; [by destruct e | done].
Qed.

Lemma Forall_log_weaken l :
  Forall (fun e => is_log e = true) l ->
  Forall (fun e => is_log e = true \/ exists p m, e = Progress p m) l.
Proof. intros H. eapply Forall_impl; [exact H|]. intros e He. by left. Qed.

(** ** The scenario loop *)

Section WorkerProperties.

Variable CropData : Type.
Variable nasa : Q -> Q -> res WeatherProvider.
Variable cropd : string -> string -> res CropData.
Variable engine :
  Params CropData -> WeatherProvider -> Agro ->
  res (list OutputRow * list (gmap string Q)).


Lemma guarded_engine_raise cfg weather key sc agro params rs dfs e :
  engine params weather agro = Raise e ->
  guarded engine cfg weather key sc agro params rs dfs = ([], Raise e).
Proof. unfold guarded. by intros ->. Qed.

Lemma guarded_no_summary cfg weather key sc agro params rs dfs output :
  engine params weather agro = Ok (output, []) ->
  guarded engine cfg weather key sc agro params rs dfs = ([], Ok (rs, dfs)).
Proof. unfold guarded. by intros ->. Qed.

Lemma guarded_root_crop cfg weather key sc agro params rs dfs output s ss :
  engine params weather agro = Ok (output, s :: ss) ->
  is_root_crop (crop cfg) = true ->
  guarded engine cfg weather key sc agro params rs dfs
  = ([], Ok (rs, <[name sc := {| rows := output; GDD := None;
                                 daily_GDD := None |}]> dfs)).
Proof. unfold guarded. by intros -> ->. Qed.

Lemma guarded_empty_output cfg weather key sc agro params rs dfs s ss :
  engine params weather agro = Ok ([], s :: ss) ->
  is_root_crop (crop cfg) = false ->
  guarded engine cfg weather key sc agro params rs dfs = ([], Raise (KeyError "day")).
Proof. unfold guarded. by intros -> ->. Qed.

Lemma guarded_success cfg weather key sc agro params rs dfs output s ss :
  engine params weather agro = Ok (output, s :: ss) ->
  output <> [] ->
  is_root_crop (crop cfg) = false ->
  let daily := map (daily_gdd_spec weather) (map row_day output) in
  let r := result_of (crop cfg) key sc output s (running_sum 0 daily) daily in
  outcome (guarded engine cfg weather key sc agro params rs dfs)
  = Ok (rs ++ [r], <[name sc := df r]> dfs) /\
  Forall (fun e => is_log e = true)
         (effects (guarded engine cfg weather key sc agro params rs dfs)).
Proof.
  intros Heng Hout Hroot daily r. unfold guarded.
  rewrite Heng, bind_lift_ok, Hroot. unfold df_day. cbn [rows].
  destruct output as [|row output]; [done|].
  rewrite bind_lift_ok.
  pose proof (gdd_loop_outcome weather (map row_day (row :: output)) 0 [] []) as Hgdd.
  pose proof (gdd_loop_effects weather (map row_day (row :: output)) 0 [] []) as Heff.
  rewrite !app_nil_l in Hgdd.
  rewrite outcome_bind, effects_bind, Hgdd. cbn [outcome effects ret fst snd].
  rewrite app_nil_r. split; [reflexivity | exact Heff].
Qed.

Lemma guarded_cases cfg weather key sc agro params rs dfs :
  Forall (fun e => is_log e = true)
         (effects (guarded engine cfg weather key sc agro params rs dfs)) /\
  match outcome (guarded engine cfg weather key sc agro params rs dfs) with
  | Raise _ => True
  | Ok (rs', dfs') =>
      rs' = rs \/
      exists output s gdd_list daily_gdd_list,
        rs' = rs ++ [result_of (crop cfg) key sc output s gdd_list daily_gdd_list]
  end.
Proof.
  destruct (engine params weather agro) as [[output [|s ss]]|e] eqn:Heng.
  - rewrite (guarded_no_summary _ _ _ _ _ _ _ _ _ Heng). cbn. auto.
  - destruct (is_root_crop (crop cfg)) eqn:Hroot.
    + rewrite (guarded_root_crop _ _ _ _ _ _ _ _ _ _ _ Heng Hroot). cbn. auto.
    + destruct output as [|row output].
      * rewrite (guarded_empty_output _ _ _ _ _ _ _ _ _ _ Heng Hroot). cbn. auto.
      * destruct (guarded_success cfg weather key sc agro params rs dfs
                    _ _ _ Heng ltac:(discriminate) Hroot) as [Hout Heff].
        rewrite Hout. split; [exact Heff|]. right. eauto.
  - rewrite (guarded_engine_raise _ _ _ _ _ _ _ _ _ Heng). cbn. auto.
Qed.

Lemma build_soildata_effects sp : effects (build_soildata sp) = [].
Proof.
  unfold build_soildata.
  repeat (match goal with
          | |- context [lift (getitem ?d ?k)] => destruct (getitem d k)
          end;
          [rewrite bind_lift_ok | reflexivity]).
  reflexivity.
Qed.

Lemma construct_effects cfg crop_config sc :
  effects (construct cropd cfg crop_config sc) = [].
Proof.
  unfold construct.
  destruct (build_agro _ _ _ _); [rewrite bind_lift_ok | reflexivity].
  destruct (cropd _ _); [rewrite bind_lift_ok | reflexivity].
  rewrite effects_bind, build_soildata_effects.
  by destruct (outcome (build_soildata _)).
Qed.

(** One iteration on an enabled scenario, by cases on what the
    construction and the guarded block do. *)
Lemma scenario_body_enabled cfg crop_config weather total st key sc pct :
  is_enabled sc = true ->
  progress_pct (completed st) total = Ok pct ->
  scenario_body cropd engine cfg crop_config weather total st key sc =
  match outcome (construct cropd cfg crop_config sc) with
  | Raise e => ([Progress pct ("Running: " +:+ name sc +:+ "...")], Raise e)
  | Ok (agro, params) =>
      let g := guarded engine cfg weather key sc agro params (results st) (dataframes st) in
      match outcome g with
      | Ok (rs, dfs) =>
          (Progress pct ("Running: " +:+ name sc +:+ "...") :: effects g,
           Ok {| results := rs; dataframes := dfs; completed := completed st + 1 |})
      | Raise e =>
          (Progress pct ("Running: " +:+ name sc +:+ "...")
             :: effects g ++ [PrintScenarioError key e],
           Ok {| results := results st; dataframes := dataframes st;
                 completed := completed st + 1 |})
      end
  end.
Proof.
  intros Hen Hpct. unfold scenario_body.
  rewrite Hen. cbn [negb]. rewrite Hpct, bind_lift_ok, bind_tell.
  pose proof (construct_effects cfg crop_config sc) as Hc.
  destruct (construct cropd cfg crop_config sc) as [w [[agro params]|e]]; cbn in Hc; subst w.
  - cbn [bind outcome snd].
    destruct (guarded engine cfg weather key sc agro params (results st) (dataframes st))
      as [wg [[rs dfs]|e]]; cbn; by rewrite ?app_nil_r.
  - reflexivity.
Qed.

Lemma scenario_body_disabled cfg crop_config weather total st key sc :
  is_enabled sc = false ->
  scenario_body cropd engine cfg crop_config weather total st key sc = ([], Ok st).
Proof. intros Hen. unfold scenario_body. by rewrite Hen. Qed.

(** What one iteration emits and returns, in the three situations it can
    be in. *)
Lemma scenario_body_cases cfg crop_config weather total st key sc :
  let body := scenario_body cropd engine cfg crop_config weather total st key sc in
  (is_enabled sc = false /\ body = ([], Ok st)) \/
  (is_enabled sc = true /\ total = 0 /\ body = ([], Raise ZeroDivisionError)) \/
  (is_enabled sc = true /\ total <> 0 /\
   progress_of (effects body) = [20 + 70 * completed st ÷ total] /\
   Forall benign (effects body) /\
   match outcome body with
   | Raise _ => True
   | Ok st' =>
       completed st' = completed st + 1 /\
       (results st' = results st \/
        exists output s gdd_list daily_gdd_list,
          results st' =
          results st ++ [result_of (crop cfg) key sc output s gdd_list daily_gdd_list])
   end).
Proof.
  intros body. subst body.
  destruct (is_enabled sc) eqn:Hen.
  2:{ left. split; [done|]. by apply scenario_body_disabled. }
  right. destruct (Z.eq_dec total 0) as [->|Hne].
  { left. repeat split. unfold scenario_body. by rewrite Hen. }
  right. split; [done|]. split; [done|].
  assert (Hpct : progress_pct (completed st) total
                 = Ok (20 + 70 * completed st ÷ total)).
  { unfold progress_pct. by apply Z.eqb_neq in Hne as ->. }
  rewrite (scenario_body_enabled _ _ _ _ _ _ _ _ Hen Hpct).
  destruct (outcome (construct cropd cfg crop_config sc)) as [[agro params]|e].
  2:{ cbn. split; [done|]. split; [|done].
      constructor; [right; eauto | constructor]. }
  destruct (guarded_cases cfg weather key sc agro params
              (results st) (dataframes st)) as [Hlog Hres].
  cbv zeta.
  destruct (outcome (guarded engine cfg weather key sc agro params _ _))
    as [[rs dfs]|e]; cbn [effects outcome fst snd].
  - split; [|split].
    + unfold progress_of at 1. cbn [omap list_omap]. fold progress_of.
      f_equal. by apply progress_of_log.
    + constructor; [right; eauto|]. eapply Forall_impl; [exact Hlog|]. by left.
    + cbn. split; [done | exact Hres].
  - split; [|split].
    + unfold progress_of at 1. cbn [omap list_omap]. fold progress_of.
      f_equal. rewrite progress_of_app, (progress_of_log _ Hlog). reflexivity.
    + constructor; [right; eauto|]. apply Forall_app. split.
      * eapply Forall_impl; [exact Hlog|]. by left.
      * constructor; [by left | constructor].
    + cbn. auto.
Qed.

Lemma total_scenarios_of_cons key sc scs :
  total_scenarios_of ((key, sc) :: scs)
  = (if is_enabled sc then 1 else 0) + total_scenarios_of scs.
Proof.
  unfold total_scenarios_of. cbn [List.filter snd].
  destruct (is_enabled sc); cbn [List.length]; lia.
Qed.

Lemma total_scenarios_of_nonneg scs : 0 <= total_scenarios_of scs.
Proof. unfold total_scenarios_of. lia. Qed.

Lemma scenario_loop_cons cfg crop_config weather total st key sc scs :
  scenario_loop cropd engine cfg crop_config weather total st ((key, sc) :: scs)
  = bind (scenario_body cropd engine cfg crop_config weather total st key sc)
         (fun st' => scenario_loop cropd engine cfg crop_config weather total st' scs).
Proof. reflexivity. Qed.

Lemma scenario_body_benign cfg crop_config weather total st key sc :
  Forall benign (effects (scenario_body cropd engine cfg crop_config weather total st key sc)).
Proof.
  destruct (scenario_body_cases cfg crop_config weather total st key sc)
    as [(_ & ->)|[(_ & _ & ->)|(_ & _ & _ & H & _)]]; [constructor..|exact H].
Qed.

Lemma scenario_loop_benign cfg crop_config weather total scs :
  forall st,
    Forall benign (effects (scenario_loop cropd engine cfg crop_config weather total st scs)).
Proof.
  induction scs as [|[key sc] scs IH]; intros st; [constructor|].
  rewrite scenario_loop_cons, effects_bind. apply Forall_app. split.
  - apply scenario_body_benign.
  - destruct (outcome _); [apply IH | constructor].
Qed.

(** A property of the loop-carried variables that every iteration
    preserves holds when the loop ends. *)
Lemma scenario_loop_invariant cfg crop_config weather total (I : Locals -> Prop) :
  (forall st key sc st',
      I st ->
      outcome (scenario_body cropd engine cfg crop_config weather total st key sc) = Ok st' ->
      I st') ->
  forall scs st st',
    I st ->
    outcome (scenario_loop cropd engine cfg crop_config weather total st scs) = Ok st' ->
    I st'.
Proof.
  intros Hstep. induction scs as [|[key sc] scs IH]; intros st st' HI.
  - cbn. by intros [= <-].
  - rewrite scenario_loop_cons, outcome_bind.
    destruct (outcome (scenario_body _ _ _ _ _ _ _ _ _)) as [st1|e] eqn:Hb; [|done].
    apply IH. eapply Hstep; eauto.
Qed.

Lemma pct_le_mono total c :
  0 <= total -> 0 <= c -> 20 + 70 * c ÷ total <= 20 + 70 * (c + 1) ÷ total.
Proof.
  intros Ht Hc. destruct (Z.eq_dec total 0) as [->|Hne].
  - by rewrite !Zquot.Zquot_0_r.
  - apply Z.add_le_mono_l, Z.quot_le_mono; lia.
Qed.

Lemma pct_bounds total c :
  0 <= c < total -> 20 <= 20 + 70 * c ÷ total < 90.
Proof.
  intros Hc. rewrite Z.quot_div_nonneg by lia.
  assert (0 <= 70 * c / total) by (apply Z.div_pos; lia).
  assert (70 * c / total < 70) by (apply Z.div_lt_upper_bound; lia).
  lia.
Qed.

Lemma scenario_loop_progress_sorted cfg crop_config weather total :
  0 <= total ->
  forall scs st,
    0 <= completed st ->
    let ps := progress_of
                (effects (scenario_loop cropd engine cfg crop_config weather total st scs)) in
    StronglySorted Z.le ps /\
    Forall (fun p => 20 + 70 * completed st ÷ total <= p) ps.
Proof.
  intros Ht. induction scs as [|[key sc] scs IH]; intros st Hc ps; subst ps.
  { split; constructor. }
  rewrite scenario_loop_cons, effects_bind, progress_of_app.
  destruct (scenario_body_cases cfg crop_config weather total st key sc)
    as [(_ & ->)|[(_ & _ & ->)|(_ & _ & Hp & _ & Hout)]].
  - cbn [effects outcome fst snd progress_of omap list_omap app]. by apply IH.
  - split; constructor.
  - rewrite Hp.
    destruct (outcome (scenario_body _ _ _ _ _ _ _ _ _)) as [st1|e].
    + destruct Hout as [Hc1 _].
      destruct (IH st1 ltac:(lia)) as [Hs Hl]. rewrite Hc1 in Hl.
      assert (Hl' : Forall (fun p => 20 + 70 * completed st ÷ total <= p)
                      (progress_of (effects (scenario_loop cropd engine cfg crop_config
                                               weather total st1 scs)))).
      { eapply Forall_impl; [exact Hl|]. intros p Hp1. cbn beta in *.
        pose proof (pct_le_mono total (completed st) Ht Hc). lia. }
      split; cbn [app]; constructor; [exact Hs | exact Hl' | lia | exact Hl'].
    + split; repeat constructor. lia.
Qed.

Lemma scenario_loop_progress_below cfg crop_config weather total :
  forall scs st,
    0 <= completed st ->
    completed st + total_scenarios_of scs <= total ->
    Forall (fun p => p < 90)
      (progress_of
         (effects (scenario_loop cropd engine cfg crop_config weather total st scs))).
Proof.
  induction scs as [|[key sc] scs IH]; intros st Hc Hle; [constructor|].
  rewrite scenario_loop_cons, effects_bind, progress_of_app.
  rewrite total_scenarios_of_cons in Hle.
  pose proof (total_scenarios_of_nonneg scs) as Hn.
  destruct (scenario_body_cases cfg crop_config weather total st key sc)
    as [(Hen & ->)|[(_ & _ & ->)|(Hen & _ & Hp & _ & Hout)]].
  - rewrite Hen in Hle.
    cbn [effects outcome fst snd progress_of omap list_omap app]. apply IH; lia.
  - constructor.
  - rewrite Hp, Hen in *. cbn [app]. constructor.
    + apply pct_bounds. lia.
    + destruct (outcome (scenario_body _ _ _ _ _ _ _ _ _)) as [st1|e]; [|constructor].
      destruct Hout as [Hc1 _]. apply IH; lia.
Qed.

(** A loop that ends normally has emitted one percentage per enabled
    scenario, computed from the count of scenarios processed before it. *)
Lemma scenario_loop_progress_exact cfg crop_config weather total :
  forall scs st st',
    outcome (scenario_loop cropd engine cfg crop_config weather total st scs) = Ok st' ->
    completed st' = completed st + total_scenarios_of scs /\
    progress_of (effects (scenario_loop cropd engine cfg crop_config weather total st scs))
    = map (fun k => 20 + 70 * k ÷ total)
          (seqZ (completed st) (total_scenarios_of scs)).
Proof.
  induction scs as [|[key sc] scs IH]; intros st st'.
  { cbn. intros [= <-]. split; [unfold total_scenarios_of; cbn; lia | done]. }
  rewrite scenario_loop_cons, outcome_bind, effects_bind, progress_of_app.
  rewrite total_scenarios_of_cons.
  pose proof (total_scenarios_of_nonneg scs) as Hn.
  destruct (scenario_body_cases cfg crop_config weather total st key sc)
    as [(Hen & ->)|[(_ & _ & ->)|(Hen & _ & Hp & _ & Hout)]].
  - rewrite Hen. cbn [effects outcome fst snd].
    change (progress_of []) with (@nil Z). rewrite app_nil_l.
    intros H. destruct (IH _ _ H) as [Hc Hps]. split; [lia|]. by rewrite Hps.
  - done.
  - rewrite Hp, Hen.
    destruct (outcome (scenario_body _ _ _ _ _ _ _ _ _)) as [st1|e]; [|done].
    destruct Hout as [Hc1 _]. intros H. destruct (IH _ _ H) as [Hc Hps].
    split; [lia|]. rewrite Hps, Hc1.
    rewrite (seqZ_cons (completed st)) by lia. cbn [map app].
    do 2 f_equal; f_equal; lia.
Qed.

(** ** Setup and the whole run *)

Lemma weather_loop_spec weather days :
  forall acc,
    Forall (fun e => is_log e = true) (effects (weather_loop weather days acc)) /\
    is_ok (outcome (weather_loop weather days acc)) = true.
Proof.
  induction days as [|d days IH]; intros acc; cbn [weather_loop].
  - split; [constructor | done].
  - rewrite effects_bind, outcome_bind. unfold weather_row.
    destruct (weather d) as [w|e]; cbn [lift bind ret try_except tell app effects outcome fst snd].
    + apply IH.
    + destruct (IH (acc ++ [])) as [Heff Hok]. split; [|exact Hok].
      constructor; [done | exact Heff].
Qed.

Lemma setup_cases cfg :
  Forall benign (effects (setup nasa cfg)) /\
  match outcome (setup nasa cfg) with
  | Ok _ => progress_of (effects (setup nasa cfg)) = [5; 15]
  | Raise _ => progress_of (effects (setup nasa cfg)) = [5] \/
               progress_of (effects (setup nasa cfg)) = [5; 15]
  end.
Proof.
  unfold setup. rewrite bind_tell.
  destruct (CROP_OPTIONS !! crop cfg) as [crop_config|].
  2:{ cbn. split; [|by left]. constructor; [right; eauto | constructor]. }
  rewrite bind_lift_ok, bind_tell.
  destruct (nasa (lat (location cfg)) (lon (location cfg))) as [weather|e].
  2:{ cbn. split; [|by right]. repeat (constructor; [right; eauto|]). constructor. }
  rewrite bind_lift_ok.
  destruct (weather_loop_spec weather (Datetime.year_days (year (start_date cfg))) [])
    as [Hlog Hok].
  destruct (weather_loop weather _ []) as [w [weather_data|e]]; [|done].
  cbn [effects outcome fst snd] in Hlog.
  assert (Hp : progress_of
                 (Progress 5 "Importing PCSE modules..."
                  :: Progress 15 ("Loading weather for " +:+ location_name (location cfg) +:+ "...")
                  :: w) = [5; 15]).
  { unfold progress_of. cbn [omap list_omap]. do 2 f_equal. by apply progress_of_log. }
  assert (Hb : Forall benign
                 (Progress 5 "Importing PCSE modules..."
                  :: Progress 15 ("Loading weather for " +:+ location_name (location cfg) +:+ "...")
                  :: w)).
  { repeat (constructor; [right; eauto|]). eapply Forall_impl; [exact Hlog|]. by left. }
  destruct weather_data as [|row weather_data];
    cbn [bind lift ret set_index_date effects outcome fst snd app];
    rewrite ?app_nil_r; split; auto.
Qed.

(** The three ways a run can go: setup raises, a scenario's unguarded
    part raises, or the batch reaches its end. *)
Lemma run_cases cfg :
  match outcome (setup nasa cfg) with
  | Raise e =>
      run nasa cropd engine cfg = (effects (setup nasa cfg) ++ [Error e], Ok tt)
  | Ok (crop_config, weather, weather_df) =>
      let loop := scenario_loop cropd engine cfg crop_config weather
                    (total_scenarios_of (fert_scenarios cfg))
                    {| results := []; dataframes := ∅; completed := 0 |}
                    (fert_scenarios cfg) in
      match outcome loop with
      | Raise e =>
          run nasa cropd engine cfg
          = (effects (setup nasa cfg) ++ effects loop ++ [Error e], Ok tt)
      | Ok st =>
          run nasa cropd engine cfg
          = (effects (setup nasa cfg) ++ effects loop ++
             [ Progress 95 "Finalizing results..."; Progress 100 "Done!";
               Finished (results st) (dataframes st) weather_df
                        (year (start_date cfg)) (location_name (location cfg)) ],
             Ok tt)
      end
  end.
Proof.
  unfold run. rewrite try_except_eta. unfold batch.
  rewrite outcome_bind, effects_bind.
  destruct (outcome (setup nasa cfg)) as [[[crop_config weather] weather_df]|e];
    [|by rewrite app_nil_r].
  cbv zeta. rewrite outcome_bind, effects_bind.
  destruct (outcome (scenario_loop cropd engine cfg crop_config weather _ _ _))
    as [st|e]; cbn; by rewrite ?app_nil_r, <- ?app_assoc.
Qed.

Lemma finished_of_benign_error l e :
  Forall benign l -> finished_of (l ++ [Error e]) = None.
Proof. intros H. by rewrite finished_of_app_progress_log. Qed.

(** What the [finished] signal of a run carries, if there is one. *)
Lemma run_finished cfg :
  finished_of (effects (run nasa cropd engine cfg)) =
  match outcome (setup nasa cfg) with
  | Raise _ => None
  | Ok (crop_config, weather, weather_df) =>
      match outcome (scenario_loop cropd engine cfg crop_config weather
                       (total_scenarios_of (fert_scenarios cfg))
                       {| results := []; dataframes := ∅; completed := 0 |}
                       (fert_scenarios cfg)) with
      | Raise _ => None
      | Ok st => Some (results st, dataframes st)
      end
  end.
Proof.
  pose proof (run_cases cfg) as Hrun.
  destruct (setup_cases cfg) as [Hsetup _].
  destruct (outcome (setup nasa cfg)) as [[[crop_config weather] weather_df]|e].
  - cbv zeta in Hrun.
    pose proof (scenario_loop_benign cfg crop_config weather
                  (total_scenarios_of (fert_scenarios cfg)) (fert_scenarios cfg)
                  {| results := []; dataframes := ∅; completed := 0 |}) as Hloop.
    destruct (outcome (scenario_loop cropd engine cfg crop_config weather _ _ _))
      as [st|e]; rewrite Hrun; cbn [effects fst].
    + by rewrite !finished_of_app_progress_log.
    + rewrite app_assoc. apply finished_of_benign_error. by apply Forall_app.
  - rewrite Hrun. cbn [effects fst]. by apply finished_of_benign_error.
Qed.

(** An exception that escapes the body of the outer [try] becomes the
    error signal, and no [finished] signal is emitted. *)
Lemma run_fatal cfg e :
  outcome (batch nasa cropd engine cfg) = Raise e ->
  effects (run nasa cropd engine cfg)
  = effects (batch nasa cropd engine cfg) ++ [Error e] /\
  finished_of (effects (run nasa cropd engine cfg)) = None.
Proof.
  intros Hb. split.
  - unfold run. rewrite try_except_eta, Hb. reflexivity.
  - rewrite run_finished. revert Hb. unfold batch. rewrite outcome_bind.
    destruct (outcome (setup nasa cfg)) as [[[crop_config weather] weather_df]|e0];
      [|done].
    rewrite outcome_bind.
    by destruct (outcome (scenario_loop cropd engine cfg crop_config weather _ _ _)).
Qed.

(** C1 (amended).  For an enabled scenario reached by the loop:
    an exception raised inside the scenario's [try] (engine construction
    and execution, output and summary retrieval, post-processing) is
    caught at the scenario boundary: a message naming the scenario is
    printed, the result list and the table map stay as they were, and the
    loop goes on with the next scenario.  An exception raised while the
    scenario is constructed (timed-event dates, crop-data provider,
    soil data) is not caught there: it ends the loop right after the
    scenario's progress signal, and any exception that leaves the batch
    body is turned into the error signal, with no finished signal. *)
Theorem C1_scenario_failure_isolation :
  forall cfg crop_config weather total st key sc rest pct,
    is_enabled sc = true ->
    progress_pct (completed st) total = Ok pct ->
    (forall agro params e,
        outcome (construct cropd cfg crop_config sc) = Ok (agro, params) ->
        outcome (guarded engine cfg weather key sc agro params
                         (results st) (dataframes st)) = Raise e ->
        let st' := {| results := results st; dataframes := dataframes st;
                      completed := completed st + 1 |} in
        scenario_loop cropd engine cfg crop_config weather total st ((key, sc) :: rest)
        = (Progress pct ("Running: " +:+ name sc +:+ "...")
             :: effects (guarded engine cfg weather key sc agro params
                                 (results st) (dataframes st))
             ++ PrintScenarioError key e
             :: effects (scenario_loop cropd engine cfg crop_config weather total st' rest),
           outcome (scenario_loop cropd engine cfg crop_config weather total st' rest))) /\
    (forall e,
        outcome (construct cropd cfg crop_config sc) = Raise e ->
        scenario_loop cropd engine cfg crop_config weather total st ((key, sc) :: rest)
        = ([Progress pct ("Running: " +:+ name sc +:+ "...")], Raise e)) /\
    (forall e,
        outcome (batch nasa cropd engine cfg) = Raise e ->
        error_of (effects (run nasa cropd engine cfg)) = Some e /\
        finished_of (effects (run nasa cropd engine cfg)) = None).
Proof.
  intros cfg crop_config weather total st key sc rest pct Hen Hpct.
  pose proof (scenario_body_enabled cfg crop_config weather total st key sc pct
                Hen Hpct) as Hbody.
  split; [|split].
  - intros agro params e Hc Hg st'. rewrite scenario_loop_cons.
    rewrite Hc in Hbody. cbv zeta in Hbody. rewrite Hg in Hbody. rewrite Hbody.
    cbn [bind]. fold st'.
    rewrite (M_eta (scenario_loop cropd engine cfg crop_config weather total st' rest)).
    cbn [effects outcome fst snd]. f_equal. cbn [app]. f_equal.
    by rewrite <- app_assoc.
  - intros e Hc. rewrite scenario_loop_cons. rewrite Hc in Hbody. by rewrite Hbody.
  - intros e Hb. destruct (run_fatal cfg e Hb) as [Heff Hfin]. split; [|exact Hfin].
    rewrite Heff. revert Hb. unfold batch. rewrite outcome_bind, effects_bind.
    destruct (setup_cases cfg) as [Hsetup _].
    destruct (outcome (setup nasa cfg)) as [[[crop_config' weather'] weather_df]|e0].
    + rewrite outcome_bind, effects_bind.
      pose proof (scenario_loop_benign cfg crop_config' weather'
                    (total_scenarios_of (fert_scenarios cfg)) (fert_scenarios cfg)
                    {| results := []; dataframes := ∅; completed := 0 |}) as Hloop.
      destruct (outcome (scenario_loop cropd engine cfg crop_config' weather' _ _ _))
        as [st1|e1]; [done|].
      intros [= ->]. rewrite app_nil_r.
      rewrite error_of_app_progress_log; [done|]. by apply Forall_app.
    + intros [= ->]. rewrite app_nil_r. by rewrite error_of_app_progress_log.
Qed.

(** ** Growing degree days of a scenario *)

(** C2 (amended).  For a crop outside the root/tuber list, whenever the
    engine returns a non-empty daily output and a non-empty summary list,
    the guarded block ends normally with one scenario result whose frame
    is the raw output extended by the columns [GDD] and [daily_GDD]; the
    same frame is stored under the scenario's name.  Both columns have
    the length of the output's day sequence; the daily value of a day is
    max(0, (TMAX + TMIN) / 2 - 0) from the provider's sample for that
    day, or 0 when the lookup raises; the cumulative value at a position
    is the sum of the daily values up to that position, so the cumulative
    column is non-decreasing. *)
Theorem C2_gdd_columns :
  forall cfg weather key sc agro params rs dfs output s ss,
    engine params weather agro = Ok (output, s :: ss) ->
    output <> [] ->
    is_root_crop (crop cfg) = false ->
    exists gdd_list daily_gdd_list r,
      outcome (guarded engine cfg weather key sc agro params rs dfs)
      = Ok (rs ++ [r], <[name sc := df r]> dfs) /\
      df r = {| rows := output; GDD := Some gdd_list;
                daily_GDD := Some daily_gdd_list |} /\
      List.length gdd_list = List.length output /\
      List.length daily_gdd_list = List.length output /\
      (forall (i : nat) row, output !! i = Some row ->
         (exists d, daily_gdd_list !! i = Some d /\
                    match weather (row_day row) with
                    | Ok w => (d == Qmax 0 ((TMAX w + TMIN w) / 2 - 0))%Q
                    | Raise _ => d = 0%Q
                    end) /\
         gdd_list !! i = Some (fold_left Qplus (take (S i) daily_gdd_list) 0%Q)) /\
      (forall (i j : nat) x y,
         (i <= j)%nat -> gdd_list !! i = Some x -> gdd_list !! j = Some y ->
         (x <= y)%Q).
Proof.
  intros cfg weather key sc agro params rs dfs output s ss Heng Hout Hroot.
  destruct (guarded_success cfg weather key sc agro params rs dfs output s ss
              Heng Hout Hroot) as [Hg _].
  set (daily := map (daily_gdd_spec weather) (map row_day output)) in *.
  exists (running_sum 0 daily), daily, (result_of (crop cfg) key sc output s
                                         (running_sum 0 daily) daily).
  assert (Hlen : List.length daily = List.length output).
  { unfold daily. by rewrite !length_map. }
  split; [exact Hg|]. split; [reflexivity|].
  split; [by rewrite running_sum_length|]. split; [exact Hlen|]. split.
  - intros i row Hrow. split.
    + exists (daily_gdd_spec weather (row_day row)). split.
      * unfold daily. by rewrite !lookup_map, Hrow.
      * unfold daily_gdd_spec. destruct (weather (row_day row)); [|done].
        apply py_max_Qmax.
    + apply running_sum_lookup. rewrite Hlen. by eapply lookup_lt_Some.
  - apply running_sum_monotone, daily_gdd_spec_all_nonneg.
Qed.

(** C8.  The GDD loop never raises, whatever the weather provider does:
    a day whose lookup raises contributes a daily value of 0, the last
    cumulative value is the sum of the contributions of the days whose
    lookup succeeded, and the guarded block of a scenario that reached
    the GDD computation still ends normally with its scenario result. *)
Theorem C8_weather_lookup_failures_are_fail_soft :
  forall (weather : WeatherProvider) (days : list date),
    exists gdd_list daily_gdd_list,
      outcome (gdd_loop weather days 0 [] []) = Ok (gdd_list, daily_gdd_list) /\
      (forall (i : nat) d e,
         days !! i = Some d -> weather d = Raise e ->
         daily_gdd_list !! i = Some 0%Q) /\
      (days <> [] ->
       exists total, last gdd_list = Some total /\
                     (total == Qsum (resolved_gdd weather days))%Q) /\
      (forall cfg key sc agro params rs dfs output s ss,
         engine params weather agro = Ok (output, s :: ss) ->
         map row_day output = days ->
         days <> [] ->
         is_root_crop (crop cfg) = false ->
         exists r,
           outcome (guarded engine cfg weather key sc agro params rs dfs)
           = Ok (rs ++ [r], <[name sc := df r]> dfs) /\
           GDD (df r) = Some gdd_list /\
           daily_GDD (df r) = Some daily_gdd_list).
Proof.
  intros weather days.
  set (daily := map (daily_gdd_spec weather) days).
  exists (running_sum 0 daily), daily.
  split; [|split; [|split]].
  - apply (gdd_loop_outcome weather days 0 [] []).
  - intros i d e Hd He. unfold daily. rewrite lookup_map, Hd. cbn.
    unfold daily_gdd_spec. by rewrite He.
  - intros Hne. assert (Hlen : (0 < List.length daily)%nat).
    { unfold daily. rewrite length_map. destruct days; [done | cbn; lia]. }
    exists (fold_left Qplus daily 0%Q). split.
    + rewrite last_lookup, running_sum_length.
      rewrite running_sum_lookup by lia.
      replace (S (Nat.pred (List.length daily))) with (List.length daily) by lia.
      by rewrite firstn_all.
    + unfold daily. apply Qsum_resolved.
  - intros cfg key sc agro params rs dfs output s ss Heng Hdays Hne Hroot.
    assert (Hout : output <> []) by (intros ->; by apply Hne).
    destruct (guarded_success cfg weather key sc agro params rs dfs output s ss
                Heng Hout Hroot) as [Hg _].
    rewrite Hdays in Hg. fold daily in Hg.
    eexists. split; [exact Hg|]. split; reflexivity.
Qed.

(** ** Results *)

Lemma scenario_loop_yield cfg crop_config weather total scs st st' :
  Forall (fun r => yield_t r = (yield_kg r / 1000)%Q) (results st) ->
  outcome (scenario_loop cropd engine cfg crop_config weather total st scs) = Ok st' ->
  Forall (fun r => yield_t r = (yield_kg r / 1000)%Q) (results st').
Proof.
  apply (scenario_loop_invariant cfg crop_config weather total
           (fun st => Forall (fun r => yield_t r = (yield_kg r / 1000)%Q) (results st))).
  clear. intros st key sc st' HI.
  destruct (scenario_body_cases cfg crop_config weather total st key sc)
    as [(_ & ->)|[(_ & _ & ->)|(_ & _ & _ & _ & Hout)]].
  - by intros [= <-].
  - done.
  - intros Hb. rewrite Hb in Hout. destruct Hout as [_ [->|(o & s & g & d & ->)]].
    + exact HI.
    + apply Forall_app. split; [exact HI|]. by constructor.
Qed.

(** C9.  In every scenario result a run hands over with its finished
    signal, the t/ha yield is the kg/ha yield divided by 1000. *)
Theorem C9_yield_t_is_yield_kg_over_1000 :
  forall cfg,
    Forall (fun r => yield_t r = (yield_kg r / 1000)%Q)
           (batch_results (effects (run nasa cropd engine cfg))).
Proof.
  intros cfg. unfold batch_results. rewrite run_finished.
  destruct (outcome (setup nasa cfg)) as [[[crop_config weather] weather_df]|e];
    [|constructor].
  destruct (outcome (scenario_loop cropd engine cfg crop_config weather _ _ _))
    as [st|e] eqn:Hloop; [|constructor].
  eapply scenario_loop_yield; [|exact Hloop]. constructor.
Qed.

(** ** Progress *)

Lemma StronglySorted_app_le (l1 l2 : list Z) b :
  StronglySorted Z.le l1 -> StronglySorted Z.le l2 ->
  Forall (fun x => x <= b) l1 -> Forall (fun y => b <= y) l2 ->
  StronglySorted Z.le (l1 ++ l2).
Proof.
  intros H1 H2 Hl1 Hl2. induction H1 as [|x l1 Hs IH Hx]; [exact H2|].
  inversion Hl1 as [|? ? Hxb Hl1']; subst. cbn. constructor; [by apply IH|].
  apply Forall_app. split; [exact Hx|].
  eapply Forall_impl; [exact Hl2|]. intros y Hy. cbn in Hy. lia.
Qed.

(** C4 (amended).  The progress percentages of a run are non-decreasing,
    however the run goes and however many scenarios fail.  When the run
    is not aborted by a batch-level error, they are 5, 15, then
    20 + int(70 * k / n) for k = 0, ..., n - 1 where n is the number of
    enabled scenarios, each of these within [20, 90), then 95 and finally
    100; scenarios that fail inside their [try] change none of this.
    (An exception raised while a scenario is constructed is a batch-level
    error: the run then ends on that scenario's percentage.) *)
Theorem C4_progress_is_monotone_and_ends_at_100 :
  forall cfg,
    let ps := progress_of (effects (run nasa cropd engine cfg)) in
    let n := total_scenarios_of (fert_scenarios cfg) in
    StronglySorted Z.le ps /\
    (error_of (effects (run nasa cropd engine cfg)) = None ->
     ps = [5; 15] ++ map (fun k => 20 + 70 * k ÷ n) (seqZ 0 n) ++ [95; 100] /\
     Forall (fun k => 20 <= 20 + 70 * k ÷ n < 90) (seqZ 0 n) /\
     last ps = Some 100).
Proof.
  intros cfg ps n. subst ps.
  pose proof (run_cases cfg) as Hrun.
  destruct (setup_cases cfg) as [Hsetup Hp].
  pose proof (total_scenarios_of_nonneg (fert_scenarios cfg)) as Hn. fold n in Hn.
  assert (Hbounds : Forall (fun k => 20 <= 20 + 70 * k ÷ n < 90) (seqZ 0 n)).
  { apply Forall_forall. intros k Hk%elem_of_seqZ. apply pct_bounds. lia. }
  destruct (outcome (setup nasa cfg)) as [[[crop_config weather] weather_df]|e].
  2:{ rewrite Hrun. cbn [effects fst]. split.
      - rewrite progress_of_app. change (progress_of [Error e]) with (@nil Z).
        rewrite app_nil_r. destruct Hp as [-> | ->]; repeat constructor; lia.
      - rewrite error_of_app_progress_log by exact Hsetup. done. }
  cbv zeta in Hrun. fold n in Hrun.
  set (st0 := {| results := []; dataframes := ∅; completed := 0 |}) in *.
  pose proof (scenario_loop_benign cfg crop_config weather n (fert_scenarios cfg) st0)
    as Hben.
  destruct (scenario_loop_progress_sorted cfg crop_config weather n Hn
              (fert_scenarios cfg) st0 ltac:(cbn; lia)) as [Hsorted Hlow].
  pose proof (scenario_loop_progress_below cfg crop_config weather n
                (fert_scenarios cfg) st0 ltac:(cbn; lia) ltac:(cbn; fold n; lia))
    as Hhigh.
  assert (Hlow20 : Forall (fun p => 20 <= p)
            (progress_of (effects (scenario_loop cropd engine cfg crop_config weather
                                     n st0 (fert_scenarios cfg))))).
  { eapply Forall_impl; [exact Hlow|]. intros p Hp0. cbn in Hp0.
    rewrite Z.mul_0_r in Hp0. replace (0 ÷ n) with 0 in Hp0 by (by destruct n).
    lia. }
  destruct (outcome (scenario_loop cropd engine cfg crop_config weather n st0 _))
    as [st|e] eqn:Hloop; rewrite Hrun; cbn [effects fst];
    rewrite !progress_of_app, Hp.
  - destruct (scenario_loop_progress_exact cfg crop_config weather n
                (fert_scenarios cfg) st0 st Hloop) as [_ Hexact].
    cbn [completed st0] in Hexact. fold n in Hexact.
    change (progress_of [Progress 95 "Finalizing results..."; Progress 100 "Done!";
                         Finished (results st) (dataframes st) weather_df
                                  (year (start_date cfg))
                                  (location_name (location cfg))])
      with [95; 100].
    split.
    + apply (StronglySorted_app_le _ _ 15); [repeat constructor; lia | |
        repeat constructor; lia |].
      * apply (StronglySorted_app_le _ _ 90); [exact Hsorted | repeat constructor; lia | |
          repeat constructor; lia].
        eapply Forall_impl; [exact Hhigh|]. intros p Hp0. cbn in Hp0. lia.
      * apply Forall_app. split; [|repeat constructor; lia].
        eapply Forall_impl; [exact Hlow20|]. intros p Hp0. cbn in Hp0. lia.
    + intros _. rewrite Hexact. split; [reflexivity|]. split; [exact Hbounds|].
      change [95; 100] with ([95] ++ [100]). rewrite !app_assoc.
      apply (last_snoc 100).
  - change (progress_of [Error e]) with (@nil Z). rewrite app_nil_r. split.
    + apply (StronglySorted_app_le _ _ 15);
        [repeat constructor; lia | exact Hsorted | repeat constructor; lia |].
      eapply Forall_impl; [exact Hlow20|]. intros p Hp0. cbn in Hp0. lia.
    + rewrite app_assoc, error_of_app_progress_log by (by apply Forall_app). done.
Qed.

(** ** Batches without enabled scenarios, batches of root crops *)

Lemma scenario_loop_none_enabled cfg crop_config weather total scs :
  total_scenarios_of scs = 0 ->
  forall st,
    scenario_loop cropd engine cfg crop_config weather total st scs = ([], Ok st).
Proof.
  induction scs as [|[key sc] scs IH]; intros Hn st; [reflexivity|].
  rewrite total_scenarios_of_cons in Hn.
  pose proof (total_scenarios_of_nonneg scs).
  destruct (is_enabled sc) eqn:Hen; [lia|].
  rewrite scenario_loop_cons, (scenario_body_disabled _ _ _ _ _ _ _ Hen).
  cbn [bind]. rewrite IH by lia. reflexivity.
Qed.

Lemma enabled_total_positive key sc scs :
  (key, sc) ∈ scs -> is_enabled sc = true -> 0 < total_scenarios_of scs.
Proof.
  induction scs as [|[key' sc'] scs IH]; intros Hin Hen.
  - by apply elem_of_nil in Hin.
  - rewrite total_scenarios_of_cons. pose proof (total_scenarios_of_nonneg scs).
    apply elem_of_cons in Hin as [[= <- <-]|Hin].
    + rewrite Hen. lia.
    + specialize (IH Hin Hen). destruct (is_enabled sc'); lia.
Qed.

(** C10.  The division in [20 + int(70 * completed / total_scenarios)] is
    only evaluated for an enabled scenario of the catalogue, and then the
    divisor is positive.  When no scenario is enabled and setup succeeds,
    the run emits the progress values 5, 15, 95, 100 and the finished
    signal with an empty result list and an empty table map, and no
    error signal. *)
Theorem C10_no_enabled_scenario_still_finishes :
  forall cfg,
    (forall key sc c,
        (key, sc) ∈ fert_scenarios cfg -> is_enabled sc = true ->
        0 < total_scenarios_of (fert_scenarios cfg) /\
        progress_pct c (total_scenarios_of (fert_scenarios cfg))
        = Ok (20 + 70 * c ÷ total_scenarios_of (fert_scenarios cfg))) /\
    (total_scenarios_of (fert_scenarios cfg) = 0 ->
     is_ok (outcome (setup nasa cfg)) = true ->
     finished_of (effects (run nasa cropd engine cfg)) = Some ([], ∅) /\
     error_of (effects (run nasa cropd engine cfg)) = None /\
     progress_of (effects (run nasa cropd engine cfg)) = [5; 15; 95; 100]).
Proof.
  intros cfg. split.
  - intros key sc c Hin Hen.
    pose proof (enabled_total_positive key sc _ Hin Hen) as Hpos.
    split; [exact Hpos|]. unfold progress_pct.
    destruct (Z.eqb_spec (total_scenarios_of (fert_scenarios cfg)) 0); [lia|done].
  - intros Hn Hok.
    pose proof (run_cases cfg) as Hrun.
    destruct (setup_cases cfg) as [Hsetup Hp].
    destruct (outcome (setup nasa cfg)) as [[[crop_config weather] weather_df]|e];
      [|done].
    cbv zeta in Hrun.
    rewrite (scenario_loop_none_enabled cfg crop_config weather _ _ Hn) in Hrun.
    cbn [effects outcome fst snd results dataframes app] in Hrun.
    rewrite Hrun. cbn [effects fst].
    rewrite finished_of_app_progress_log, error_of_app_progress_log by exact Hsetup.
    rewrite progress_of_app, Hp. done.
Qed.

Lemma guarded_root_crop_results cfg weather key sc agro params rs dfs :
  is_root_crop (crop cfg) = true ->
  match outcome (guarded engine cfg weather key sc agro params rs dfs) with
  | Ok (rs', _) => rs' = rs
  | Raise _ => True
  end.
Proof.
  intros Hroot.
  destruct (engine params weather agro) as [[output [|s ss]]|e] eqn:Heng.
  - by rewrite (guarded_no_summary _ _ _ _ _ _ _ _ _ Heng).
  - by rewrite (guarded_root_crop _ _ _ _ _ _ _ _ _ _ _ Heng Hroot).
  - by rewrite (guarded_engine_raise _ _ _ _ _ _ _ _ _ Heng).
Qed.

(** For potato, cassava and sweetpotato the result list of a run is
    empty, whatever the engine returns. *)
Lemma root_crop_batch_has_no_results cfg :
  is_root_crop (crop cfg) = true ->
  batch_results (effects (run nasa cropd engine cfg)) = [].
Proof.
  intros Hroot. unfold batch_results. rewrite run_finished.
  destruct (outcome (setup nasa cfg)) as [[[crop_config weather] weather_df]|e];
    [|done].
  destruct (outcome (scenario_loop cropd engine cfg crop_config weather _ _ _))
    as [st|e] eqn:Hloop; [|done].
  revert Hloop.
  apply (scenario_loop_invariant cfg crop_config weather _ (fun st => results st = []));
    [|done].
  clear -Hroot. intros st key sc st' HI.
  destruct (is_enabled sc) eqn:Hen.
  2:{ rewrite (scenario_body_disabled _ _ _ _ _ _ _ Hen). by intros [= <-]. }
  destruct (progress_pct (completed st) (total_scenarios_of (fert_scenarios cfg)))
    as [pct|e] eqn:Hpct.
  2:{ unfold scenario_body. by rewrite Hen, Hpct. }
  rewrite (scenario_body_enabled _ _ _ _ _ _ _ _ Hen Hpct).
  destruct (outcome (construct cropd cfg crop_config sc)) as [[agro params]|e]; [|done].
  pose proof (guarded_root_crop_results cfg weather key sc agro params
                (results st) (dataframes st) Hroot) as Hg.
  cbv zeta.
  destruct (outcome (guarded engine cfg weather key sc agro params _ _))
    as [[rs dfs]|e]; cbn; intros [= <-]; cbn; congruence.
Qed.

End WorkerProperties.

(** * Concrete batches *)

Lemma C1_witness :
  (exists w st',
      scenario_loop Demo.cropd Demo.engine
        (Demo.config "barley" [("medium", Demo.medium); ("none", Demo.none)])
        Demo.barley_config Demo.weather 2 Demo.st0
        [("medium", Demo.medium); ("none", Demo.none)]
      = (Progress 20 "Running: Medium (50 kg N/ha)..."
           :: w ++ PrintScenarioError "medium" (PCSEError "engine failure")
           :: effects (scenario_loop Demo.cropd Demo.engine
                         (Demo.config "barley" [("medium", Demo.medium); ("none", Demo.none)])
                         Demo.barley_config Demo.weather 2 st' [("none", Demo.none)]),
         outcome (scenario_loop Demo.cropd Demo.engine
                    (Demo.config "barley" [("medium", Demo.medium); ("none", Demo.none)])
                    Demo.barley_config Demo.weather 2 st' [("none", Demo.none)])) /\
      st' = {| results := []; dataframes := ∅; completed := 1 |}) /\
  scenario_loop Demo.cropd Demo.engine (Demo.config "barley" Demo.far_future_batch)
    Demo.barley_config Demo.weather 2 Demo.st0 Demo.far_future_batch
  = ([Progress 20 "Running: Far future..."],
     Raise (OverflowError "date value out of range")) /\
  error_of (effects (Demo.run (Demo.config "barley" Demo.far_future_batch)))
  = Some (OverflowError "date value out of range") /\
  finished_of (effects (Demo.run (Demo.config "barley" Demo.far_future_batch))) = None.
Proof.
  split; [|split].
  - destruct (C1_scenario_failure_isolation unit Demo.nasa Demo.cropd Demo.engine
                (Demo.config "barley" [("medium", Demo.medium); ("none", Demo.none)])
                Demo.barley_config Demo.weather 2 Demo.st0 "medium" Demo.medium
                [("none", Demo.none)] 20 eq_refl eq_refl) as [Hguarded _].
    eexists _, _. split; [|reflexivity].
    apply (Hguarded (fst Demo.built_medium) (snd Demo.built_medium)
             (PCSEError "engine failure")); vm_compute; reflexivity.
  - apply (C1_scenario_failure_isolation unit Demo.nasa Demo.cropd Demo.engine
             (Demo.config "barley" Demo.far_future_batch)
             Demo.barley_config Demo.weather 2 Demo.st0 "far" Demo.far_future
             [("none", Demo.none)] 20 eq_refl eq_refl).
    vm_compute. reflexivity.
  - apply (C1_scenario_failure_isolation unit Demo.nasa Demo.cropd Demo.engine
             (Demo.config "barley" Demo.far_future_batch)
             Demo.barley_config Demo.weather 2 Demo.st0 "far" Demo.far_future
             [("none", Demo.none)] 20 eq_refl eq_refl).
    vm_compute. reflexivity.
Defined.

(** C1, as stated, fails.  The first scenario of the far-future batch
    raises [OverflowError] while its timed events are built; the
    exception is not caught at the scenario boundary: the run stops after
    the progress value 20, emits the error signal and no finished signal,
    and the second scenario, which runs fine on its own, is never
    started.  Likewise, when the crop-data provider raises for the first
    scenario of the default catalogue, the run ends with the error signal
    after the progress value 20. *)
Lemma C1_counterexample :
  (outcome (construct Demo.cropd (Demo.config "barley" Demo.far_future_batch)
                      Demo.barley_config Demo.far_future)
   = Raise (OverflowError "date value out of range") /\
   progress_of (effects (Demo.run (Demo.config "barley" Demo.far_future_batch)))
   = [5; 15; 20] /\
   error_of (effects (Demo.run (Demo.config "barley" Demo.far_future_batch)))
   = Some (OverflowError "date value out of range") /\
   finished_of (effects (Demo.run (Demo.config "barley" Demo.far_future_batch))) = None /\
   List.length (batch_results
                  (effects (Demo.run (Demo.config "barley" [("none", Demo.none)]))))
   = 1%nat) /\
  (progress_of (effects (run Demo.nasa Demo.cropd_unavailable Demo.engine
                             (Demo.config "barley" DEFAULT_FERT_SCENARIOS)))
   = [5; 15; 20] /\
   error_of (effects (run Demo.nasa Demo.cropd_unavailable Demo.engine
                          (Demo.config "barley" DEFAULT_FERT_SCENARIOS)))
   = Some (PCSEError "variety not available") /\
   finished_of (effects (run Demo.nasa Demo.cropd_unavailable Demo.engine
                             (Demo.config "barley" DEFAULT_FERT_SCENARIOS)))
   = None).
Proof. vm_compute. repeat split. Qed.

Lemma C2_witness :
  exists gdd_list daily_gdd_list r,
    outcome (guarded Demo.engine (Demo.config "barley" [("none", Demo.none)])
                     Demo.weather "none" Demo.none Demo.agro_none Demo.params0 [] ∅)
    = Ok ([r], <["No Fertilizer" := df r]> ∅) /\
    df r = {| rows := Demo.three_days (mkdate 2023 3 15);
              GDD := Some gdd_list; daily_GDD := Some daily_gdd_list |} /\
    List.length gdd_list = 3%nat /\
    List.length daily_gdd_list = 3%nat.
Proof.
  destruct (C2_gdd_columns unit Demo.engine (Demo.config "barley" [("none", Demo.none)])
              Demo.weather "none" Demo.none Demo.agro_none Demo.params0 [] ∅
              (Demo.three_days (mkdate 2023 3 15)) Demo.a_summary [])
    as (gdd_list & daily_gdd_list & r & Hout & Hdf & Hlen1 & Hlen2 & _).
  - reflexivity.
  - discriminate.
  - reflexivity.
  - exists gdd_list, daily_gdd_list, r. auto.
Defined.

(** C2, as stated, fails.  With an engine that ends normally without a
    summary, the guarded block leaves results and tables untouched: no
    GDD is computed for the run.  With an engine that ends normally with
    a summary and an empty daily output, reading the day column raises
    and the scenario is skipped.  With a root crop and an engine that
    returns output and summary, the frame is stored without the two
    derived columns and no scenario result is appended. *)
Lemma C2_counterexample :
  (is_ok (Demo.engine_no_summary Demo.params0 Demo.weather Demo.agro_none) = true /\
   guarded Demo.engine_no_summary (Demo.config "barley" [("none", Demo.none)])
           Demo.weather "none" Demo.none Demo.agro_none Demo.params0 [] ∅
   = ([], Ok ([], ∅))) /\
  (is_ok (Demo.engine_no_output Demo.params0 Demo.weather Demo.agro_none) = true /\
   guarded Demo.engine_no_output (Demo.config "barley" [("none", Demo.none)])
           Demo.weather "none" Demo.none Demo.agro_none Demo.params0 [] ∅
   = ([], Raise (KeyError "day"))) /\
  (is_ok (Demo.engine Demo.params0 Demo.weather Demo.agro_none) = true /\
   guarded Demo.engine (Demo.config "potato" [("none", Demo.none)])
           Demo.weather "none" Demo.none Demo.agro_none Demo.params0 [] ∅
   = ([], Ok ([], <["No Fertilizer" :=
                      {| rows := Demo.three_days (mkdate 2023 3 15);
                         GDD := None; daily_GDD := None |}]> ∅))).
Proof. repeat split. Qed.

(** C3: the code at a potato batch.  All five catalogue scenarios are
    enabled and exactly one (["medium"]) raises inside the engine.  The
    run finishes without error and stores four tables, but its result
    list is empty; the same batch for barley yields the four results, in
    catalogue order. *)
Theorem C3_potato_batch_has_no_results :
  let potato := effects (Demo.run (Demo.config "potato" DEFAULT_FERT_SCENARIOS)) in
  let barley := effects (Demo.run (Demo.config "barley" DEFAULT_FERT_SCENARIOS)) in
  total_scenarios_of DEFAULT_FERT_SCENARIOS = 5 /\
  error_of potato = None /\
  batch_results potato = [] /\
  size (batch_tables potato) = 4%nat /\
  map scenario_key (batch_results barley) = ["none"; "low"; "recommended"; "high"].
Proof. vm_compute. repeat split. Qed.

Lemma C4_witness :
  let ps := progress_of (effects (Demo.run (Demo.config "barley" DEFAULT_FERT_SCENARIOS))) in
  StronglySorted Z.le ps /\
  ps = [5; 15; 20; 34; 48; 62; 76; 95; 100] /\
  last ps = Some 100.
Proof.
  destruct (C4_progress_is_monotone_and_ends_at_100 unit Demo.nasa Demo.cropd Demo.engine
              (Demo.config "barley" DEFAULT_FERT_SCENARIOS)) as [Hsorted Hfinished].
  destruct Hfinished as (Hps & _ & Hlast).
  - vm_compute. reflexivity.
  - cbv zeta. split; [exact Hsorted|]. split; [|exact Hlast].
    etransitivity; [exact Hps|]. vm_compute. reflexivity.
Defined.

(** C4, as stated, fails: in the far-future batch the first scenario
    fails while it is constructed, and the last progress value of the run
    is that scenario's 20, not 100; the same happens on the default
    catalogue when the crop-data provider raises. *)
Lemma C4_counterexample :
  let ps := progress_of
              (effects (Demo.run (Demo.config "barley" Demo.far_future_batch))) in
  let ps' := progress_of
               (effects (run Demo.nasa Demo.cropd_unavailable Demo.engine
                             (Demo.config "barley" DEFAULT_FERT_SCENARIOS))) in
  is_ok (outcome (setup Demo.nasa (Demo.config "barley" Demo.far_future_batch))) = true /\
  ps = [5; 15; 20] /\ last ps = Some 20 /\ last ps <> Some 100 /\
  ps' = [5; 15; 20] /\ last ps' <> Some 100.
Proof. vm_compute. repeat split; discriminate. Qed.

Lemma C8_witness :
  exists gdd_list daily_gdd_list,
    outcome (gdd_loop Demo.weather Demo.days3 0 [] []) = Ok (gdd_list, daily_gdd_list) /\
    daily_gdd_list !! 1%nat = Some 0%Q /\
    exists total, last gdd_list = Some total /\ (total == 50)%Q.
Proof.
  destruct (C8_weather_lookup_failures_are_fail_soft unit Demo.engine
              Demo.weather Demo.days3)
    as (gdd_list & daily_gdd_list & Hout & Hzero & Hlast & _).
  exists gdd_list, daily_gdd_list. split; [exact Hout|]. split.
  - apply (Hzero 1%nat (mkdate 2023 3 31) (PCSEError "no weather for this day"));
      reflexivity.
  - destruct Hlast as (total & Hl & Ht); [discriminate|].
    exists total. split; [exact Hl|]. rewrite Ht. reflexivity.
Defined.

(** The result list of a run can be non-empty. *)
Example barley_yields :
  map (fun r => (yield_kg r, yield_t r))
      (batch_results (effects (Demo.run (Demo.config "barley" [("none", Demo.none)]))))
  = [(3000, 3000 / 1000)%Q].
Proof. reflexivity. Qed.

Lemma C10_witness :
  (0 < total_scenarios_of DEFAULT_FERT_SCENARIOS /\
   progress_pct 3 (total_scenarios_of DEFAULT_FERT_SCENARIOS) = Ok 62) /\
  finished_of (effects (Demo.run (Demo.config "barley" Demo.disabled_batch)))
  = Some ([], ∅) /\
  error_of (effects (Demo.run (Demo.config "barley" Demo.disabled_batch))) = None /\
  progress_of (effects (Demo.run (Demo.config "barley" Demo.disabled_batch)))
  = [5; 15; 95; 100].
Proof.
  split.
  - destruct (C10_no_enabled_scenario_still_finishes unit Demo.nasa Demo.cropd
                Demo.engine (Demo.config "barley" DEFAULT_FERT_SCENARIOS))
      as [Hdiv _].
    apply (Hdiv "recommended"
             (mkScenario "Recommended (75 kg N/ha)" 75
                [mkApplication 0 25 0.7; mkApplication 30 25 0.65;
                 mkApplication 50 25 0.6] (Some true)) 3).
    + cbn. do 3 apply list_elem_of_further. apply list_elem_of_here.
    + reflexivity.
  - apply (C10_no_enabled_scenario_still_finishes unit Demo.nasa Demo.cropd Demo.engine
             (Demo.config "barley" Demo.disabled_batch)).
    + reflexivity.
    + vm_compute. reflexivity.
Defined.

(** * Further properties of the worker *)

(** ** Soil data *)

Lemma getitem_some d k v : d !! k = Some v -> getitem d k = Ok v.
Proof. unfold getitem. by intros ->. Qed.

Lemma getitem_none d k : d !! k = None -> getitem d k = Raise (KeyError k).
Proof. unfold getitem. by intros ->. Qed.

(** X1.  When [soil_params] holds the nine required keys, the soil data
    is built without raising: the nine values are copied, [SMLIM] takes
    the value of [SMFCF], [NSOILBASE_FR] is the given value or 0.025, the
    five fixed entries are set, and the dictionary has exactly these 16
    entries, whatever else [soil_params] contains. *)
Theorem X1_soildata_complete :
  forall soil_params : gmap string Q,
    (forall k, k ∈ required_soil_keys -> is_Some (soil_params !! k)) ->
    exists soildata : gmap string Q,
      build_soildata soil_params = ([], Ok soildata) /\
      (forall k, k ∈ required_soil_keys -> soildata !! k = soil_params !! k) /\
      soildata !! "SMLIM" = soil_params !! "SMFCF" /\
      soildata !! "NSOILBASE_FR"
      = Some (default 0.025%Q (soil_params !! "NSOILBASE_FR")) /\
      soildata !! "IFUNRN" = Some 0%Q /\
      soildata !! "SSMAX" = Some 0%Q /\
      soildata !! "SSI" = Some 0%Q /\
      soildata !! "WAV" = Some 50%Q /\
      soildata !! "NOTINF" = Some 0%Q /\
      size soildata = 16%nat.
Proof.
  intros sp Hkeys.
  assert (H : Forall (fun k => is_Some (sp !! k)) required_soil_keys).
  { apply Forall_forall. exact Hkeys. }
  unfold required_soil_keys in H.
  repeat match goal with
         | H : Forall _ (_ :: _) |- _ =>
             let v := fresh "v" in let E := fresh "E" in
             apply Forall_cons in H as [[v E] H]
         end.
  clear H. unfold build_soildata.
  repeat match goal with
         | E : sp !! ?k = Some ?v |- context [lift (getitem sp ?k)] =>
             rewrite (getitem_some sp k v E), bind_lift_ok
         end.
  eexists. split; [reflexivity|].
  split.
  { intros k Hk. unfold required_soil_keys in Hk.
    repeat (apply elem_of_cons in Hk as [->|Hk];
            [match goal with E : sp !! _ = Some _ |- _ => by rewrite E end|]).
    by apply elem_of_nil in Hk. }
  rewrite E0. unfold get. repeat split; reflexivity.
Qed.

Lemma X1_witness :
  exists soildata : gmap string Q,
    build_soildata Demo.soil = ([], Ok soildata) /\
    soildata !! "SMLIM" = Some 0.35%Q /\
    soildata !! "NSOILBASE_FR" = Some 0.025%Q /\
    size soildata = 16%nat.
Proof.
  destruct (X1_soildata_complete Demo.soil)
    as (soildata & Hbuild & _ & Hsmlim & Hfr & _ & _ & _ & _ & _ & Hsize).
  - apply Forall_forall. repeat constructor; eexists; reflexivity.
  - exists soildata. repeat split; assumption.
Defined.

(** One read [soil_params[key]]: either the key is there and the
    construction goes on, or it is the first missing one. *)
Ltac present_or_missing sp key pre post :=
  let v := fresh "v" in let E := fresh "E" in
  destruct (sp !! key) as [v|] eqn:E;
  [ rewrite (getitem_some sp key v E), ?bind_lift_ok
  | exists pre, key, post; split; [reflexivity|]; split;
    [ intros k' Hk';
      repeat (apply elem_of_cons in Hk' as [->|Hk']; [by eexists|]);
      by apply elem_of_nil in Hk'
    | split; [exact E|]; by rewrite (getitem_none sp key E) ] ].

(** X2.  When a required key is missing from [soil_params], building the
    soil data raises [KeyError] for the first missing key in the order
    the code reads them, and emits nothing. *)
Theorem X2_soildata_missing_key :
  forall soil_params : gmap string Q,
    (exists k, k ∈ required_soil_keys /\ soil_params !! k = None) ->
    exists pre k post,
      required_soil_keys = pre ++ k :: post /\
      (forall k', k' ∈ pre -> is_Some (soil_params !! k')) /\
      soil_params !! k = None /\
      build_soildata soil_params = ([], Raise (KeyError k)).
Proof.
  intros sp (k0 & Hk0 & Hmiss).
  unfold build_soildata, required_soil_keys in *.
  present_or_missing sp "SM0" (@nil string)
    ["SMFCF"; "SMW"; "CRAIRC"; "RDMSOL"; "K0"; "SOPE"; "KSUB"; "NSOILBASE"].
  present_or_missing sp "SMFCF" ["SM0"]
    ["SMW"; "CRAIRC"; "RDMSOL"; "K0"; "SOPE"; "KSUB"; "NSOILBASE"].
  present_or_missing sp "SMW" ["SM0"; "SMFCF"]
    ["CRAIRC"; "RDMSOL"; "K0"; "SOPE"; "KSUB"; "NSOILBASE"].
  present_or_missing sp "CRAIRC" ["SM0"; "SMFCF"; "SMW"]
    ["RDMSOL"; "K0"; "SOPE"; "KSUB"; "NSOILBASE"].
  present_or_missing sp "RDMSOL" ["SM0"; "SMFCF"; "SMW"; "CRAIRC"]
    ["K0"; "SOPE"; "KSUB"; "NSOILBASE"].
  present_or_missing sp "K0" ["SM0"; "SMFCF"; "SMW"; "CRAIRC"; "RDMSOL"]
    ["SOPE"; "KSUB"; "NSOILBASE"].
  present_or_missing sp "SOPE" ["SM0"; "SMFCF"; "SMW"; "CRAIRC"; "RDMSOL"; "K0"]
    ["KSUB"; "NSOILBASE"].
  present_or_missing sp "KSUB"
    ["SM0"; "SMFCF"; "SMW"; "CRAIRC"; "RDMSOL"; "K0"; "SOPE"] ["NSOILBASE"].
  present_or_missing sp "NSOILBASE"
    ["SM0"; "SMFCF"; "SMW"; "CRAIRC"; "RDMSOL"; "K0"; "SOPE"; "KSUB"] (@nil string).
  exfalso.
  repeat (apply elem_of_cons in Hk0 as [->|Hk0]; [congruence|]).
  by apply elem_of_nil in Hk0.
Qed.

Lemma X2_witness :
  exists pre post,
    required_soil_keys = pre ++ "K0" :: post /\
    build_soildata (delete "K0" Demo.soil) = ([], Raise (KeyError "K0")).
Proof.
  destruct (X2_soildata_missing_key (delete "K0" Demo.soil))
    as (pre & k & post & Hsplit & Hpre & Hmiss & Hraise).
  - exists "K0". split; [|reflexivity].
    do 5 apply list_elem_of_further. apply list_elem_of_here.
  - assert (k = "K0") as ->.
    { revert Hraise. vm_compute. by intros [= ->]. }
    exists pre, post. by split.
Defined.

(** ** The season calendar *)

(** Looks up the month tables at the concrete months in sight. *)
Ltac eval_month_tables :=
  repeat match goal with
         | |- context [Datetime.table ?t ?k] =>
             let r := eval vm_compute in (Datetime.table t k) in
             change (Datetime.table t k) with r
         | H : context [Datetime.table ?t ?k] |- _ =>
             let r := eval vm_compute in (Datetime.table t k) in
             change (Datetime.table t k) with r in H
         end.

(** X3.  Every calendar the worker builds has a single campaign that
    starts on the planting date (the start date itself) at emergence and
    ends, at the earliest, on 31 December of the same year or after the
    crop's [season_days]; it has no state events.  For a valid start date
    the end date is never before the planting date, and at most 365 days
    after it. *)
Theorem X3_season_calendar :
  forall crop_name crop_config start_date sc agro,
    build_agro crop_name crop_config start_date sc = Ok agro ->
    exists timed_events,
      agro = {| Version := 1;
                AgroManagement :=
                  [ {| campaign_date := start_date;
                       calendar :=
                         {| crop_name := crop_name;
                            variety_name := variety crop_config;
                            crop_start_date := start_date;
                            crop_start_type := "emergence";
                            crop_end_date := mkdate (year start_date) 12 31;
                            crop_end_type := "earliest";
                            max_duration := season_days crop_config |};
                       TimedEvents := timed_events;
                       StateEvents := None |} ] |} /\
      (valid_date start_date ->
       0 <= Datetime.toordinal (mkdate (year start_date) 12 31)
            - Datetime.toordinal start_date <= 365).
Proof.
  intros crop_name crop_config [y m d] sc agro. unfold build_agro, planting_date_of.
  cbn [year month day].
  destruct (build_timed_events _ _) as [timed_events|]; [|done].
  intros [= <-]. exists timed_events. split; [reflexivity|].
  unfold valid_date, Datetime.toordinal, Datetime.ymd2ord, Datetime.days_before_month.
  cbn [year month day]. intros (_ & Hm & Hd).
  assert (m = 1 \/ m = 2 \/ m = 3 \/ m = 4 \/ m = 5 \/ m = 6 \/ m = 7 \/ m = 8 \/
          m = 9 \/ m = 10 \/ m = 11 \/ m = 12) as Hcases by lia.
  destruct (Datetime.is_leap y);
    repeat (destruct Hcases as [->|Hcases]; [eval_month_tables; cbn in *; lia|]);
    subst m; eval_month_tables; cbn in *; lia.
Qed.

Lemma X3_witness :
  0 <= Datetime.toordinal (mkdate 2023 12 31) - Datetime.toordinal (mkdate 2023 3 15)
    <= 365.
Proof.
  destruct (X3_season_calendar "barley" Demo.barley_config (mkdate 2023 3 15)
              Demo.medium
              {| Version := 1;
                 AgroManagement :=
                   [ {| campaign_date := mkdate 2023 3 15;
                        calendar :=
                          {| crop_name := "barley";
                             variety_name := "Spring_barley_301";
                             crop_start_date := mkdate 2023 3 15;
                             crop_start_type := "emergence";
                             crop_end_date := mkdate 2023 12 31;
                             crop_end_type := "earliest";
                             max_duration := 120 |};
                        TimedEvents :=
                          match build_timed_events (mkdate 2023 3 15)
                                  (applications Demo.medium) with
                          | Ok t => t
                          | Raise _ => None
                          end;
                        StateEvents := None |} ] |})
    as (timed_events & _ & Hwindow).
  - reflexivity.
  - apply Hwindow. unfold valid_date. cbn [year month day].
    eval_month_tables. cbn. lia.
Defined.

(** ** What the engine is given, how setup fails *)

Section WorkerExtras.

Variable CropData : Type.
Variable nasa : Q -> Q -> res WeatherProvider.
Variable cropd : string -> string -> res CropData.
Variable engine :
  Params CropData -> WeatherProvider -> Agro ->
  res (list OutputRow * list (gmap string Q)).



(** X5.  A crop that is not in the catalogue ends the run right after the
    first progress signal, with the error signal for the missing key and
    before the weather provider is asked for.  A weather provider that
    cannot be constructed ends it after the second progress signal. *)
Theorem X5_setup_failures :
  forall cfg,
    (CROP_OPTIONS !! crop cfg = None ->
     run nasa cropd engine cfg
     = ([ Progress 5 "Importing PCSE modules..."; Error (KeyError (crop cfg)) ],
        Ok tt)) /\
    (forall crop_config e,
        CROP_OPTIONS !! crop cfg = Some crop_config ->
        nasa (lat (location cfg)) (lon (location cfg)) = Raise e ->
        run nasa cropd engine cfg
        = ([ Progress 5 "Importing PCSE modules...";
             Progress 15 ("Loading weather for "
                          +:+ location_name (location cfg) +:+ "...");
             Error e ],
           Ok tt)).
Proof.
  intros cfg. split.
  - intros Hcrop. unfold run, batch, setup. rewrite Hcrop. reflexivity.
  - intros crop_config e Hcrop Hnasa. unfold run, batch, setup.
    rewrite Hcrop, Hnasa. reflexivity.
Qed.

(** ** The year's weather table *)

Lemma weather_loop_table weather days :
  forall acc,
  exists rows,
    weather_loop weather days acc
    = (omap (fun d => match weather d with
                      | Ok _ => None
                      | Raise e => Some (Print e)
                      end) days,
       Ok (acc ++ rows)) /\
    map w_date rows = List.filter (fun d => is_ok (weather d)) days /\
    Forall (fun row =>
              exists s, weather (w_date row) = Ok s /\
                        tmax row = TMAX s /\ tmin row = TMIN s /\
                        rain row = RAIN s /\
                        radiation row = (IRRAD s / 1000000)%Q) rows.
Proof.
  induction days as [|d days IH]; intros acc.
  - exists []. by rewrite app_nil_r.
  - cbn [weather_loop List.filter omap list_omap]. unfold weather_row.
    destruct (weather d) as [s|e] eqn:Hd; cbn [is_ok].
    + destruct (IH (acc ++ [ {| w_date := d; tmax := TMAX s; tmin := TMIN s;
                                rain := RAIN s;
                                radiation := (IRRAD s / 1000000)%Q |} ]))
        as (rows & Hloop & Hdates & Hrows).
      eexists (_ :: rows). split; [|split].
      * cbn. rewrite Hloop. cbn. by rewrite <- app_assoc.
      * cbn. by rewrite Hdates.
      * constructor; [|exact Hrows]. exists s. cbn. by rewrite Hd.
    + destruct (IH (acc ++ [])) as (rows & Hloop & Hdates & Hrows).
      exists rows. split; [|by split].
      cbn. rewrite Hloop. cbn. by rewrite app_nil_r.
Qed.

(** X6.  The weather table of a year has one row for each day whose
    lookup succeeds, in calendar order, holding that day's maximum and
    minimum temperature and rainfall and its irradiation divided by
    1000000.  A day whose lookup raises is printed and left out; the loop
    itself never raises. *)
Theorem X6_weather_table_rows :
  forall (weather : WeatherProvider) (days : list date),
  exists rows,
    weather_loop weather days []
    = (omap (fun d => match weather d with
                      | Ok _ => None
                      | Raise e => Some (Print e)
                      end) days,
       Ok rows) /\
    map w_date rows = List.filter (fun d => is_ok (weather d)) days /\
    Forall (fun row =>
              exists s, weather (w_date row) = Ok s /\
                        tmax row = TMAX s /\ tmin row = TMIN s /\
                        rain row = RAIN s /\
                        radiation row = (IRRAD s / 1000000)%Q) rows.
Proof. intros weather days. apply (weather_loop_table weather days []). Qed.

(** X7.  When the provider resolves no day of the start date's year, the
    weather table is empty, setting its index raises, and the run ends
    with the error signal [KeyError "date"] after the progress values 5
    and 15: no scenario is run.  When it resolves at least one day, setup
    succeeds. *)
Theorem X7_year_without_weather_is_fatal :
  forall cfg crop_config weather,
    CROP_OPTIONS !! crop cfg = Some crop_config ->
    nasa (lat (location cfg)) (lon (location cfg)) = Ok weather ->
    ((forall d, d ∈ Datetime.year_days (year (start_date cfg)) ->
                is_ok (weather d) = false) ->
     error_of (effects (run nasa cropd engine cfg)) = Some (KeyError "date") /\
     finished_of (effects (run nasa cropd engine cfg)) = None /\
     progress_of (effects (run nasa cropd engine cfg)) = [5; 15]) /\
    ((exists d, d ∈ Datetime.year_days (year (start_date cfg)) /\
                is_ok (weather d) = true) ->
     is_ok (outcome (setup nasa cfg)) = true).
Proof.
  intros cfg crop_config weather Hcrop Hnasa.
  destruct (weather_loop_table weather
              (Datetime.year_days (year (start_date cfg))) [])
    as (rows & Hloop & Hdates & _).
  assert (Hsetup : outcome (setup nasa cfg)
                   = match rows with
                     | [] => Raise (KeyError "date")
                     | _ :: _ => Ok (crop_config, weather, rows)
                     end).
  { unfold setup. rewrite bind_tell, Hcrop, bind_lift_ok, bind_tell, Hnasa,
      bind_lift_ok, Hloop. cbn. by destruct rows. }
  split.
  - intros Hnone.
    assert (rows = []) as ->.
    { apply (f_equal (@List.length date)) in Hdates.
      rewrite length_map in Hdates.
      replace (List.filter _ _) with (@nil date) in Hdates.
      - by destruct rows.
      - symmetry. clear -Hnone.
        induction (Datetime.year_days _) as [|d l IH]; [done|].
        cbn. rewrite (Hnone d) by apply list_elem_of_here.
        apply IH. intros d' Hd'. apply Hnone. by apply list_elem_of_further. }
    pose proof (run_cases CropData nasa cropd engine cfg) as Hrun.
    destruct (setup_cases nasa cfg) as [Hben Hp].
    rewrite Hsetup in Hrun, Hp. rewrite Hrun. cbn [effects fst].
    rewrite error_of_app_progress_log, finished_of_app_progress_log by exact Hben.
    rewrite progress_of_app.
    split; [done|]. split; [done|].
    change (progress_of [Error (KeyError "date")]) with (@nil Z).
    rewrite app_nil_r.
    destruct Hp as [Hp|Hp]; [|exact Hp].
    exfalso. revert Hp. unfold setup.
    rewrite bind_tell, Hcrop, bind_lift_ok, bind_tell. cbn. unfold progress_of.
    cbn. discriminate.
  - intros (d & Hin & Hok). rewrite Hsetup.
    destruct rows as [|row rows]; [|done].
    exfalso. cbn in Hdates.
    assert (d ∈ List.filter (fun d => is_ok (weather d))
                  (Datetime.year_days (year (start_date cfg)))) as Hd.
    { apply list_elem_of_In, filter_In. split; [by apply list_elem_of_In | done]. }
    rewrite <- Hdates in Hd. by apply elem_of_nil in Hd.
Qed.

(** ** How a run ends *)

Lemma finished_of_benign l t :
  Forall benign l -> finished_of (l ++ [t]) = finished_of [t].
Proof. apply finished_of_app_progress_log. Qed.

Lemma error_of_benign l t :
  Forall benign l -> error_of (l ++ [t]) = error_of [t].
Proof. apply error_of_app_progress_log. Qed.

(** The effects of a run: progress signals and prints, then one terminal
    signal. *)
Lemma run_shape cfg :
  exists before terminal,
    effects (run nasa cropd engine cfg) = before ++ [terminal] /\
    Forall benign before /\
    ((exists results dataframes weather_df weather_year loc_name,
         terminal = Finished results dataframes weather_df weather_year loc_name) \/
     (exists e, terminal = Error e)).
Proof.
  pose proof (run_cases CropData nasa cropd engine cfg) as Hrun.
  destruct (setup_cases nasa cfg) as [Hsetup _].
  destruct (outcome (setup nasa cfg)) as [[[crop_config weather] weather_df]|e].
  - cbv zeta in Hrun.
    pose proof (scenario_loop_benign CropData cropd engine cfg crop_config weather
                  (total_scenarios_of (fert_scenarios cfg)) (fert_scenarios cfg)
                  {| results := []; dataframes := ∅; completed := 0 |}) as Hloop.
    destruct (outcome (scenario_loop cropd engine cfg crop_config weather _ _ _))
      as [st|e]; rewrite Hrun; cbn [effects fst].
    + exists (effects (setup nasa cfg)
              ++ effects (scenario_loop cropd engine cfg crop_config weather
                            (total_scenarios_of (fert_scenarios cfg))
                            {| results := []; dataframes := ∅; completed := 0 |}
                            (fert_scenarios cfg))
              ++ [Progress 95 "Finalizing results..."; Progress 100 "Done!"]),
        (Finished (results st) (dataframes st) weather_df
                  (year (start_date cfg)) (location_name (location cfg))).
      split; [|split].
      * by rewrite <- !app_assoc.
      * apply Forall_app. split; [exact Hsetup|]. apply Forall_app.
        split; [exact Hloop|].
        constructor; [right; by eexists _, _|].
        constructor; [right; by eexists _, _|]. constructor.
      * left. by eexists _, _, _, _, _.
    + exists (effects (setup nasa cfg)
              ++ effects (scenario_loop cropd engine cfg crop_config weather
                            (total_scenarios_of (fert_scenarios cfg))
                            {| results := []; dataframes := ∅; completed := 0 |}
                            (fert_scenarios cfg))),
        (Error e).
      split; [|split].
      * by rewrite <- !app_assoc.
      * apply Forall_app. by split.
      * right. by exists e.
  - rewrite Hrun. cbn [effects fst].
    exists (effects (setup nasa cfg)), (Error e).
    split; [reflexivity|]. split; [exact Hsetup|]. right. by exists e.
Qed.

(** X8.  [run] itself never raises, and it emits exactly one terminal
    signal, as its very last effect: the finished signal or the error
    signal, never both.  Everything before it is a progress signal or a
    print, so the payload of the terminal signal is what [finished_of]
    or [error_of] reads. *)
Theorem X8_exactly_one_terminal_signal :
  forall cfg,
    outcome (run nasa cropd engine cfg) = Ok tt /\
    exists before terminal,
      effects (run nasa cropd engine cfg) = before ++ [terminal] /\
      Forall benign before /\
      ((exists results dataframes weather_df weather_year loc_name,
           terminal = Finished results dataframes weather_df weather_year loc_name /\
           finished_of (effects (run nasa cropd engine cfg))
           = Some (results, dataframes) /\
           error_of (effects (run nasa cropd engine cfg)) = None) \/
       (exists e,
           terminal = Error e /\
           error_of (effects (run nasa cropd engine cfg)) = Some e /\
           finished_of (effects (run nasa cropd engine cfg)) = None)).
Proof.
  intros cfg. split.
  - unfold run. rewrite try_except_eta.
    by destruct (outcome (batch nasa cropd engine cfg)) as [[]|e].
  - destruct (run_shape cfg) as (before & terminal & Heff & Hben & Hterm).
    exists before, terminal. split; [exact Heff|]. split; [exact Hben|].
    rewrite Heff, finished_of_benign, error_of_benign by exact Hben.
    destruct Hterm as [(rs & dfs & wdf & y & l & ->)|(e & ->)].
    + left. by eexists rs, dfs, wdf, y, l.
    + right. by exists e.
Qed.

(** ** Disabled scenarios *)

Lemma bind_ext {A B} (m : M A) (f g : A -> M B) :
  (forall a, f a = g a) -> bind m f = bind m g.
Proof. intros H. destruct m as [w [a|e]]; cbn; [by rewrite H | done]. Qed.

Lemma filter_enabled_total scs :
  total_scenarios_of (List.filter (fun ks => is_enabled (snd ks)) scs)
  = total_scenarios_of scs.
Proof.
  unfold total_scenarios_of. f_equal. f_equal.
  induction scs as [|[key sc] scs IH]; [done|].
  cbn. destruct (is_enabled sc) eqn:Hen; cbn; rewrite ?Hen; cbn; by rewrite IH.
Qed.

Lemma scenario_loop_filter_enabled cfg crop_config weather total scs :
  forall st,
    scenario_loop cropd engine cfg crop_config weather total st
      (List.filter (fun ks => is_enabled (snd ks)) scs)
    = scenario_loop cropd engine cfg crop_config weather total st scs.
Proof.
  induction scs as [|[key sc] scs IH]; intros st; [done|].
  cbn [List.filter snd]. destruct (is_enabled sc) eqn:Hen.
  - rewrite !scenario_loop_cons. apply bind_ext. exact IH.
  - rewrite scenario_loop_cons,
      (scenario_body_disabled CropData cropd engine _ _ _ _ _ _ _ Hen).
    cbn [bind]. rewrite IH. by destruct (scenario_loop _ _ _ _ _ _ _ _).
Qed.

Lemma scenario_loop_other_catalogue c l sp sd scs1 scs2 crop_config weather total scs :
  forall st,
    scenario_loop cropd engine (mkConfig c l sp scs1 sd) crop_config weather total st scs
    = scenario_loop cropd engine (mkConfig c l sp scs2 sd) crop_config weather total st scs.
Proof.
  induction scs as [|[key sc] scs IH]; intros st; [done|].
  rewrite !scenario_loop_cons.
  replace (scenario_body cropd engine (mkConfig c l sp scs1 sd) crop_config weather
             total st key sc)
    with (scenario_body cropd engine (mkConfig c l sp scs2 sd) crop_config weather
            total st key sc) by reflexivity.
  apply bind_ext. exact IH.
Qed.

(** X9.  Disabled scenarios leave no trace: a run emits exactly the
    signals and prints of the run on the catalogue with its disabled
    scenarios removed, the finished signal with its results and tables
    included. *)
Theorem X9_disabled_scenarios_leave_no_trace :
  forall cfg,
    run nasa cropd engine cfg
    = run nasa cropd engine
        {| crop := crop cfg; location := location cfg;
           soil_params := soil_params cfg;
           fert_scenarios :=
             List.filter (fun ks => is_enabled (snd ks)) (fert_scenarios cfg);
           start_date := start_date cfg |}.
Proof.
  intros [c l sp scs sd]. cbn [crop location soil_params fert_scenarios start_date].
  unfold run. f_equal. unfold batch.
  cbn [crop location soil_params fert_scenarios start_date].
  replace (setup nasa (mkConfig c l sp (List.filter (fun ks => is_enabled (snd ks)) scs) sd))
    with (setup nasa (mkConfig c l sp scs sd)) by reflexivity.
  apply bind_ext. intros [[crop_config weather] weather_df].
  rewrite filter_enabled_total, scenario_loop_filter_enabled.
  rewrite (scenario_loop_other_catalogue c l sp sd
             (List.filter (fun ks => is_enabled (snd ks)) scs) scs).
  reflexivity.
Qed.

(** ** What one scenario adds to the batch *)

(** The three ways the guarded block can end normally: nothing stored
    (no summary), the raw table stored (root crops), or a result appended
    and its table stored. *)
Lemma guarded_outcomes cfg weather key sc agro params rs dfs :
  match outcome (guarded engine cfg weather key sc agro params rs dfs) with
  | Raise _ => True
  | Ok (rs', dfs') =>
      (rs' = rs /\ dfs' = dfs) \/
      (is_root_crop (crop cfg) = true /\ rs' = rs /\
       exists output,
         dfs' = <[name sc := {| rows := output; GDD := None; daily_GDD := None |}]> dfs) \/
      (is_root_crop (crop cfg) = false /\
       exists output s,
         output <> [] /\
         rs' = rs ++ [result_of (crop cfg) key sc output s
                        (running_sum 0 (map (daily_gdd_spec weather) (map row_day output)))
                        (map (daily_gdd_spec weather) (map row_day output))] /\
         dfs' = <[name sc :=
                    {| rows := output;
                       GDD := Some (running_sum 0 (map (daily_gdd_spec weather)
                                                      (map row_day output)));
                       daily_GDD := Some (map (daily_gdd_spec weather)
                                              (map row_day output)) |}]> dfs)
  end.
Proof.
  destruct (engine params weather agro) as [[output [|s ss]]|e] eqn:Heng.
  - rewrite (guarded_no_summary CropData engine _ _ _ _ _ _ _ _ _ Heng). cbn. auto.
  - destruct (is_root_crop (crop cfg)) eqn:Hroot.
    + rewrite (guarded_root_crop CropData engine _ _ _ _ _ _ _ _ _ _ _ Heng Hroot).
      cbn. right. left. eauto.
    + destruct output as [|row output].
      * by rewrite (guarded_empty_output CropData engine _ _ _ _ _ _ _ _ _ _ Heng Hroot).
      * destruct (guarded_success CropData engine cfg weather key sc agro params
                    rs dfs _ _ _ Heng ltac:(discriminate) Hroot) as [Hout _].
        rewrite Hout. right. right. split; [done|].
        exists (row :: output), s. by repeat split.
  - by rewrite (guarded_engine_raise CropData engine _ _ _ _ _ _ _ _ _ Heng).
Qed.

Lemma scenario_body_outcomes cfg crop_config weather total st key sc st' :
  outcome (scenario_body cropd engine cfg crop_config weather total st key sc) = Ok st' ->
  (is_enabled sc = false /\ st' = st) \/
  (is_enabled sc = true /\ completed st' = completed st + 1 /\
   ((results st' = results st /\ dataframes st' = dataframes st) \/
    (is_root_crop (crop cfg) = true /\ results st' = results st /\
     exists output,
       dataframes st'
       = <[name sc := {| rows := output; GDD := None; daily_GDD := None |}]>
           (dataframes st)) \/
    (is_root_crop (crop cfg) = false /\
     exists output s,
       output <> [] /\
       results st'
       = results st ++ [result_of (crop cfg) key sc output s
                          (running_sum 0 (map (daily_gdd_spec weather)
                                              (map row_day output)))
                          (map (daily_gdd_spec weather) (map row_day output))] /\
       dataframes st'
       = <[name sc :=
             {| rows := output;
                GDD := Some (running_sum 0 (map (daily_gdd_spec weather)
                                               (map row_day output)));
                daily_GDD := Some (map (daily_gdd_spec weather)
                                       (map row_day output)) |}]>
           (dataframes st)))).
Proof.
  destruct (is_enabled sc) eqn:Hen.
  2:{ rewrite (scenario_body_disabled CropData cropd engine _ _ _ _ _ _ _ Hen).
      intros [= <-]. by left. }
  destruct (progress_pct (completed st) total) as [pct|e] eqn:Hpct.
  2:{ unfold scenario_body. by rewrite Hen, Hpct. }
  rewrite (scenario_body_enabled CropData cropd engine _ _ _ _ _ _ _ _ Hen Hpct).
  destruct (outcome (construct cropd cfg crop_config sc)) as [[agro params]|e]; [|done].
  pose proof (guarded_outcomes cfg weather key sc agro params
                (results st) (dataframes st)) as Hg.
  cbv zeta.
  destruct (outcome (guarded engine cfg weather key sc agro params _ _))
    as [[rs dfs]|e]; cbn; intros [= <-]; cbn; right.
  - split; [done|]. split; [done|]. exact Hg.
  - split; [done|]. split; [done|]. by left.
Qed.

(** ** The results of a run *)

(** X10.  Every scenario result a run hands over is well formed: the
    crop is not a root crop, its frame has at least one row and carries
    both derived columns, each as long as the frame; the daily values are
    non-negative and the cumulative column is non-decreasing; its yield
    is the main yield of its summary, and its biomass and peak leaf area
    are the summary's [TAGP] and [LAIMAX], 0 when absent. *)
Theorem X10_results_are_well_formed :
  forall cfg,
    Forall (fun r =>
              is_root_crop (crop cfg) = false /\
              rows (df r) <> [] /\
              (exists gdd_list daily_gdd_list,
                  GDD (df r) = Some gdd_list /\
                  daily_GDD (df r) = Some daily_gdd_list /\
                  List.length gdd_list = List.length (rows (df r)) /\
                  List.length daily_gdd_list = List.length (rows (df r)) /\
                  Forall (fun x => (0 <= x)%Q) daily_gdd_list /\
                  (forall (i j : nat) x y,
                      (i <= j)%nat -> gdd_list !! i = Some x ->
                      gdd_list !! j = Some y -> (x <= y)%Q)) /\
              yield_kg r = main_yield_of (crop cfg) (summary r) /\
              tagp r = get (summary r) "TAGP" 0 /\
              laimax r = get (summary r) "LAIMAX" 0)
           (batch_results (effects (run nasa cropd engine cfg))).
Proof.
  intros cfg. unfold batch_results. rewrite (run_finished CropData nasa cropd engine).
  destruct (outcome (setup nasa cfg)) as [[[crop_config weather] weather_df]|e];
    [|constructor].
  destruct (outcome (scenario_loop cropd engine cfg crop_config weather _ _ _))
    as [st|e] eqn:Hloop; [|constructor].
  revert Hloop.
  apply (scenario_loop_invariant CropData cropd engine cfg crop_config weather _
           (fun st => Forall _ (results st))); [|constructor].
  clear. intros st key sc st' HI Hbody.
  apply scenario_body_outcomes in Hbody
    as [[_ ->]|(_ & _ & [[-> _]|[(_ & -> & _)|(Hroot & output & s & Hout & -> & _)]])];
    try exact HI.
  apply Forall_app. split; [exact HI|]. constructor; [|constructor].
  cbn [result_of df rows GDD daily_GDD yield_kg summary tagp laimax].
  split; [exact Hroot|]. split; [exact Hout|]. split; [|done].
  eexists _, _. split; [reflexivity|]. split; [reflexivity|].
  split; [by rewrite running_sum_length, !length_map|].
  split; [by rewrite !length_map|].
  split; [apply daily_gdd_spec_all_nonneg|].
  apply running_sum_monotone, daily_gdd_spec_all_nonneg.
Qed.

Lemma scenario_loop_provenance cfg crop_config weather total scs :
  forall st st',
    outcome (scenario_loop cropd engine cfg crop_config weather total st scs) = Ok st' ->
    exists new,
      results st' = results st ++ new /\
      map (fun r => (scenario_key r, scenario r, n_rate r)) new
      `sublist_of`
      map (fun ks => (fst ks, name (snd ks), total_n (snd ks)))
          (List.filter (fun ks => is_enabled (snd ks)) scs).
Proof.
  induction scs as [|[key sc] scs IH]; intros st st'.
  - cbn. intros [= <-]. exists []. by rewrite app_nil_r.
  - rewrite scenario_loop_cons, outcome_bind.
    destruct (outcome (scenario_body _ _ _ _ _ _ _ _ _)) as [st1|e] eqn:Hbody; [|done].
    intros Hloop. destruct (IH _ _ Hloop) as (new & Hres & Hsub).
    cbn [List.filter snd].
    apply scenario_body_outcomes in Hbody
      as [[Hen ->]|(Hen & _ & [[Hrs _]|[(_ & Hrs & _)|(_ & output & s & _ & Hrs & _)]])];
      rewrite Hen.
    + by exists new.
    + exists new. rewrite Hres, Hrs. split; [done|]. by apply sublist_cons.
    + exists new. rewrite Hres, Hrs. split; [done|]. by apply sublist_cons.
    + eexists (_ :: new). rewrite Hres, Hrs, <- app_assoc. split; [reflexivity|].
      cbn. by apply sublist_skip.
Qed.

(** X11.  The results of a run follow the catalogue: their (key, name,
    nitrogen rate) triples form a subsequence of those of the enabled
    scenarios, in catalogue order, so there is at most one result per
    enabled scenario and none for a disabled one. *)
Theorem X11_results_follow_catalogue_order :
  forall cfg,
    map (fun r => (scenario_key r, scenario r, n_rate r))
        (batch_results (effects (run nasa cropd engine cfg)))
    `sublist_of`
    map (fun ks => (fst ks, name (snd ks), total_n (snd ks)))
        (List.filter (fun ks => is_enabled (snd ks)) (fert_scenarios cfg)).
Proof.
  intros cfg. unfold batch_results. rewrite (run_finished CropData nasa cropd engine).
  destruct (outcome (setup nasa cfg)) as [[[crop_config weather] weather_df]|e];
    [|apply sublist_nil_l].
  destruct (outcome (scenario_loop cropd engine cfg crop_config weather _ _ _))
    as [st|e] eqn:Hloop; [|apply sublist_nil_l].
  destruct (scenario_loop_provenance _ _ _ _ _ _ _ Hloop) as (new & Hres & Hsub).
  cbn in Hres. by rewrite Hres.
Qed.

Lemma scenario_result_body cfg crop_config weather total st key sc :
  is_root_crop (crop cfg) = false ->
  is_enabled sc = true ->
  total <> 0 ->
  is_ok (outcome (construct cropd cfg crop_config sc)) = true ->
  exists st',
    outcome (scenario_body cropd engine cfg crop_config weather total st key sc) = Ok st' /\
    results st'
    = results st ++ match scenario_result cropd engine cfg crop_config weather key sc with
                    | Some r => [r]
                    | None => []
                    end.
Proof.
  intros Hroot Hen Htotal Hc.
  assert (Hpct : progress_pct (completed st) total
                 = Ok (20 + 70 * completed st ÷ total)).
  { unfold progress_pct. by apply Z.eqb_neq in Htotal as ->. }
  rewrite (scenario_body_enabled CropData cropd engine _ _ _ _ _ _ _ _ Hen Hpct).
  unfold scenario_result.
  destruct (outcome (construct cropd cfg crop_config sc)) as [[agro params]|e]; [|done].
  cbv zeta.
  destruct (engine params weather agro) as [[output [|s ss]]|e] eqn:Heng.
  - rewrite (guarded_no_summary CropData engine _ _ _ _ _ _ _ _ _ Heng). cbn.
    eexists. split; [reflexivity|]. destruct output; cbn; by rewrite app_nil_r.
  - destruct output as [|row output].
    + rewrite (guarded_empty_output CropData engine _ _ _ _ _ _ _ _ _ _ Heng Hroot).
      cbn. eexists. split; [reflexivity|]. cbn. by rewrite app_nil_r.
    + destruct (guarded_success CropData engine cfg weather key sc agro params
                  (results st) (dataframes st) _ _ _ Heng ltac:(discriminate) Hroot)
        as [Hout _].
      rewrite Hout. eexists. split; reflexivity.
  - rewrite (guarded_engine_raise CropData engine _ _ _ _ _ _ _ _ _ Heng). cbn.
    eexists. split; [reflexivity|]. cbn. by rewrite app_nil_r.
Qed.

Lemma scenario_result_loop cfg crop_config weather total scs :
  is_root_crop (crop cfg) = false ->
  total_scenarios_of scs <= total ->
  (forall key sc, (key, sc) ∈ scs -> is_enabled sc = true ->
                  is_ok (outcome (construct cropd cfg crop_config sc)) = true) ->
  forall st,
  exists st',
    outcome (scenario_loop cropd engine cfg crop_config weather total st scs) = Ok st' /\
    results st'
    = results st
      ++ omap (fun ks => scenario_result cropd engine cfg crop_config weather
                                         (fst ks) (snd ks))
              (List.filter (fun ks => is_enabled (snd ks)) scs).
Proof.
  intros Hroot. induction scs as [|[key sc] scs IH]; intros Htotal Hc st.
  - exists st. split; [reflexivity|]. by rewrite app_nil_r.
  - rewrite total_scenarios_of_cons in Htotal.
    pose proof (total_scenarios_of_nonneg scs) as Hn.
    rewrite scenario_loop_cons, outcome_bind. cbn [List.filter snd].
    destruct (is_enabled sc) eqn:Hen.
    + destruct (scenario_result_body cfg crop_config weather total st key sc Hroot Hen
                  ltac:(lia) (Hc key sc ltac:(apply list_elem_of_here) Hen))
        as (st1 & Hbody & Hres1).
      rewrite Hbody.
      destruct (IH ltac:(lia)
                   (fun k s Hin => Hc k s (list_elem_of_further _ _ _ Hin)) st1)
        as (st' & Hloop & Hres).
      exists st'. split; [exact Hloop|].
      rewrite Hres, Hres1, <- app_assoc. f_equal.
      cbn [omap list_omap fst snd].
      by destruct (scenario_result _ _ _ _ _ _ _).
    + rewrite (scenario_body_disabled CropData cropd engine _ _ _ _ _ _ _ Hen).
      cbn [outcome snd].
      apply (IH ltac:(lia) (fun k s Hin => Hc k s (list_elem_of_further _ _ _ Hin))).
Qed.

(** X12.  For a crop outside the root/tuber list, when setup succeeds and
    no enabled scenario fails during construction, the run finishes
    without error and its result list is, in catalogue order, exactly one
    result for each enabled scenario on which the engine returns at least
    one day of output and one summary, and none for the others.  Each
    result depends on its own scenario only, not on the rest of the
    batch. *)
Theorem X12_one_result_per_completed_scenario :
  forall cfg crop_config weather weather_df,
    is_root_crop (crop cfg) = false ->
    outcome (setup nasa cfg) = Ok (crop_config, weather, weather_df) ->
    (forall key sc, (key, sc) ∈ fert_scenarios cfg -> is_enabled sc = true ->
                    is_ok (outcome (construct cropd cfg crop_config sc)) = true) ->
    error_of (effects (run nasa cropd engine cfg)) = None /\
    batch_results (effects (run nasa cropd engine cfg))
    = omap (fun ks => scenario_result cropd engine cfg crop_config weather
                                      (fst ks) (snd ks))
           (List.filter (fun ks => is_enabled (snd ks)) (fert_scenarios cfg)).
Proof.
  intros cfg crop_config weather weather_df Hroot Hsetup Hc.
  destruct (scenario_result_loop cfg crop_config weather
              (total_scenarios_of (fert_scenarios cfg)) (fert_scenarios cfg)
              Hroot ltac:(lia) Hc
              {| results := []; dataframes := ∅; completed := 0 |})
    as (st & Hloop & Hres).
  cbn in Hres.
  pose proof (run_cases CropData nasa cropd engine cfg) as Hrun.
  destruct (setup_cases nasa cfg) as [Hben _].
  pose proof (scenario_loop_benign CropData cropd engine cfg crop_config weather
                (total_scenarios_of (fert_scenarios cfg)) (fert_scenarios cfg)
                {| results := []; dataframes := ∅; completed := 0 |}) as Hlben.
  rewrite Hsetup in Hrun. cbv zeta in Hrun. rewrite Hloop in Hrun.
  unfold batch_results. rewrite Hrun. cbn [effects fst]. split.
  - by rewrite !error_of_app_progress_log.
  - rewrite !finished_of_app_progress_log by done. cbn. exact Hres.
Qed.

(** ** The table map of a run *)

(** X13.  For a crop outside the root/tuber list, the table map and the
    result list of a run agree: under a display name the map holds the
    frame of the last result with that name, and nothing under a name no
    result has.  With two enabled scenarios of the same name the later
    frame replaces the earlier one. *)
Theorem X13_tables_hold_the_last_frame_per_name :
  forall cfg,
    is_root_crop (crop cfg) = false ->
    forall display_name : string,
      batch_tables (effects (run nasa cropd engine cfg)) !! display_name
      = df <$> last (List.filter (fun r => String.eqb (scenario r) display_name)
                                 (batch_results (effects (run nasa cropd engine cfg)))).
Proof.
  intros cfg Hroot. unfold batch_tables, batch_results.
  rewrite (run_finished CropData nasa cropd engine).
  destruct (outcome (setup nasa cfg)) as [[[crop_config weather] weather_df]|e];
    [|intros; cbn; by rewrite lookup_empty].
  destruct (outcome (scenario_loop cropd engine cfg crop_config weather _ _ _))
    as [st|e] eqn:Hloop; [|intros; cbn; by rewrite lookup_empty].
  revert Hloop.
  apply (scenario_loop_invariant CropData cropd engine cfg crop_config weather _
           (fun st => forall nm : string,
                dataframes st !! nm
                = df <$> last (List.filter (fun r => String.eqb (scenario r) nm)
                                           (results st))));
    [|intros; cbn; by rewrite lookup_empty].
  clear -Hroot. intros st key sc st' HI Hbody nm.
  apply scenario_body_outcomes in Hbody
    as [[_ ->]|(_ & _ & [[-> ->]|[(Hr & _)|(_ & output & s & _ & -> & ->)]])];
    [apply HI | apply HI | congruence |].
  rewrite List.filter_app. cbn [List.filter result_of scenario].
  destruct (String.eqb_spec (name sc) nm) as [->|Hne].
  - rewrite lookup_insert_eq, last_snoc. reflexivity.
  - rewrite lookup_insert_ne by done. rewrite app_nil_r. apply HI.
Qed.

(** X14.  For potato, cassava and sweetpotato a run that finishes hands
    over no scenario result, and every table it stores is the engine's
    raw output, without the GDD columns. *)
Theorem X14_root_crop_tables_are_raw :
  forall cfg,
    is_root_crop (crop cfg) = true ->
    batch_results (effects (run nasa cropd engine cfg)) = [] /\
    forall (display_name : string) d,
      batch_tables (effects (run nasa cropd engine cfg)) !! display_name = Some d ->
      GDD d = None /\ daily_GDD d = None.
Proof.
  intros cfg Hroot.
  split; [by apply root_crop_batch_has_no_results|].
  unfold batch_tables. rewrite (run_finished CropData nasa cropd engine).
  destruct (outcome (setup nasa cfg)) as [[[crop_config weather] weather_df]|e];
    [|intros ? ?; cbn; by rewrite lookup_empty].
  destruct (outcome (scenario_loop cropd engine cfg crop_config weather _ _ _))
    as [st|e] eqn:Hloop; [|intros ? ?; cbn; by rewrite lookup_empty].
  revert Hloop.
  apply (scenario_loop_invariant CropData cropd engine cfg crop_config weather _
           (fun st => forall (nm : string) d,
                dataframes st !! nm = Some d -> GDD d = None /\ daily_GDD d = None));
    [|intros ? ?; cbn; by rewrite lookup_empty].
  clear -Hroot. intros st key sc st' HI Hbody nm d.
  apply scenario_body_outcomes in Hbody
    as [[_ ->]|(_ & _ & [[_ ->]|[(_ & _ & output & ->)|(Hr & _)]])];
    [apply HI | apply HI | | congruence].
  destruct (decide (name sc = nm)) as [->|Hne].
  - rewrite lookup_insert_eq. by intros [= <-].
  - rewrite lookup_insert_ne by done. apply HI.
Qed.

(** ** The main window during a run *)

Variable render : PlotContext -> res unit.

Lemma deliver_app w l1 l2 :
  MainWindow.deliver render w (l1 ++ l2)
  = match MainWindow.deliver render w l1 with
    | (w', Ok _) => MainWindow.deliver render w' l2
    | (w', Raise x) => (w', Raise x)
    end.
Proof.
  revert w. induction l1 as [|e l1 IH]; intros w; [reflexivity|].
  cbn [app MainWindow.deliver].
  destruct (MainWindow.slot render w e) as [w' [u|x]]; [apply IH | reflexivity].
Qed.

(** Progress signals and prints change the progress bar's value and the
    status message, nothing else, and never raise. *)
Lemma deliver_benign l :
  Forall benign l ->
  forall w,
  exists value message,
    MainWindow.deliver render w l
    = (MainWindow.mk (MainWindow.crop_combo w) (MainWindow.location_combo w)
         (MainWindow.date_edit w) (MainWindow.yield_gap_spin w)
         (MainWindow.soil_params w) (MainWindow.fert_scenarios w)
         (MainWindow.run_btn_enabled w) (MainWindow.progress_bar_visible w)
         value message (MainWindow.message_boxes w) (MainWindow.panel w),
       Ok tt).
Proof.
  induction 1 as [|e l He _ IH]; intros w.
  - exists (MainWindow.progress_bar_value w), (MainWindow.statusbar w). by destruct w.
  - cbn [MainWindow.deliver].
    destruct He as [He|(pct & msg & ->)].
    + destruct e; try discriminate He; cbn [MainWindow.slot]; apply IH.
    + cbn [MainWindow.slot].
      destruct (IH (MainWindow.on_simulation_progress w pct msg)) as (v & m & ->).
      by exists v, m.
Qed.

Lemma on_simulation_progress_mk a b c d e f g h v m bx p value message :
  MainWindow.on_simulation_progress (MainWindow.mk a b c d e f g h v m bx p) value message
  = MainWindow.mk a b c d e f g h
      (if (0 <=? value) && (value <=? 100) then value else v) message bx p.
Proof. reflexivity. Qed.

Lemma on_simulation_finished_mk a b c d e f g h v m bx p rs dfs wdf y :
  MainWindow.on_simulation_finished render (MainWindow.mk a b c d e f g h v m bx p)
    rs dfs wdf y
  = match rs with
    | [] =>
        (MainWindow.mk a b c d e f true false v "Simulation completed with no results"
           (bx ++ [WarningBox "Warning" "No results returned from simulation."]) p,
         Ok tt)
    | _ :: _ =>
        match LOCATION_OPTIONS !! b with
        | None => (MainWindow.mk a b c d e f true false v m bx p, Raise (KeyError b))
        | Some location =>
            let ctx := mkPlotContext rs dfs d a (location_name location)
                         (Some wdf) (Some y) in
            match render ctx with
            | Raise x => (MainWindow.mk a b c d e f true false v m bx (Some ctx), Raise x)
            | Ok _ =>
                (MainWindow.mk a b c d e f true false v
                   ("Simulation complete: "
                    +:+ pretty (Z.of_nat (List.length rs)) +:+ " scenarios")
                   bx (Some ctx),
                 Ok tt)
            end
        end
    end.
Proof.
  unfold MainWindow.on_simulation_finished.
  cbn [MainWindow.crop_combo MainWindow.location_combo MainWindow.date_edit
       MainWindow.yield_gap_spin MainWindow.soil_params MainWindow.fert_scenarios
       MainWindow.run_btn_enabled MainWindow.progress_bar_visible
       MainWindow.progress_bar_value MainWindow.statusbar
       MainWindow.message_boxes MainWindow.panel].
  reflexivity.
Qed.

(** What the window shows once the signals of a run have been
    delivered. *)
Lemma deliver_run w cfg :
  let es := effects (run nasa cropd engine cfg) in
  let final := MainWindow.deliver render w es in
  MainWindow.run_btn_enabled (fst final) = true /\
  MainWindow.progress_bar_visible (fst final) = false /\
  match error_of es with
  | Some e =>
      snd final = Ok tt /\
      MainWindow.statusbar (fst final) = "Simulation failed" /\
      MainWindow.message_boxes (fst final)
      = MainWindow.message_boxes w ++ [CriticalBox "Simulation Error" e] /\
      MainWindow.panel (fst final) = MainWindow.panel w
  | None =>
      MainWindow.progress_bar_value (fst final) = 100 /\
      match batch_results es with
      | [] =>
          snd final = Ok tt /\
          MainWindow.statusbar (fst final) = "Simulation completed with no results" /\
          MainWindow.message_boxes (fst final)
          = MainWindow.message_boxes w
            ++ [WarningBox "Warning" "No results returned from simulation."] /\
          MainWindow.panel (fst final) = MainWindow.panel w
      | r :: rs =>
          MainWindow.message_boxes (fst final) = MainWindow.message_boxes w /\
          match LOCATION_OPTIONS !! MainWindow.location_combo w with
          | None =>
              snd final = Raise (KeyError (MainWindow.location_combo w)) /\
              MainWindow.panel (fst final) = MainWindow.panel w
          | Some location =>
              exists ctx,
                MainWindow.panel (fst final) = Some ctx /\
                ctx_results ctx = r :: rs /\
                ctx_dataframes ctx = batch_tables es /\
                ctx_yield_gap_factor ctx = MainWindow.yield_gap_spin w /\
                ctx_crop_name ctx = MainWindow.crop_combo w /\
                ctx_location_name ctx = location_name location /\
                ctx_weather_year ctx = Some (year (start_date cfg)) /\
                match render ctx with
                | Raise x => snd final = Raise x
                | Ok _ =>
                    snd final = Ok tt /\
                    MainWindow.statusbar (fst final)
                    = "Simulation complete: "
                      +:+ pretty (Z.of_nat (List.length (r :: rs))) +:+ " scenarios"
                end
          end
      end
  end.
Proof.
  intros es final. subst es final.
  pose proof (run_cases CropData nasa cropd engine cfg) as Hrun.
  destruct (setup_cases nasa cfg) as [Hsetup _].
  unfold batch_results, batch_tables.
  destruct (outcome (setup nasa cfg)) as [[[crop_config weather] weather_df]|e].
  2:{ rewrite Hrun. cbn [effects fst].
      rewrite deliver_app, error_of_benign by exact Hsetup.
      destruct (deliver_benign _ Hsetup w) as (v & m & ->). by cbn. }
  cbv zeta in Hrun.
  pose proof (scenario_loop_benign CropData cropd engine cfg crop_config weather
                (total_scenarios_of (fert_scenarios cfg)) (fert_scenarios cfg)
                {| results := []; dataframes := ∅; completed := 0 |}) as Hloop.
  assert (Hben : Forall benign
            (effects (setup nasa cfg) ++
             effects (scenario_loop cropd engine cfg crop_config weather
                        (total_scenarios_of (fert_scenarios cfg))
                        {| results := []; dataframes := ∅; completed := 0 |}
                        (fert_scenarios cfg))))
    by (by apply Forall_app).
  destruct (outcome (scenario_loop cropd engine cfg crop_config weather _ _ _))
    as [st|e]; rewrite Hrun; cbn [effects fst]; rewrite app_assoc.
  2:{ rewrite deliver_app, error_of_benign by exact Hben.
      destruct (deliver_benign _ Hben w) as (v & m & ->). by cbn. }
  rewrite deliver_app, error_of_app_progress_log,
    finished_of_app_progress_log by exact Hben.
  destruct (deliver_benign _ Hben w) as (v & m & ->).
  cbn [error_of finished_of MainWindow.deliver MainWindow.slot].
  rewrite !on_simulation_progress_mk. cbn [MainWindow.deliver MainWindow.slot].
  rewrite on_simulation_finished_mk.
  change ((0 <=? 100) && (100 <=? 100)) with true. cbv iota.
  destruct (results st) as [|r rs]; [by cbn|].
  destruct (LOCATION_OPTIONS !! MainWindow.location_combo w) as [location|];
    [|by cbn].
  cbv zeta.
  match goal with
  | |- context [render ?c] => destruct (render c) as [u|x] eqn:Hrender
  end; cbn [fst snd MainWindow.run_btn_enabled MainWindow.progress_bar_visible
            MainWindow.progress_bar_value
            MainWindow.message_boxes MainWindow.panel MainWindow.statusbar].
  - do 4 (split; [reflexivity|]). eexists. split; [reflexivity|].
    cbn [ctx_results ctx_dataframes ctx_yield_gap_factor ctx_crop_name
         ctx_location_name ctx_weather_year].
    do 6 (split; [reflexivity|]). rewrite Hrender. by split.
  - do 4 (split; [reflexivity|]). eexists. split; [reflexivity|].
    cbn [ctx_results ctx_dataframes ctx_yield_gap_factor ctx_crop_name
         ctx_location_name ctx_weather_year].
    do 6 (split; [reflexivity|]). by rewrite Hrender.
Qed.

Lemma run_simulation_ok w w1 cfg :
  MainWindow.run_simulation w = Ok (w1, cfg) ->
  (crop cfg = MainWindow.crop_combo w /\
   LOCATION_OPTIONS !! MainWindow.location_combo w = Some (location cfg) /\
   soil_params cfg = MainWindow.soil_params w /\
   fert_scenarios cfg = MainWindow.fert_scenarios w /\
   start_date cfg = MainWindow.date_edit w) /\
  MainWindow.crop_combo w1 = MainWindow.crop_combo w /\
  MainWindow.location_combo w1 = MainWindow.location_combo w /\
  MainWindow.yield_gap_spin w1 = MainWindow.yield_gap_spin w /\
  MainWindow.run_btn_enabled w1 = false /\
  MainWindow.progress_bar_visible w1 = true /\
  MainWindow.message_boxes w1 = MainWindow.message_boxes w /\
  MainWindow.panel w1 = MainWindow.panel w.
Proof.
  unfold MainWindow.run_simulation.
  destruct (LOCATION_OPTIONS !! MainWindow.location_combo w) as [loc|];
    [|discriminate].
  intros [= <- <-].
  cbn [crop location soil_params fert_scenarios start_date
       MainWindow.crop_combo MainWindow.location_combo MainWindow.yield_gap_spin
       MainWindow.run_btn_enabled MainWindow.progress_bar_visible
       MainWindow.message_boxes MainWindow.panel].
  repeat split; reflexivity.
Qed.


(** X16.  With a root or tuber crop selected (potato, cassava,
    sweetpotato) the window never shows a result: whatever the engine
    computes, the run ends in a message box, either the critical box of
    an error or the warning that no results were returned, and the
    results panel keeps what it showed before. *)
Theorem X16_root_crop_run_shows_no_results :
  forall w w1 cfg,
    is_root_crop (MainWindow.crop_combo w) = true ->
    MainWindow.run_simulation w = Ok (w1, cfg) ->
    let final := MainWindow.deliver render w1 (effects (run nasa cropd engine cfg)) in
    snd final = Ok tt /\
    MainWindow.panel (fst final) = MainWindow.panel w /\
    ((exists e,
        MainWindow.statusbar (fst final) = "Simulation failed" /\
        MainWindow.message_boxes (fst final)
        = MainWindow.message_boxes w ++ [CriticalBox "Simulation Error" e]) \/
     (MainWindow.statusbar (fst final) = "Simulation completed with no results" /\
      MainWindow.message_boxes (fst final)
      = MainWindow.message_boxes w
        ++ [WarningBox "Warning" "No results returned from simulation."])).
Proof.
  intros w w1 cfg Hroot Hclick final. subst final.
  destruct (run_simulation_ok w w1 cfg Hclick)
    as ((Hcrop & _) & _ & _ & _ & _ & _ & Hboxes & Hpanel).
  destruct (deliver_run w1 cfg) as (_ & _ & Hend).
  rewrite <- Hcrop in Hroot.
  rewrite (root_crop_batch_has_no_results CropData nasa cropd engine cfg Hroot) in Hend.
  rewrite Hboxes, Hpanel in Hend.
  destruct (error_of (effects (run nasa cropd engine cfg))) as [e|].
  - destruct Hend as (Hres & Hmsg & Hbox & Hp). do 2 (split; [assumption|]).
    left. by exists e.
  - destruct Hend as (_ & Hres & Hmsg & Hbox & Hp). do 2 (split; [assumption|]).
    by right.
Qed.

(** ** The fertilizer dialog and the run *)

Lemma toggle_enabled_cases scs key state :
  match FertilizerSettingsDialog.toggle_enabled scs key state with
  | Raise e => e = KeyError key /\ (key ∉ map fst scs)
  | Ok scs' =>
      exists pre sc post,
        scs = pre ++ (key, sc) :: post /\
        (key ∉ map fst pre) /\
        scs' = pre ++ (key, FertilizerSettingsDialog.set_enabled sc
                              (state =? FertilizerSettingsDialog.Checked)) :: post
  end.
Proof.
  induction scs as [|[k sc] scs IH]; cbn [FertilizerSettingsDialog.toggle_enabled].
  - split; [reflexivity|]. cbn. apply not_elem_of_nil.
  - destruct (String.eqb_spec k key) as [->|Hne].
    + exists [], sc, scs. cbn. split; [reflexivity|]. split; [apply not_elem_of_nil|reflexivity].
    + destruct (FertilizerSettingsDialog.toggle_enabled scs key state) as [scs'|e].
      * destruct IH as (pre & sc0 & post & -> & Hpre & ->).
        exists ((k, sc) :: pre), sc0, post. split; [reflexivity|]. split; [|reflexivity].
        cbn. intros [Heq|Hin]%elem_of_cons; [by apply Hne | by apply Hpre].
      * destruct IH as [-> Hnot]. split; [reflexivity|].
        cbn. intros [Heq|Hin]%elem_of_cons; [by apply Hne | by apply Hnot].
Qed.

Lemma toggle_enabled_at pre key sc post state :
  key ∉ map fst pre ->
  FertilizerSettingsDialog.toggle_enabled (pre ++ (key, sc) :: post) key state
  = Ok (pre ++ (key, FertilizerSettingsDialog.set_enabled sc
                       (state =? FertilizerSettingsDialog.Checked)) :: post).
Proof.
  induction pre as [|[k sc0] pre IH]; intros Hpre;
    cbn [app FertilizerSettingsDialog.toggle_enabled].
  - by rewrite String.eqb_refl.
  - cbn in Hpre. apply not_elem_of_cons in Hpre as [Hne Hpre].
    destruct (String.eqb_spec k key) as [->|_]; [done|].
    by rewrite IH.
Qed.

Lemma enabled_count_total scs :
  MainWindow.enabled_count scs = total_scenarios_of scs.
Proof.
  induction scs as [|[k sc] scs IH]; [reflexivity|].
  rewrite total_scenarios_of_cons, <- IH. unfold MainWindow.enabled_count.
  cbn [fold_right snd]. unfold is_enabled.
  destruct (default true (enabled sc)); lia.
Qed.

Lemma total_scenarios_of_app scs1 scs2 :
  total_scenarios_of (scs1 ++ scs2) = total_scenarios_of scs1 + total_scenarios_of scs2.
Proof.
  unfold total_scenarios_of. rewrite List.filter_app, List.length_app. lia.
Qed.

(** X17.  Ticking or unticking a box of the fertilizer dialog changes
    the [enabled] flag of the entry with that key and nothing else: the
    keys, their order and every other field stay; the flag becomes true
    exactly for the state [Qt.Checked]; a later change of the same box
    overrides an earlier one; and the call raises [KeyError] exactly when
    the dictionary has no such key. *)
Theorem X17_toggle_changes_one_flag :
  forall scs key state,
    match FertilizerSettingsDialog.toggle_enabled scs key state with
    | Raise e => e = KeyError key /\ (key ∉ map fst scs)
    | Ok scs' =>
        key ∈ map fst scs /\
        map fst scs' = map fst scs /\
        map (fun ks => (name (snd ks), total_n (snd ks), applications (snd ks))) scs'
        = map (fun ks => (name (snd ks), total_n (snd ks), applications (snd ks))) scs /\
        (exists pre sc post,
            scs = pre ++ (key, sc) :: post /\
            (key ∉ map fst pre) /\
            scs' = pre ++ (key, mkScenario (name sc) (total_n sc) (applications sc)
                                  (Some (state =? 2))) :: post) /\
        (forall state',
            FertilizerSettingsDialog.toggle_enabled scs' key state'
            = FertilizerSettingsDialog.toggle_enabled scs key state')
    end.
Proof.
  intros scs key state.
  pose proof (toggle_enabled_cases scs key state) as Hcases.
  destruct (FertilizerSettingsDialog.toggle_enabled scs key state) as [scs'|e];
    [|exact Hcases].
  destruct Hcases as (pre & sc & post & -> & Hpre & ->).
  split.
  { rewrite map_app. apply elem_of_app. right. cbn. apply list_elem_of_here. }
  split; [by rewrite !map_app|].
  split; [by rewrite !map_app|].
  split; [by exists pre, sc, post|].
  intros state'. by rewrite !toggle_enabled_at.
Qed.

(** Two catalogues with the same enabled scenarios give the same run. *)
Lemma run_same_enabled c l sp sd scs1 scs2 :
  List.filter (fun ks => is_enabled (snd ks)) scs1
  = List.filter (fun ks => is_enabled (snd ks)) scs2 ->
  run nasa cropd engine (mkConfig c l sp scs1 sd)
  = run nasa cropd engine (mkConfig c l sp scs2 sd).
Proof.
  intros Hsame. unfold run. f_equal. unfold batch.
  cbn [crop location soil_params fert_scenarios start_date].
  replace (setup nasa (mkConfig c l sp scs2 sd))
    with (setup nasa (mkConfig c l sp scs1 sd)) by reflexivity.
  apply bind_ext. intros [[crop_config weather] weather_df].
  rewrite <- (filter_enabled_total scs1), <- (filter_enabled_total scs2).
  rewrite <- (scenario_loop_filter_enabled _ _ _ _ scs1),
    <- (scenario_loop_filter_enabled _ _ _ _ scs2).
  rewrite (scenario_loop_other_catalogue c l sp sd scs1 scs2).
  by rewrite Hsame.
Qed.

Lemma filter_other_keys key (scs : list (string * Scenario)) :
  key ∉ map fst scs ->
  List.filter (fun ks => negb (String.eqb (fst ks) key)) scs = scs.
Proof.
  induction scs as [|[k sc] scs IH]; intros Hkey; [reflexivity|].
  cbn in Hkey. apply not_elem_of_cons in Hkey as [Hne Hkey].
  cbn [List.filter fst]. destruct (String.eqb_spec k key) as [->|_]; [done|].
  cbn [negb]. by rewrite IH.
Qed.

(** X18.  A scenario whose box is unticked in the dialog is out of the
    run as if it had been deleted from the dictionary: the worker emits
    the same signals and prints, with the same progress percentages,
    results and tables, as on the dictionary without that key. *)
Theorem X18_unticked_scenario_is_as_good_as_deleted :
  forall cfg key state scs',
    NoDup (map fst (fert_scenarios cfg)) ->
    state <> FertilizerSettingsDialog.Checked ->
    FertilizerSettingsDialog.toggle_enabled (fert_scenarios cfg) key state = Ok scs' ->
    run nasa cropd engine
      {| crop := crop cfg; location := location cfg; soil_params := soil_params cfg;
         fert_scenarios := scs'; start_date := start_date cfg |}
    = run nasa cropd engine
        {| crop := crop cfg; location := location cfg; soil_params := soil_params cfg;
           fert_scenarios :=
             List.filter (fun ks => negb (String.eqb (fst ks) key)) (fert_scenarios cfg);
           start_date := start_date cfg |}.
Proof.
  intros [c l sp scs sd] key state scs'.
  cbn [crop location soil_params fert_scenarios start_date].
  intros Hnodup Hstate Htoggle.
  pose proof (toggle_enabled_cases scs key state) as Hcases.
  rewrite Htoggle in Hcases. destruct Hcases as (pre & sc & post & -> & Hpre & ->).
  rewrite map_app in Hnodup. cbn [map fst] in Hnodup.
  apply NoDup_app in Hnodup as (_ & _ & Hpost). apply NoDup_cons in Hpost as [Hpost _].
  rewrite List.filter_app. cbn [List.filter fst]. rewrite String.eqb_refl. cbn [negb].
  rewrite !filter_other_keys by assumption.
  apply run_same_enabled. rewrite !List.filter_app. cbn [List.filter snd].
  replace (state =? FertilizerSettingsDialog.Checked) with false
    by (symmetry; by apply Z.eqb_neq).
  reflexivity.
Qed.

Lemma scenario_body_same cfg crop_config weather total st key sc1 sc2 :
  name sc1 = name sc2 -> total_n sc1 = total_n sc2 ->
  applications sc1 = applications sc2 -> is_enabled sc1 = is_enabled sc2 ->
  scenario_body cropd engine cfg crop_config weather total st key sc1
  = scenario_body cropd engine cfg crop_config weather total st key sc2.
Proof.
  destruct sc1 as [n1 t1 a1 e1], sc2 as [n2 t2 a2 e2]. cbn [name total_n applications].
  intros <- <- <- Hen.
  destruct e1 as [[]|], e2 as [[]|]; try discriminate Hen; reflexivity.
Qed.

Lemma scenario_loop_replace cfg crop_config weather total pre key sc1 sc2 post :
  name sc1 = name sc2 -> total_n sc1 = total_n sc2 ->
  applications sc1 = applications sc2 -> is_enabled sc1 = is_enabled sc2 ->
  forall st,
    scenario_loop cropd engine cfg crop_config weather total st
      (pre ++ (key, sc1) :: post)
    = scenario_loop cropd engine cfg crop_config weather total st
        (pre ++ (key, sc2) :: post).
Proof.
  intros Hn Ht Ha He. induction pre as [|[k sc] pre IH]; intros st; cbn [app].
  - rewrite !scenario_loop_cons.
    by rewrite (scenario_body_same _ _ _ _ _ _ sc1 sc2).
  - rewrite !scenario_loop_cons. apply bind_ext. exact IH.
Qed.

(** X19.  Unticking a box and ticking it again restores the run: for a
    scenario that was enabled before (by its flag or by the default of a
    missing flag), the worker emits exactly what it emits on the
    untouched dictionary. *)
Theorem X19_untick_then_tick_restores_the_run :
  forall cfg key state scs1 scs2,
    (forall sc, (key, sc) ∈ fert_scenarios cfg -> is_enabled sc = true) ->
    FertilizerSettingsDialog.toggle_enabled (fert_scenarios cfg) key state = Ok scs1 ->
    FertilizerSettingsDialog.toggle_enabled scs1 key FertilizerSettingsDialog.Checked
    = Ok scs2 ->
    run nasa cropd engine
      {| crop := crop cfg; location := location cfg; soil_params := soil_params cfg;
         fert_scenarios := scs2; start_date := start_date cfg |}
    = run nasa cropd engine cfg.
Proof.
  intros [c l sp scs sd] key state scs1 scs2.
  cbn [crop location soil_params fert_scenarios start_date].
  intros Hen Htoggle1 Htoggle2.
  pose proof (toggle_enabled_cases scs key state) as Hcases.
  rewrite Htoggle1 in Hcases. destruct Hcases as (pre & sc & post & -> & Hpre & ->).
  rewrite toggle_enabled_at in Htoggle2 by exact Hpre. injection Htoggle2 as <-.
  assert (Hsc : is_enabled sc = true).
  { apply Hen. apply elem_of_app. right. apply list_elem_of_here. }
  unfold run. f_equal. unfold batch.
  cbn [crop location soil_params fert_scenarios start_date].
  match goal with
  | |- bind (setup nasa ?cfg1) _ = bind (setup nasa ?cfg2) _ =>
      replace (setup nasa cfg1) with (setup nasa cfg2) by reflexivity
  end.
  apply bind_ext. intros [[crop_config weather] weather_df].
  rewrite !total_scenarios_of_app, !total_scenarios_of_cons, Hsc.
  change (is_enabled (FertilizerSettingsDialog.set_enabled _ _)) with true.
  match goal with
  | |- context [scenario_loop cropd engine (mkConfig c l sp ?scs2 sd)] =>
      rewrite (scenario_loop_other_catalogue c l sp sd scs2
                 (pre ++ (key, sc) :: post))
  end.
  rewrite (scenario_loop_replace _ _ _ _ pre key _ sc post); try reflexivity.
  by rewrite Hsc.
Qed.

(** X20.  The number of enabled scenarios the window announces when the
    dialog is accepted is the number the worker divides by, and on a run
    that ends with the finished signal it is the number of
    "Running: ..." progress signals: with the four fixed ones (5, 15, 95,
    100) the run emits that many plus four. *)
Theorem X20_announced_count_is_the_number_of_scenarios_run :
  forall cfg,
    MainWindow.enabled_count (fert_scenarios cfg)
    = total_scenarios_of (fert_scenarios cfg) /\
    (error_of (effects (run nasa cropd engine cfg)) = None ->
     Z.of_nat (List.length (progress_of (effects (run nasa cropd engine cfg))))
     = MainWindow.enabled_count (fert_scenarios cfg) + 4).
Proof.
  intros cfg. split; [apply enabled_count_total|].
  rewrite enabled_count_total.
  pose proof (run_cases CropData nasa cropd engine cfg) as Hrun.
  destruct (setup_cases nasa cfg) as [Hsetup Hp].
  pose proof (total_scenarios_of_nonneg (fert_scenarios cfg)) as Hn.
  destruct (outcome (setup nasa cfg)) as [[[crop_config weather] weather_df]|e].
  2:{ rewrite Hrun. cbn [effects fst].
      rewrite error_of_app_progress_log by exact Hsetup. discriminate. }
  cbv zeta in Hrun.
  pose proof (scenario_loop_benign CropData cropd engine cfg crop_config weather
                (total_scenarios_of (fert_scenarios cfg)) (fert_scenarios cfg)
                {| results := []; dataframes := ∅; completed := 0 |}) as Hloop.
  destruct (outcome (scenario_loop cropd engine cfg crop_config weather _ _ _))
    as [st|e] eqn:Hout; rewrite Hrun; cbn [effects fst].
  2:{ rewrite app_assoc, error_of_app_progress_log by (by apply Forall_app).
      discriminate. }
  intros _.
  destruct (scenario_loop_progress_exact CropData cropd engine cfg crop_config weather
              _ _ _ st Hout) as [_ Hexact].
  rewrite !progress_of_app, Hp, Hexact.
  rewrite !List.length_app, List.length_map, length_seqZ.
  cbn [List.length progress_of omap]. cbn. lia.
Qed.

End WorkerExtras.

(** * Concrete instances of the further properties *)


Lemma X5_witness :
  run Demo.nasa Demo.cropd Demo.engine (Demo.config "quinoa" DEFAULT_FERT_SCENARIOS)
  = ([ Progress 5 "Importing PCSE modules..."; Error (KeyError "quinoa") ], Ok tt) /\
  run DemoWindow.nasa_down Demo.cropd Demo.engine
      (Demo.config "barley" DEFAULT_FERT_SCENARIOS)
  = ([ Progress 5 "Importing PCSE modules...";
       Progress 15 "Loading weather for Nairobi...";
       Error (PCSEError "NASA POWER unreachable") ], Ok tt).
Proof.
  split.
  - apply (X5_setup_failures unit Demo.nasa Demo.cropd Demo.engine
             (Demo.config "quinoa" DEFAULT_FERT_SCENARIOS)).
    vm_compute. reflexivity.
  - apply (proj2 (X5_setup_failures unit DemoWindow.nasa_down Demo.cropd Demo.engine
                    (Demo.config "barley" DEFAULT_FERT_SCENARIOS))
             Demo.barley_config).
    + vm_compute. reflexivity.
    + reflexivity.
Defined.

Lemma X7_witness :
  error_of (effects (run DemoWindow.nasa_no_weather Demo.cropd Demo.engine
                         (Demo.config "barley" DEFAULT_FERT_SCENARIOS)))
  = Some (KeyError "date") /\
  is_ok (outcome (setup Demo.nasa (Demo.config "barley" DEFAULT_FERT_SCENARIOS))) = true.
Proof.
  split.
  - destruct (X7_year_without_weather_is_fatal unit DemoWindow.nasa_no_weather
                Demo.cropd Demo.engine (Demo.config "barley" DEFAULT_FERT_SCENARIOS)
                Demo.barley_config DemoWindow.no_weather) as [Hnone _].
    + vm_compute. reflexivity.
    + reflexivity.
    + destruct Hnone as [Herr _]; [intros d _; reflexivity | exact Herr].
  - destruct (X7_year_without_weather_is_fatal unit Demo.nasa
                Demo.cropd Demo.engine (Demo.config "barley" DEFAULT_FERT_SCENARIOS)
                Demo.barley_config Demo.weather) as [_ Hsome].
    + vm_compute. reflexivity.
    + reflexivity.
    + apply Hsome. exists (mkdate 2023 1 1). split; [|reflexivity].
      apply list_elem_of_In. vm_compute. left. reflexivity.
Defined.

Lemma X12_witness :
  map scenario_key
      (batch_results (effects (Demo.run (Demo.config "barley" DEFAULT_FERT_SCENARIOS))))
  = ["none"; "low"; "recommended"; "high"].
Proof.
  destruct (X12_one_result_per_completed_scenario unit Demo.nasa Demo.cropd Demo.engine
              (Demo.config "barley" DEFAULT_FERT_SCENARIOS)
              Demo.barley_config Demo.weather DemoWindow.weather_2023)
    as [_ Hresults].
  - reflexivity.
  - vm_compute. reflexivity.
  - intros key sc Hin _.
    unfold Demo.config, DEFAULT_FERT_SCENARIOS in Hin. cbn [fert_scenarios] in Hin.
    repeat (apply elem_of_cons in Hin as [[= -> ->]|Hin]; [vm_compute; reflexivity|]).
    by apply elem_of_nil in Hin.
  - unfold Demo.run. rewrite Hresults. vm_compute. reflexivity.
Defined.

Lemma X13_witness :
  rows <$> (batch_tables (effects (Demo.run (Demo.config "barley" DEFAULT_FERT_SCENARIOS)))
            !! "No Fertilizer")
  = Some (Demo.three_days (mkdate 2023 3 15)).
Proof.
  unfold Demo.run.
  rewrite (X13_tables_hold_the_last_frame_per_name unit Demo.nasa Demo.cropd Demo.engine
             (Demo.config "barley" DEFAULT_FERT_SCENARIOS) eq_refl "No Fertilizer").
  vm_compute. reflexivity.
Defined.

Lemma X14_witness :
  batch_results (effects (Demo.run (Demo.config "potato" DEFAULT_FERT_SCENARIOS))) = [] /\
  GDD <$> (batch_tables (effects (Demo.run (Demo.config "potato" DEFAULT_FERT_SCENARIOS)))
           !! "No Fertilizer")
  = Some None.
Proof.
  unfold Demo.run.
  destruct (X14_root_crop_tables_are_raw unit Demo.nasa Demo.cropd Demo.engine
              (Demo.config "potato" DEFAULT_FERT_SCENARIOS) eq_refl) as [Hres Htab].
  split; [exact Hres|].
  destruct (batch_tables _ !! "No Fertilizer") as [d|] eqn:Hd;
    [|vm_compute in Hd; discriminate].
  destruct (Htab _ _ Hd) as [Hgdd _]. cbn. by rewrite Hgdd.
Defined.


Lemma X16_witness :
  MainWindow.run_simulation (DemoWindow.window "potato")
  = Ok (DemoWindow.running "potato", DemoWindow.config "potato") /\
  MainWindow.message_boxes
    (fst (MainWindow.deliver DemoWindow.render_ok (DemoWindow.running "potato")
            (effects (Demo.run (DemoWindow.config "potato")))))
  = [WarningBox "Warning" "No results returned from simulation."].
Proof.
  assert (Hclick : MainWindow.run_simulation (DemoWindow.window "potato")
                   = Ok (DemoWindow.running "potato", DemoWindow.config "potato"))
    by (vm_compute; reflexivity).
  split; [exact Hclick|].
  pose proof (X16_root_crop_run_shows_no_results unit Demo.nasa Demo.cropd Demo.engine
                DemoWindow.render_ok (DemoWindow.window "potato") _ _
                eq_refl Hclick) as Hrun.
  cbv zeta in Hrun. destruct Hrun as (_ & _ & [(e & Hfailed & _)|[_ Hboxes]]).
  - vm_compute in Hfailed. discriminate.
  - exact Hboxes.
Defined.

Lemma X18_witness :
  exists scs',
    FertilizerSettingsDialog.toggle_enabled DEFAULT_FERT_SCENARIOS "medium"
      FertilizerSettingsDialog.Unchecked = Ok scs' /\
    Demo.run (Demo.config "barley" scs')
    = Demo.run (Demo.config "barley"
                  (List.filter (fun ks => negb (String.eqb (fst ks) "medium"))
                               DEFAULT_FERT_SCENARIOS)).
Proof.
  destruct (FertilizerSettingsDialog.toggle_enabled DEFAULT_FERT_SCENARIOS "medium"
              FertilizerSettingsDialog.Unchecked) as [scs'|e] eqn:Htoggle;
    [|vm_compute in Htoggle; discriminate].
  exists scs'. split; [reflexivity|].
  apply (X18_unticked_scenario_is_as_good_as_deleted unit Demo.nasa Demo.cropd
           Demo.engine (Demo.config "barley" DEFAULT_FERT_SCENARIOS) "medium"
           FertilizerSettingsDialog.Unchecked scs').
  - change (NoDup ["none"; "low"; "medium"; "recommended"; "high"]).
    apply (bool_decide_unpack _). vm_compute. exact I.
  - discriminate.
  - exact Htoggle.
Defined.

Lemma X19_witness :
  exists scs1 scs2,
    FertilizerSettingsDialog.toggle_enabled DEFAULT_FERT_SCENARIOS "low"
      FertilizerSettingsDialog.Unchecked = Ok scs1 /\
    FertilizerSettingsDialog.toggle_enabled scs1 "low"
      FertilizerSettingsDialog.Checked = Ok scs2 /\
    Demo.run (Demo.config "barley" scs2)
    = Demo.run (Demo.config "barley" DEFAULT_FERT_SCENARIOS).
Proof.
  destruct (FertilizerSettingsDialog.toggle_enabled DEFAULT_FERT_SCENARIOS "low"
              FertilizerSettingsDialog.Unchecked) as [scs1|e] eqn:Htoggle1;
    [|vm_compute in Htoggle1; discriminate].
  pose proof Htoggle1 as Hscs1. vm_compute in Hscs1. injection Hscs1 as <-.
  lazymatch type of Htoggle1 with
  | _ = Ok ?unticked =>
      destruct (FertilizerSettingsDialog.toggle_enabled unticked "low"
                  FertilizerSettingsDialog.Checked) as [scs2|e] eqn:Htoggle2;
        [|vm_compute in Htoggle2; discriminate]
  end.
  eexists _, scs2. split; [reflexivity|]. split; [exact Htoggle2|].
  eapply (X19_untick_then_tick_restores_the_run unit Demo.nasa Demo.cropd Demo.engine
            (Demo.config "barley" DEFAULT_FERT_SCENARIOS) "low"
            FertilizerSettingsDialog.Unchecked);
    [| exact Htoggle1 | exact Htoggle2].
  intros sc Hin.
  unfold Demo.config, DEFAULT_FERT_SCENARIOS in Hin. cbn [fert_scenarios] in Hin.
  repeat (apply elem_of_cons in Hin as [Heq|Hin]; [by inversion Heq|]).
  by apply elem_of_nil in Hin.
Defined.

Lemma X20_witness :
  MainWindow.enabled_count DEFAULT_FERT_SCENARIOS = 5 /\
  Z.of_nat (List.length (progress_of
              (effects (Demo.run (Demo.config "barley" DEFAULT_FERT_SCENARIOS))))) = 9.
Proof.
  destruct (X20_announced_count_is_the_number_of_scenarios_run unit Demo.nasa Demo.cropd
              Demo.engine (Demo.config "barley" DEFAULT_FERT_SCENARIOS))
    as [Hcount Hprogress].
  split; [reflexivity|].
  unfold Demo.run. rewrite Hprogress; vm_compute; reflexivity.
Defined.
